(** * create_test_files.py: the fixture generator of the File Organizer

    A shallow embedding of [src/create_test_files.py].  The script resolves
    the user's desktop folder, creates the [test_files] folder in it, runs
    six builders that write fourteen fixed files, and lists the folder.

    The script is effectful: it reads and writes the file system, prints,
    and raises.  It is embedded in a state-and-exception monad over a
    [world] made of a file system (a finite map from paths to nodes) and
    the list of printed strings.  The parts of the Python runtime the
    script calls (pathlib, zipfile, json, Pillow) are modelled at the level
    of their documented interface. *)

From Stdlib Require Import String Ascii ZArith List DecimalString.
From stdpp Require Import gmap strings list fin_maps sorting.

Set Warnings "-register-all".

(** ** Text *)

Module Txt.

(** The double quote, the line feed and the backslash, as strings. *)
Definition dq : string := String "034"%char EmptyString.
Definition nl : string := String "010"%char EmptyString.
Definition bs : string := String "092"%char EmptyString.

(** [q s] is [s] between double quotes. *)
Definition q (s : string) : string := dq +:+ s +:+ dq.

(** [sep.join(l)]. *)
Fixpoint join (sep : string) (l : list string) : string :=
  match l with
  | [] => EmptyString
  | [s] => s
  | s :: l' => s +:+ sep +:+ join sep l'
  end.

(** A text given by its lines, every line ended by a line feed. *)
Fixpoint unlines (l : list string) : string :=
  match l with
  | [] => EmptyString
  | s :: l' => s +:+ nl +:+ unlines l'
  end.

(** [str(n)] for a natural number. *)
Definition str_nat (n : nat) : string :=
  NilEmpty.string_of_uint (Nat.to_uint n).

(** [c * n]: a string repeated. *)
Fixpoint repeat_str (s : string) (n : nat) : string :=
  match n with
  | O => EmptyString
  | S n' => s +:+ repeat_str s n'
  end.

(** [b"..."]: the bytes of an ASCII literal. *)
Definition bytes_of (s : string) : list Byte.byte := list_byte_of_string s.

End Txt.

(** ** Paths: [pathlib.Path] *)

Module Pth.

(** An absolute path, as the list of its components below the root. *)
Definition path : Type := list string.

(** [p / name]. *)
Definition child (p : path) (name : string) : path := p ++ [name].

(** [p.parent]; the root is its own parent. *)
Definition parent (p : path) : path := removelast p.

(** [p.name]; the root has the empty name. *)
Definition name (p : path) : string := List.last p EmptyString.

(** [str(p)]. *)
Definition str (p : path) : string :=
  ("/" +:+ Txt.join "/" p)%string.

(** The order of paths: the lists of components are compared
    lexicographically, and two components by character code, the order
    of Python's [str]. *)
Fixpoint leb (p1 p2 : path) : bool :=
  match p1, p2 with
  | [], _ => true
  | _ :: _, [] => false
  | a :: p1', b :: p2' =>
      match String.compare a b with
      | Lt => true
      | Gt => false
      | Eq => leb p1' p2'
      end
  end.

Definition le (p1 p2 : path) : Prop := leb p1 p2 = true.

#[global] Instance le_dec (p1 p2 : path) : Decision (le p1 p2).
Proof. unfold le. apply _. Defined.

End Pth.

Abbreviation path := Pth.path.
Notation "p </> n" := (Pth.child p n) (at level 50, left associativity).

(** ** Exceptions *)

(** The exception classes the script can meet.  [OSError] stands for any
    operating-system error that is none of its five named subclasses;
    [IOError] is an alias of [OSError] in Python 3.  [KeyboardInterrupt]
    derives from [BaseException] and not from [Exception]. *)
Inductive exn_class : Type :=
  | FileNotFoundError
  | FileExistsError
  | PermissionError
  | IsADirectoryError
  | NotADirectoryError
  | OSError
  | ValueError
  | NameError
  | BadZipFile
  | KeyboardInterrupt.

Record exn : Type := Exn { exn_cls : exn_class; exn_msg : string }.

(** [isinstance(e, IOError)]. *)
Definition is_IOError (e : exn) : bool :=
  match exn_cls e with
  | FileNotFoundError | FileExistsError | PermissionError
  | IsADirectoryError | NotADirectoryError | OSError => true
  | ValueError | NameError | BadZipFile | KeyboardInterrupt => false
  end.

(** [isinstance(e, Exception)]. *)
Definition is_Exception (e : exn) : bool :=
  match exn_cls e with
  | KeyboardInterrupt => false
  | _ => true
  end.

(** [str(e)] for an error of the operating system on a path:
    [[Errno n] strerror: 'path']. *)
Definition os_error (c : exn_class) (errno : nat) (strerror : string)
    (p : path) : exn :=
  Exn c ("[Errno " +:+ Txt.str_nat errno +:+ "] " +:+ strerror +:+ ": '"
         +:+ Pth.str p +:+ "'")%string.

Definition ENOENT (p : path) : exn :=
  os_error FileNotFoundError 2 "No such file or directory" p.
Definition EACCES (p : path) : exn :=
  os_error PermissionError 13 "Permission denied" p.
Definition EEXIST (p : path) : exn :=
  os_error FileExistsError 17 "File exists" p.
Definition ENOTDIR (p : path) : exn :=
  os_error NotADirectoryError 20 "Not a directory" p.
Definition EISDIR (p : path) : exn :=
  os_error IsADirectoryError 21 "Is a directory" p.

(** ** Images: the part of Pillow the script uses *)

Inductive font : Type := default_font.

Inductive image_format : Type := PNG | JPEG.

(** What has been drawn on a canvas, in drawing order. *)
Inductive draw_op : Type :=
  | DrawText (xy : Z * Z) (text fill : string) (fnt : option font)
  | DrawRectangle (box : list Z) (outline : string) (width : Z)
  | DrawEllipse (box : list Z) (outline : string) (width : Z).

Record image : Type := Image {
  im_mode : string;
  im_size : Z * Z;
  im_color : string;
  im_ops : list draw_op
}.

(** ** File contents, nodes and the file system *)

(** The local time as the archive keeps it: year, month, day, hours,
    minutes and seconds, the first six fields of [time.localtime()]. *)
Definition date_time : Type := (nat * nat * nat * nat * nat * nat)%type.

(** One member of a ZIP archive, as its [ZipInfo] and its data: its name,
    the time it was written at, and its data. *)
Record zip_member : Type := Member {
  zi_filename : string;
  zi_date_time : date_time;
  zi_data : string
}.

(** What a regular file holds.  A ZIP archive is held as the list of its
    members, in the order they were written; it is [ZipOpen] from the
    moment it is opened for writing until it is closed, when the central
    directory is written and it becomes a [ZipArchive].  An image file is
    held as the canvas that was saved and the format it was saved in. *)
Inductive content : Type :=
  | Text (s : string)
  | Bytes (b : list Byte.byte)
  | ZipOpen (members : list zip_member)
  | ZipArchive (members : list zip_member)
  | ImageFile (fmt : image_format) (im : image).

(** A node is a directory or a regular file; [w] tells whether the user
    may write to it (for a directory: create entries in it). *)
Inductive node : Type :=
  | Dir (w : bool)
  | File (w : bool) (c : content).

Abbreviation filesystem := (gmap path node).

(** What the script acts on: the file system and the standard output, one
    string for each call of [print]. *)
Record world : Type := World { fs : filesystem; out : list string }.

(** ** The monad of the script: state and exceptions *)

Inductive result (A : Type) : Type :=
  | Returns (a : A)
  | Raises (e : exn).
Arguments Returns {A} a.
Arguments Raises {A} e.

Definition Py (A : Type) : Type := world -> result A * world.

#[global] Instance Py_ret : MRet Py := λ A a w, (Returns a, w).

#[global] Instance Py_bind : MBind Py := λ A B f m w,
  match m w with
  | (Returns a, w') => f a w'
  | (Raises e, w') => (Raises e, w')
  end.

(** [raise e]. *)
Definition raise {A : Type} (e : exn) : Py A := λ w, (Raises e, w).

(** A call that touches neither the files nor the output. *)
Definition call {A : Type} (r : result A) : Py A := λ w, (r, w).

(** [try: m  except C as e: h e], where [catch] decides [isinstance(e, C)].
    The handler runs in the world the body left behind. *)
Definition try_except {A : Type} (m : Py A) (catch : exn -> bool)
    (h : exn -> Py A) : Py A := λ w,
  match m w with
  | (Returns a, w') => (Returns a, w')
  | (Raises e, w') => if catch e then h e w' else (Raises e, w')
  end.

(** [try: m  finally: c]: [c] runs on every exit of [m]. *)
Definition try_finally {A : Type} (m : Py A) (c : Py unit) : Py A := λ w,
  match m w with
  | (r, w') =>
      match c w' with
      | (Returns _, w'') => (r, w'')
      | (Raises e, w'') => (Raises e, w'')
      end
  end.

(** The world a computation leaves, and what it returned or raised. *)
Definition exec {A : Type} (m : Py A) (w : world) : world := (m w).2.
Definition outcome {A : Type} (m : Py A) (w : world) : result A := (m w).1.

(** [print(s)]. *)
Definition print (s : string) : Py unit := λ w,
  (Returns tt, World (fs w) (out w ++ [s])).

(** ** File-system operations *)

Module Fs.

(** Opening [p] for writing and storing [c] in it: the file is created
    in its parent directory, or truncated when it is there. *)
Definition store (p : path) (c : content) (m : filesystem)
    : result filesystem :=
  match m !! p with
  | Some (Dir _) => Raises (EISDIR p)
  | Some (File true _) => Returns (<[p := File true c]> m)
  | Some (File false _) => Raises (EACCES p)
  | None =>
      match m !! Pth.parent p with
      | Some (Dir true) => Returns (<[p := File true c]> m)
      | Some (Dir false) => Raises (EACCES p)
      | Some (File _ _) => Raises (ENOTDIR p)
      | None => Raises (ENOENT p)
      end
  end.

(** [os.mkdir(p)], with the [exist_ok] flag of [Path.mkdir]: an existing
    entry is an error unless [exist_ok] is set and it is a directory. *)
Definition make_dir (p : path) (exist_ok : bool) (m : filesystem)
    : result filesystem :=
  match m !! p with
  | Some (Dir _) => if exist_ok then Returns m else Raises (EEXIST p)
  | Some (File _ _) => Raises (EEXIST p)
  | None =>
      match m !! Pth.parent p with
      | Some (Dir true) => Returns (<[p := Dir true]> m)
      | Some (Dir false) => Raises (EACCES p)
      | Some (File _ _) => Raises (ENOTDIR p)
      | None => Raises (ENOENT p)
      end
  end.

(** The paths of the map directly below [d], in the order the map lists
    them. *)
Definition children (m : filesystem) (d : path) : list path :=
  (map_to_list
     (filter (λ kv : path * node, Pth.parent kv.1 = d ∧ kv.1 ≠ d) m)).*1.

(** The entries of the directory [d]; none when [d] is not a
    directory. *)
Definition entries (m : filesystem) (d : path) : list path :=
  match m !! d with
  | Some (Dir _) => children m d
  | _ => []
  end.

Definition is_regular (m : filesystem) (p : path) : bool :=
  match m !! p with
  | Some (File _ _) => true
  | _ => false
  end.

Definition present (m : filesystem) (p : path) : bool :=
  match m !! p with
  | Some _ => true
  | None => false
  end.

End Fs.

(** Lifting an update of the file system to the monad. *)
Definition update_fs (f : filesystem -> result filesystem) : Py unit := λ w,
  match f (fs w) with
  | Returns m' => (Returns tt, World m' (out w))
  | Raises e => (Raises e, w)
  end.

(** [p.exists()]. *)
Definition Path_exists (p : path) : Py bool := λ w,
  (Returns (Fs.present (fs w) p), w).

(** [p.is_file()]. *)
Definition Path_is_file (p : path) : Py bool := λ w,
  (Returns (Fs.is_regular (fs w) p), w).

(** [p.mkdir(exist_ok=exist_ok)]. *)
Definition Path_mkdir (p : path) (exist_ok : bool) : Py unit :=
  update_fs (Fs.make_dir p exist_ok).

(** [p.write_text(s)] and [p.write_bytes(b)]. *)
Definition Path_write_text (p : path) (s : string) : Py unit :=
  update_fs (Fs.store p (Text s)).
Definition Path_write_bytes (p : path) (b : list Byte.byte) : Py unit :=
  update_fs (Fs.store p (Bytes b)).

(** [list(p.glob("*"))]. *)
Definition Path_glob_star (p : path) : Py (list path) := λ w,
  (Returns (Fs.entries (fs w) p), w).

(** [sorted(files)] on paths. *)
Definition sorted (files : list path) : list path := merge_sort Pth.le files.

(** [for x in l: body x]. *)
Fixpoint for_each {A : Type} (l : list A) (body : A -> Py unit) : Py unit :=
  match l with
  | [] => mret tt
  | x :: l' => body x ;; for_each l' body
  end.

(** ** [zipfile]: writing and reading an archive *)

Module Zip.

(** A [ZipFile] object open for writing: it holds the file it writes. *)
Record ZipFile : Type := Handle { zip_path : path }.

(** [zipfile.ZipFile(p, 'w')]: the file is created or truncated, and
    the archive starts with no member. *)
Definition open_w (p : path) : Py ZipFile :=
  update_fs (Fs.store p (ZipOpen [])) ;; mret (Handle p).

Definition append_member (z : ZipFile) (name data : string)
    (now : date_time) (m : filesystem) : result filesystem :=
  match m !! zip_path z with
  | Some (File wr (ZipOpen ms)) =>
      Returns (<[zip_path z
                   := File wr (ZipOpen (ms ++ [Member name now data]))]> m)
  | _ =>
      Raises (Exn ValueError
                "Attempt to write to ZIP archive that was already closed")
  end.

(** [z.writestr(name, data)]: one more member, after those written.  Its
    [ZipInfo] is stamped with the local time the clock gives at the call,
    here [now]. *)
Definition writestr (z : ZipFile) (name data : string) (now : date_time)
    : Py unit :=
  update_fs (append_member z name data now).

Definition finish (z : ZipFile) (m : filesystem) : result filesystem :=
  match m !! zip_path z with
  | Some (File wr (ZipOpen ms)) =>
      Returns (<[zip_path z := File wr (ZipArchive ms)]> m)
  | _ => Returns m
  end.

(** [z.close()]: the central directory is written. *)
Definition close (z : ZipFile) : Py unit := update_fs (finish z).

(** [with zipfile.ZipFile(p, 'w') as z: body z]. *)
Definition with_open_w {A : Type} (p : path) (body : ZipFile -> Py A)
    : Py A :=
  z ← open_w p; try_finally (body z) (close z).

(** Reading: [zipfile.ZipFile(p).namelist()] with the data of every
    member.  A file that is not a closed archive is refused. *)
Definition read_members (p : path) : Py (list (string * string)) := λ w,
  match fs w !! p with
  | Some (File _ (ZipArchive ms)) =>
      (Returns ((λ zi, (zi_filename zi, zi_data zi)) <$> ms), w)
  | Some (File _ _) => (Raises (Exn BadZipFile "File is not a zip file"), w)
  | Some (Dir _) => (Raises (EISDIR p), w)
  | None => (Raises (ENOENT p), w)
  end.

End Zip.

(** ** Pillow: [Image], [ImageDraw], [ImageFont] *)

Module PIL.

(** [Image.new(mode, size, color=color)]. *)
Definition Image_new (mode : string) (size : Z * Z) (color : string)
    : image :=
  Image mode size color [].

(** [ImageDraw.Draw(im)]: the object that draws on [im], in place; it
    holds the canvas, and what its [getfont()] does, which gives the font
    of the texts drawn with [font=None]. *)
Record Draw : Type := Drawing { canvas : image; getfont : result font }.

Definition ImageDraw_Draw (default : result font) (im : image) : Draw :=
  Drawing im default.

Definition drawn (d : Draw) (op : draw_op) : Draw :=
  Drawing
    (Image (im_mode (canvas d)) (im_size (canvas d)) (im_color (canvas d))
       (im_ops (canvas d) ++ [op]))
    (getfont d).

(** [draw.text(xy, s, fill=fill, font=fnt)]: with no font given, the text
    is drawn in the font of [getfont()], and what that raises is raised. *)
Definition text (d : Draw) (xy : Z * Z) (s fill : string)
    (fnt : option font) : Py Draw :=
  match fnt with
  | Some _ => mret (drawn d (DrawText xy s fill fnt))
  | None => call (getfont d) ;; mret (drawn d (DrawText xy s fill fnt))
  end.

(** [draw.rectangle(box, outline=outline, width=width)] and
    [draw.ellipse(box, outline=outline, width=width)]. *)
Definition rectangle (d : Draw) (box : list Z) (outline : string)
    (width : Z) : Draw :=
  drawn d (DrawRectangle box outline width).
Definition ellipse (d : Draw) (box : list Z) (outline : string)
    (width : Z) : Draw :=
  drawn d (DrawEllipse box outline width).

Definition ends_with (suffix s : string) : bool :=
  String.eqb
    (String.substring (String.length s - String.length suffix)
       (String.length suffix) s)
    suffix.

(** The format [save] takes from the extension of the file name. *)
Definition format_of_name (n : string) : option image_format :=
  if ends_with ".png" n then Some PNG
  else if ends_with ".jpg" n || ends_with ".jpeg" n then Some JPEG
  else None.

(** [im.save(p)] and [im.save(p, format)]. *)
Definition save (im : image) (p : path) (format : option image_format)
    : Py unit :=
  match from_option Some (format_of_name (Pth.name p)) format with
  | Some f => update_fs (Fs.store p (ImageFile f im))
  | None =>
      raise (Exn ValueError ("unknown file extension: " +:+ Pth.name p))
  end.

End PIL.

(** ** [json]: the encoder with an indent, and a decoder *)

Module Json.

(** The values the script serialises: strings, lists, and dicts in the
    order of their keys. *)
Inductive value : Type :=
  | Str (s : string)
  | Arr (items : list value)
  | Obj (fields : list (string * value)).

Definition hex_digit (n : N) : ascii :=
  if (n <? 10)%N then ascii_of_N (48 + n) else ascii_of_N (87 + n).

(** [ensure_ascii] encoding of one character of a string. *)
Definition escape_char (c : ascii) : string :=
  let n := N_of_ascii c in
  if (n =? 34)%N then Txt.bs +:+ Txt.dq
  else if (n =? 92)%N then Txt.bs +:+ Txt.bs
  else if (n =? 10)%N then Txt.bs +:+ "n"
  else if (n =? 13)%N then Txt.bs +:+ "r"
  else if (n =? 9)%N then Txt.bs +:+ "t"
  else if (n =? 8)%N then Txt.bs +:+ "b"
  else if (n =? 12)%N then Txt.bs +:+ "f"
  else if ((32 <=? n) && (n <=? 126))%N then String c EmptyString
  else Txt.bs +:+ "u00"
       +:+ String (hex_digit (n / 16)) (String (hex_digit (n mod 16)) EmptyString).

Fixpoint escape (s : string) : string :=
  match s with
  | EmptyString => EmptyString
  | String c s' => escape_char c +:+ escape s'
  end.

Definition encode_str (s : string) : string := Txt.q (escape s).

(** A line feed and the indentation of nesting level [level]. *)
Definition newline_indent (indent level : nat) : string :=
  Txt.nl +:+ Txt.repeat_str " " (indent * level).

(** The text of [v] at nesting level [level]: an empty container on one
    line, the items of another one each on a line of its own. *)
Fixpoint encode (indent level : nat) (v : value) : string :=
  match v with
  | Str s => encode_str s
  | Arr [] => "[]"
  | Arr items =>
      "[" +:+ newline_indent indent (S level)
      +:+ Txt.join ("," +:+ newline_indent indent (S level))
            (List.map (encode indent (S level)) items)
      +:+ newline_indent indent level +:+ "]"
  | Obj [] => "{}"
  | Obj fields =>
      "{" +:+ newline_indent indent (S level)
      +:+ Txt.join ("," +:+ newline_indent indent (S level))
            (List.map
               (λ kv : string * value,
                  encode_str kv.1 +:+ ": " +:+ encode indent (S level) kv.2)
               fields)
      +:+ newline_indent indent level +:+ "}"
  end.

(** [json.dumps(v, indent=indent)]. *)
Definition dumps (v : value) (indent : nat) : string := encode indent 0 v.

(** *** Decoding *)

Definition is_ws (c : ascii) : bool :=
  let n := N_of_ascii c in
  ((n =? 32) || (n =? 10) || (n =? 13) || (n =? 9))%N.

Fixpoint skip_ws (s : string) : string :=
  match s with
  | String c s' => if is_ws c then skip_ws s' else s
  | EmptyString => s
  end.

Definition hex_val (c : ascii) : option N :=
  let n := N_of_ascii c in
  if ((48 <=? n) && (n <=? 57))%N then Some (n - 48)%N
  else if ((97 <=? n) && (n <=? 102))%N then Some (n - 87)%N
  else if ((65 <=? n) && (n <=? 70))%N then Some (n - 55)%N
  else None.

(** The character an escape letter stands for. *)
Definition unescape (c : ascii) : option ascii :=
  let n := N_of_ascii c in
  if (n =? 34)%N || (n =? 92)%N || (n =? 47)%N then Some c
  else if (n =? 110)%N then Some "010"%char
  else if (n =? 114)%N then Some "013"%char
  else if (n =? 116)%N then Some "009"%char
  else if (n =? 98)%N then Some "008"%char
  else if (n =? 102)%N then Some "012"%char
  else None.

(** The characters of a string after its opening quote, up to the closing
    quote, and what follows it.  An escape [uXXXX] is decoded when the
    character fits in one byte. *)
Fixpoint parse_chars (s : string) : option (string * string) :=
  match s with
  | EmptyString => None
  | String c s' =>
      let n := N_of_ascii c in
      if (n =? 34)%N then Some (EmptyString, s')
      else if (n <? 32)%N then None
      else if (n =? 92)%N then
        match s' with
        | String "u" (String h1 (String h2 (String h3 (String h4 s'')))) =>
            a ← hex_val h1; b ← hex_val h2; c' ← hex_val h3; d ← hex_val h4;
            if ((a =? 0) && (b =? 0))%N then
              '(t, r) ← parse_chars s'';
              Some (String (ascii_of_N (16 * c' + d)) t, r)
            else None
        | String e s'' =>
            e' ← unescape e;
            '(t, r) ← parse_chars s'';
            Some (String e' t, r)
        | EmptyString => None
        end
      else
        '(t, r) ← parse_chars s';
        Some (String c t, r)
  end.

(** A value at the head of [s] and what follows it; the items of a list
    after its opening bracket; the fields of a dict after its opening
    brace.  [fuel] bounds the nesting of the calls. *)
Fixpoint parse_value (fuel : nat) (s : string) : option (value * string) :=
  match fuel with
  | O => None
  | S fuel' =>
      match skip_ws s with
      | String c rest =>
          let n := N_of_ascii c in
          if (n =? 34)%N then
            '(t, r) ← parse_chars rest; Some (Str t, r)
          else if (n =? 91)%N then
            match skip_ws rest with
            | String c' r' =>
                if (N_of_ascii c' =? 93)%N then Some (Arr [], r')
                else '(l, r) ← parse_items fuel' rest; Some (Arr l, r)
            | EmptyString => None
            end
          else if (n =? 123)%N then
            match skip_ws rest with
            | String c' r' =>
                if (N_of_ascii c' =? 125)%N then Some (Obj [], r')
                else '(l, r) ← parse_fields fuel' rest; Some (Obj l, r)
            | EmptyString => None
            end
          else None
      | EmptyString => None
      end
  end
with parse_items (fuel : nat) (s : string)
    : option (list value * string) :=
  match fuel with
  | O => None
  | S fuel' =>
      '(v, r) ← parse_value fuel' s;
      match skip_ws r with
      | String c r' =>
          if (N_of_ascii c =? 44)%N then
            '(l, r'') ← parse_items fuel' r'; Some (v :: l, r'')
          else if (N_of_ascii c =? 93)%N then Some ([v], r')
          else None
      | EmptyString => None
      end
  end
with parse_fields (fuel : nat) (s : string)
    : option (list (string * value) * string) :=
  match fuel with
  | O => None
  | S fuel' =>
      match skip_ws s with
      | String c rest =>
          if (N_of_ascii c =? 34)%N then
            '(k, r) ← parse_chars rest;
            match skip_ws r with
            | String c1 r1 =>
                if (N_of_ascii c1 =? 58)%N then
                  '(v, r2) ← parse_value fuel' r1;
                  match skip_ws r2 with
                  | String c2 r3 =>
                      if (N_of_ascii c2 =? 44)%N then
                        '(l, r4) ← parse_fields fuel' r3;
                        Some ((k, v) :: l, r4)
                      else if (N_of_ascii c2 =? 125)%N then
                        Some ([(k, v)], r3)
                      else None
                  | EmptyString => None
                  end
                else None
            | EmptyString => None
            end
          else None
      | EmptyString => None
      end
  end.

(** [json.loads(s)]: [None] stands for [JSONDecodeError]. *)
Definition loads (s : string) : option value :=
  '(v, r) ← parse_value (2 * String.length s + 2) s;
  match skip_ws r with
  | EmptyString => Some v
  | String _ _ => None
  end.

(** The keys of a decoded dict, and the value under a key. *)
Definition keys (v : value) : list string :=
  match v with
  | Obj fields => fields.*1
  | _ => []
  end.

Definition get (v : value) (k : string) : option value :=
  match v with
  | Obj fields => snd <$> List.find (λ kv, String.eqb kv.1 k) fields
  | _ => None
  end.

End Json.

(** ** The runtime the script starts in *)

(** [PILLOW_AVAILABLE] is what the import of Pillow at the top of the
    script leaves; [ImageFont_load_default] is what a call of
    [ImageFont.load_default()] does in this runtime, a font or an
    exception; [ImageDraw_getfont] is what [getfont()] of a drawing object
    does when a text is drawn with no font (Pillow then takes its default
    font, loading it if need be); [Path_home] is [Path.home()];
    [time_localtime k] is the local time the clock gives when it is read
    for the [k]th time in the run, counting from 0.  The script reads the
    clock through [writestr] only, three times in a run; the times are
    taken to be times an archive keeps as they are, from 1980 on and at
    an even second. *)
Record runtime : Type := Runtime {
  PILLOW_AVAILABLE : bool;
  ImageFont_load_default : result font;
  ImageDraw_getfont : result font;
  Path_home : path;
  time_localtime : nat → date_time
}.

(** ** The fixed contents *)

Definition readme_txt : string := Txt.unlines [
  "";
  "File Organizer Test Document";
  "===========================";
  "";
  "This is a test document for the File Organizer Pro.";
  "It should be moved to the Documents folder.";
  "";
  "Features tested:";
  "- Text file organization";
  "- Document categorization";
  "- File moving operations";
  "";
  "Author: Darius04-ux" ].

Definition notes_txt : string := Txt.unlines [
  "";
  "Project Notes";
  "=============";
  "";
  "1. File Organizer working perfectly";
  "2. GUI interface responsive";
  "3. Logging system operational";
  "4. Undo functionality tested";
  "";
  "Next steps:";
  "- Add more file types";
  "- Improve UI design";
  "- Add batch processing" ].

Definition pdf_content : string := Txt.unlines [
  "";
  "%PDF-1.4 (This is a fake PDF for testing)";
  "File Organizer Pro - Test Document";
  "==================================";
  "";
  "This file simulates a PDF document.";
  "In real usage, this would be a proper PDF file.";
  "";
  "The File Organizer should move this to Documents folder.";
  "";
  "Test completed successfully!" ].

Definition rtf_content : string := Txt.join Txt.nl [
  "{\rtf1\ansi\deff0 {\fonttbl {\f0 Times New Roman;}}";
  "\f0\fs24 File Organizer Test RTF Document\par";
  "\par";
  "This is a Rich Text Format document for testing.\par";
  "\par";
  "Features:\par";
  "- RTF formatting\par";
  "- Document organization\par";
  "- File type detection\par";
  "\par";
  "Author: Darius04-ux\par";
  "}" ].

Definition python_code : string := Txt.unlines [
  "#!/usr/bin/env python3";
  Txt.dq +:+ Txt.dq +:+ Txt.dq;
  "Sample Python script for File Organizer testing";
  Txt.dq +:+ Txt.dq +:+ Txt.dq;
  "";
  "def hello_world():";
  "    print(" +:+ Txt.q "Hello from File Organizer test!" +:+ ")";
  "    print(" +:+ Txt.q "This Python file should go to Code folder" +:+ ")";
  "";
  "if __name__ == " +:+ Txt.q "__main__" +:+ ":";
  "    hello_world()" ].

Definition js_code : string := Txt.unlines [
  "// Sample JavaScript file for testing";
  "console.log(" +:+ Txt.q "File Organizer Pro - JavaScript Test" +:+ ");";
  "";
  "function organizeFiles() {";
  "    console.log(" +:+ Txt.q "This JS file should go to Code folder" +:+ ");";
  "    return " +:+ Txt.q "File organization complete!" +:+ ";";
  "}";
  "";
  "organizeFiles();" ].

Definition html_code : string := Txt.unlines [
  "<!DOCTYPE html>";
  "<html>";
  "<head>";
  "    <title>File Organizer Test</title>";
  "</head>";
  "<body>";
  "    <h1>File Organizer Pro</h1>";
  "    <p>This HTML file should be moved to Code folder</p>";
  "    <p>Testing file organization...</p>";
  "</body>";
  "</html>" ].

Definition json_data : Json.value := Json.Obj [
  ("app_name", Json.Str "File Organizer Pro");
  ("version", Json.Str "1.0");
  ("author", Json.Str "Darius04-ux");
  ("test_files", Json.Arr [
     Json.Str "readme.txt";
     Json.Str "sample_image.png";
     Json.Str "test_document.pdf" ]);
  ("features", Json.Arr [
     Json.Str "File organization";
     Json.Str "GUI interface";
     Json.Str "Undo functionality";
     Json.Str "Logging system" ]) ].

Definition xml_content : string := Txt.unlines [
  "<?xml version=" +:+ Txt.q "1.0" +:+ " encoding=" +:+ Txt.q "UTF-8" +:+ "?>";
  "<fileorganizer>";
  "    <name>File Organizer Pro</name>";
  "    <author>Darius04-ux</author>";
  "    <description>Test XML file for file organization</description>";
  "    <files>";
  "        <file type=" +:+ Txt.q "image" +:+ ">sample_image.png</file>";
  "        <file type=" +:+ Txt.q "document" +:+ ">test_document.pdf</file>";
  "        <file type=" +:+ Txt.q "archive" +:+ ">test_archive.zip</file>";
  "    </files>";
  "</fileorganizer>" ].

Definition log_content : string := Txt.unlines [
  "2025-01-01 10:00:00 - INFO - File Organizer started";
  "2025-01-01 10:00:01 - INFO - Scanning folder for files";
  "2025-01-01 10:00:02 - INFO - Found 15 files to organize";
  "2025-01-01 10:00:03 - INFO - Created Images folder";
  "2025-01-01 10:00:04 - INFO - Moved sample_image.png to Images/";
  "2025-01-01 10:00:05 - INFO - Created Documents folder";
  "2025-01-01 10:00:06 - INFO - Moved test_document.pdf to Documents/";
  "2025-01-01 10:00:07 - INFO - Organization completed successfully" ].

(** The three members written to [test_archive.zip]: name and data. *)
Definition zip_readme : string * string :=
  ("readme.txt", "This is content inside the ZIP file").
Definition zip_data : string * string :=
  ("data.json",
   "{" +:+ Txt.q "test" +:+ ": " +:+ Txt.q "data" +:+ ", "
   +:+ Txt.q "file" +:+ ": " +:+ Txt.q "organizer" +:+ "}").
Definition zip_nested : string * string :=
  ("folder/nested_file.txt", "Nested file content").

(** The placeholders. *)
Definition png_placeholder : list Byte.byte := Txt.bytes_of "PNG placeholder".
Definition jpeg_placeholder : list Byte.byte :=
  Txt.bytes_of "JPEG placeholder".
Definition rar_placeholder : list Byte.byte :=
  Txt.bytes_of "RAR archive placeholder for testing".

(** ** The script *)

Section Script.

Variable rt : runtime.

(** *** The builders *)

Definition create_text_files (folder : path) : Py unit :=
  Path_write_text (folder </> "readme.txt") readme_txt ;;
  Path_write_text (folder </> "notes.txt") notes_txt ;;
  print "📝 Created text files".

Definition create_image_files (folder : path) : Py unit :=
  if negb (PILLOW_AVAILABLE rt) then
    print "⚠️  Pillow (PIL) not available, creating placeholder image files." ;;
    Path_write_bytes (folder </> "sample_image.png") png_placeholder ;;
    Path_write_bytes (folder </> "test_photo.jpg") jpeg_placeholder
  else
    let img := PIL.Image_new "RGB" (400, 300)%Z "lightblue" in
    let draw := PIL.ImageDraw_Draw (ImageDraw_getfont rt) img in
    fnt ← try_except
            (f ← call (ImageFont_load_default rt); mret (Some f))
            is_IOError
            (λ _, mret None);
    draw ← PIL.text draw (50, 100)%Z "Test Image" "darkblue" fnt;
    draw ← PIL.text draw (50, 130)%Z "File Organizer Pro" "darkblue" fnt;
    draw ← PIL.text draw (50, 160)%Z "Sample PNG File" "darkblue" fnt;
    let draw := PIL.rectangle draw [50; 200; 150; 250]%Z "red" 3 in
    let draw := PIL.ellipse draw [200; 200; 300; 250]%Z "green" 3 in
    PIL.save (PIL.canvas draw) (folder </> "sample_image.png") None ;;
    let img2 := PIL.Image_new "RGB" (300, 200)%Z "lightgreen" in
    let draw2 := PIL.ImageDraw_Draw (ImageDraw_getfont rt) img2 in
    draw2 ← PIL.text draw2 (50, 80)%Z "JPEG Test File" "darkgreen" fnt;
    draw2 ← PIL.text draw2 (50, 110)%Z "For File Organizer" "darkgreen" fnt;
    PIL.save (PIL.canvas draw2) (folder </> "test_photo.jpg") (Some JPEG) ;;
    print "🖼️  Created image files".

Definition create_document_files (folder : path) : Py unit :=
  Path_write_text (folder </> "test_document.pdf") pdf_content ;;
  Path_write_text (folder </> "report.rtf") rtf_content ;;
  print "📄 Created document files".

Definition create_archive_files (folder : path) : Py unit :=
  let zip_path := folder </> "test_archive.zip" in
  Zip.with_open_w zip_path (λ zipf,
    Zip.writestr zipf zip_readme.1 zip_readme.2 (time_localtime rt 0) ;;
    Zip.writestr zipf zip_data.1 zip_data.2 (time_localtime rt 1) ;;
    Zip.writestr zipf zip_nested.1 zip_nested.2 (time_localtime rt 2)) ;;
  Path_write_bytes (folder </> "backup.rar") rar_placeholder ;;
  print "📦 Created archive files".

Definition create_code_files (folder : path) : Py unit :=
  Path_write_text (folder </> "sample_script.py") python_code ;;
  Path_write_text (folder </> "app.js") js_code ;;
  Path_write_text (folder </> "index.html") html_code ;;
  print "💻 Created code files".

Definition create_other_files (folder : path) : Py unit :=
  Path_write_text (folder </> "config.json") (Json.dumps json_data 2) ;;
  Path_write_text (folder </> "data.xml") xml_content ;;
  Path_write_text (folder </> "organizer.log") log_content ;;
  print "📋 Created other files".

(** *** The orchestrator *)

(** The desktop folder (the first lines of [create_test_files]):
    [Desktop] when it is there, else [Pulpit], else an error. *)
Definition desktop_folder : Py path :=
  let home := Path_home rt in
  en ← Path_exists (home </> "Desktop");
  if (en : bool) then mret (home </> "Desktop")
  else
    pl ← Path_exists (home </> "Pulpit");
    if (pl : bool) then mret (home </> "Pulpit")
    else
      raise (Exn FileNotFoundError
        "Nie znaleziono folderu Desktop ani Pulpit w katalogu domowym użytkownika.").

(** The listing that ends [create_test_files]. *)
Definition list_created (test_folder : path) : Py unit :=
  files ← Path_glob_star test_folder;
  print (Txt.nl +:+ "📋 Created " +:+ Txt.str_nat (length files)
         +:+ " files:") ;;
  for_each (sorted files) (λ file,
    f ← Path_is_file file;
    if (f : bool) then print ("   • " +:+ Pth.name file) else mret tt).

Definition create_test_files : Py unit :=
  desktop ← desktop_folder;
  let test_folder := desktop </> "test_files" in
  Path_mkdir test_folder true ;;
  print ("📁 Creating test files in: " +:+ Pth.str test_folder) ;;
  create_text_files test_folder ;;
  create_image_files test_folder ;;
  create_document_files test_folder ;;
  create_archive_files test_folder ;;
  create_code_files test_folder ;;
  create_other_files test_folder ;;
  print "✅ Test files created successfully!" ;;
  print ("📂 Location: " +:+ Pth.str test_folder) ;;
  list_created test_folder.

(** *** The entry point *)

Definition main : Py unit :=
  print "🚀 File Organizer Pro - Test Files Creator" ;;
  print (Txt.repeat_str "=" 50) ;;
  try_except
    (create_test_files ;;
     print (Txt.nl +:+ "✅ All test files created successfully!") ;;
     print "🎯 Now you can test the File Organizer with these files!")
    is_Exception
    (λ e,
       print ("❌ Error creating test files: " +:+ exn_msg e) ;;
       print "💡 Try running as administrator if you get permission errors").

End Script.

(** The exit status of the interpreter, as a shell reports it: 0 when the
    script runs to its end; when an exception leaves it, 1 after the
    traceback, except that after a [KeyboardInterrupt] the interpreter
    ends the process by the signal SIGINT, which is reported as
    128 + 2 = 130. *)
Definition exit_status (r : result unit) : nat :=
  match r with
  | Returns _ => 0
  | Raises e =>
      match exn_cls e with
      | KeyboardInterrupt => 130
      | _ => 1
      end
  end.

(** * Verification *)

(** ** What the builders do, as plans

    Every builder is a straight line: it prints, stores files of fixed
    names in its folder, and prints.  A [plan] lists these; the builders
    are shown to run their plans, and the properties of the script are
    then proved on plans. *)

Inductive action : Type :=
  | Store (name : string) (c : content)
  | Abort (e : exn).

(** The actions are performed in order, up to the first that fails. *)
Fixpoint perform (folder : path) (l : list action) (m : filesystem)
    : result unit * filesystem :=
  match l with
  | [] => (Returns tt, m)
  | Store n c :: l' =>
      match Fs.store (folder </> n) c m with
      | Returns m' => perform folder l' m'
      | Raises e => (Raises e, m)
      end
  | Abort e :: _ => (Raises e, m)
  end.

Record plan : Type := Plan {
  before : list string;
  actions : list action;
  after : list string
}.

Definition run_plan (folder : path) (s : plan) : Py unit := λ w,
  match perform folder (actions s) (fs w) with
  | (Returns _, m') => (Returns tt, World m' (out w ++ before s ++ after s))
  | (Raises e, m') => (Raises e, World m' (out w ++ before s))
  end.

Definition text_marker : string := "📝 Created text files".
Definition image_marker : string := "🖼️  Created image files".
Definition image_warning : string :=
  "⚠️  Pillow (PIL) not available, creating placeholder image files.".
Definition document_marker : string := "📄 Created document files".
Definition archive_marker : string := "📦 Created archive files".
Definition code_marker : string := "💻 Created code files".
Definition other_marker : string := "📋 Created other files".

(** The two canvases of [create_image_files], drawn with font [fnt]. *)
Definition png_canvas (fnt : option font) : image :=
  Image "RGB" (400, 300)%Z "lightblue" [
    DrawText (50, 100)%Z "Test Image" "darkblue" fnt;
    DrawText (50, 130)%Z "File Organizer Pro" "darkblue" fnt;
    DrawText (50, 160)%Z "Sample PNG File" "darkblue" fnt;
    DrawRectangle [50; 200; 150; 250]%Z "red" 3;
    DrawEllipse [200; 200; 300; 250]%Z "green" 3 ].

Definition jpg_canvas (fnt : option font) : image :=
  Image "RGB" (300, 200)%Z "lightgreen" [
    DrawText (50, 80)%Z "JPEG Test File" "darkgreen" fnt;
    DrawText (50, 110)%Z "For File Organizer" "darkgreen" fnt ].

(** The three members of the archive, in the order they are written, each
    with the time the clock gave when it was written. *)
Definition archive_members (rt : runtime) : list zip_member :=
  [Member zip_readme.1 (time_localtime rt 0) zip_readme.2;
   Member zip_data.1 (time_localtime rt 1) zip_data.2;
   Member zip_nested.1 (time_localtime rt 2) zip_nested.2].

Definition text_plan : plan :=
  Plan []
    [Store "readme.txt" (Text readme_txt); Store "notes.txt" (Text notes_txt)]
    [text_marker].

Definition drawn_plan (fnt : option font) : plan :=
  Plan []
    [Store "sample_image.png" (ImageFile PNG (png_canvas fnt));
     Store "test_photo.jpg" (ImageFile JPEG (jpg_canvas fnt))]
    [image_marker].

Definition placeholder_plan : plan :=
  Plan [image_warning]
    [Store "sample_image.png" (Bytes png_placeholder);
     Store "test_photo.jpg" (Bytes jpeg_placeholder)]
    [].

(** The font the image builder draws its texts with, [None] for no font,
    or the exception that stops it before it writes: what loading the
    default font raised when that is no [IOError], or what drawing the
    first text with no font raised. *)
Definition drawing_font (rt : runtime) : result (option font) :=
  match ImageFont_load_default rt with
  | Returns f => Returns (Some f)
  | Raises e =>
      if is_IOError e then
        match ImageDraw_getfont rt with
        | Returns _ => Returns None
        | Raises e' => Raises e'
        end
      else Raises e
  end.

Definition image_plan (rt : runtime) : plan :=
  if PILLOW_AVAILABLE rt then
    match drawing_font rt with
    | Returns fnt => drawn_plan fnt
    | Raises e => Plan [] [Abort e] [image_marker]
    end
  else placeholder_plan.

Definition document_plan : plan :=
  Plan []
    [Store "test_document.pdf" (Text pdf_content);
     Store "report.rtf" (Text rtf_content)]
    [document_marker].

Definition archive_plan (rt : runtime) : plan :=
  Plan []
    [Store "test_archive.zip" (ZipArchive (archive_members rt));
     Store "backup.rar" (Bytes rar_placeholder)]
    [archive_marker].

Definition code_plan : plan :=
  Plan []
    [Store "sample_script.py" (Text python_code);
     Store "app.js" (Text js_code);
     Store "index.html" (Text html_code)]
    [code_marker].

Definition other_plan : plan :=
  Plan []
    [Store "config.json" (Text (Json.dumps json_data 2));
     Store "data.xml" (Text xml_content);
     Store "organizer.log" (Text log_content)]
    [other_marker].

(** ** The notions of the statements *)

(** A place where a file can be written: a writable regular file, or a
    free name in a writable directory. *)
Definition writable_slot (m : filesystem) (p : path) : bool :=
  match m !! p with
  | Some (File true _) => true
  | Some _ => false
  | None =>
      match m !! Pth.parent p with
      | Some (Dir true) => true
      | _ => false
      end
  end.

(** The six plans of a run, in the order of the builders, and all their
    actions. *)
Definition all_plans (rt : runtime) : list plan :=
  [text_plan; image_plan rt; document_plan; archive_plan rt; code_plan;
   other_plan].

Definition run_plans (folder : path) (l : list plan) : Py unit :=
  for_each l (run_plan folder).

Definition all_actions (rt : runtime) : list action :=
  concat (actions <$> all_plans rt).

(** The names and contents an action list stores. *)
Fixpoint stores (l : list action) : list (string * content) :=
  match l with
  | [] => []
  | Store n c :: l' => (n, c) :: stores l'
  | Abort _ :: l' => stores l'
  end.

Definition aborts (l : list action) : list exn :=
  omap (λ a, match a with Abort e => Some e | Store _ _ => None end) l.

(** The file system with all of [l] stored in [folder]. *)
Definition stored (folder : path) (l : list (string * content))
    (m : filesystem) : filesystem :=
  foldl (λ m' nc, <[folder </> nc.1 := File true nc.2]> m') m l.

(** The fourteen names, in the order the files are written. *)
Definition fixture_names : list string :=
  ["readme.txt"; "notes.txt";
   "sample_image.png"; "test_photo.jpg";
   "test_document.pdf"; "report.rtf";
   "test_archive.zip"; "backup.rar";
   "sample_script.py"; "app.js"; "index.html";
   "config.json"; "data.xml"; "organizer.log"].

(** The desktop folder as a function of the file system. *)
Definition desktop_of (rt : runtime) (m : filesystem) : result path :=
  if Fs.present m (Path_home rt </> "Desktop")
  then Returns (Path_home rt </> "Desktop")
  else if Fs.present m (Path_home rt </> "Pulpit")
  then Returns (Path_home rt </> "Pulpit")
  else Raises (Exn FileNotFoundError
    "Nie znaleziono folderu Desktop ani Pulpit w katalogu domowym użytkownika.").

(** The lines of the final listing. *)
Definition listing_header (n : nat) : string :=
  Txt.nl +:+ "📋 Created " +:+ Txt.str_nat n +:+ " files:".
Definition bullet (p : path) : string := "   • " +:+ Pth.name p.
Definition listed (m : filesystem) (folder : path) : list path :=
  List.filter (Fs.is_regular m) (sorted (Fs.entries m folder)).
Definition listing (m : filesystem) (folder : path) : list string :=
  listing_header (length (Fs.entries m folder)) :: (bullet <$> listed m folder).

Definition creating_line (folder : path) : string :=
  "📁 Creating test files in: " +:+ Pth.str folder.
Definition done_line : string := "✅ Test files created successfully!".
Definition location_line (folder : path) : string :=
  "📂 Location: " +:+ Pth.str folder.

(** The line each builder prints in a run that gets through it. *)
Definition builder_lines (rt : runtime) : list string :=
  [text_marker;
   if PILLOW_AVAILABLE rt then image_marker else image_warning;
   document_marker; archive_marker; code_marker; other_marker].

(** The six completion markers. *)
Definition completion_markers : list string :=
  [text_marker; image_marker; document_marker; archive_marker; code_marker;
   other_marker].

(** A folder the fixtures can be written to: it is a writable directory,
    or it is missing from a writable directory; and under none of [names]
    it holds a directory or a read-only file. *)
Definition folder_ready (m : filesystem) (folder : path)
    (names : list string) : bool :=
  match m !! folder with
  | Some (Dir true) => true
  | Some _ => false
  | None =>
      match m !! Pth.parent folder with
      | Some (Dir true) => true
      | _ => false
      end
  end
  && forallb
       (λ n, match m !! (folder </> n) with
             | None | Some (File true _) => true
             | Some _ => false
             end)
       names.

(** Nothing but the file system can stop the image builder: Pillow is
    missing, or the builder gets to draw, with a font or with none. *)
Definition font_loads (rt : runtime) : bool :=
  negb (PILLOW_AVAILABLE rt)
  || match drawing_font rt with
     | Returns _ => true
     | Raises _ => false
     end.

(** The error of a home directory without a desktop folder. *)
Definition no_desktop_error : exn :=
  Exn FileNotFoundError
    "Nie znaleziono folderu Desktop ani Pulpit w katalogu domowym użytkownika.".

(** The regular files directly inside a folder. *)
Definition regular_entries (m : filesystem) (folder : path) : list path :=
  List.filter (Fs.is_regular m) (Fs.entries m folder).

(** Running [m] again, in the world it left, changes neither the files nor
    how it ends; and running it twice in a row leaves the files one run
    leaves. *)
Definition idempotent (m : Py unit) : Prop :=
  ∀ w : world,
    fs (exec m (exec m w)) = fs (exec m w)
    ∧ outcome m (exec m w) = outcome m w
    ∧ fs (exec (m ;; m) w) = fs (exec m w).

(** Two runtimes that differ at most in what the clock reads: two runs of
    the script on one machine, at different times. *)
Definition same_machine (rt rt' : runtime) : Prop :=
  PILLOW_AVAILABLE rt' = PILLOW_AVAILABLE rt
  ∧ ImageFont_load_default rt' = ImageFont_load_default rt
  ∧ ImageDraw_getfont rt' = ImageDraw_getfont rt
  ∧ Path_home rt' = Path_home rt.

(** Running [b'] where [b] has run, [b'] being [b] at another time: it
    ends the way [b] ended, there and from the start, and it leaves the
    files it leaves when it runs alone; nothing that [b] wrote is kept,
    appended to or accumulated. *)
Definition rerun (b b' : Py unit) : Prop :=
  ∀ w : world,
    outcome b' w = outcome b w
    ∧ outcome b' (exec b w) = outcome b w
    ∧ fs (exec b' (exec b w)) = fs (exec b' w).

(** A builder that writes [files] in [folder]: when it returns, each of
    them is there, writable, with its content, whatever was under its
    name before; and it raises only where one of them cannot be
    written. *)
Definition writes (b : Py unit) (folder : path)
    (files : list (string * content)) : Prop :=
  ∀ w : world,
    match outcome b w with
    | Returns _ =>
        ∀ n c, (n, c) ∈ files →
          fs (exec b w) !! (folder </> n) = Some (File true c)
    | Raises _ =>
        ∃ n, n ∈ files.*1 ∧ writable_slot (fs w) (folder </> n) = false
    end.

(** Two actions that differ in the content they store at most. *)
Definition alike (a a' : action) : Prop :=
  match a, a' with
  | Store n _, Store n' _ => n = n'
  | Abort e, Abort e' => e = e'
  | _, _ => False
  end.

(** A builder that prints [marker] once it has written its files, and
    nothing when it fails. *)
Definition prints_when_done (b : Py unit) (marker : string) : Prop :=
  ∀ w : world,
    out (exec b w)
    = out w ++ match outcome b w with
               | Returns _ => [marker]
               | Raises _ => []
               end.

(** What [create_test_files] does to the file system, and how it ends. *)
Definition generated (rt : runtime) (m : filesystem)
    : result unit * filesystem :=
  match desktop_of rt m with
  | Raises e => (Raises e, m)
  | Returns desktop =>
      match Fs.make_dir (desktop </> "test_files") true m with
      | Raises e => (Raises e, m)
      | Returns m1 => perform (desktop </> "test_files") (all_actions rt) m1
      end
  end.

(** The first two lines of [main]. *)
Definition banner : list string :=
  ["🚀 File Organizer Pro - Test Files Creator"; Txt.repeat_str "=" 50].
Definition success_lines : list string :=
  [Txt.nl +:+ "✅ All test files created successfully!";
   "🎯 Now you can test the File Organizer with these files!"].
Definition failure_lines (e : exn) : list string :=
  ["❌ Error creating test files: " +:+ exn_msg e;
   "💡 Try running as administrator if you get permission errors"].

(** The twelve files that do not depend on Pillow, with the contents the
    builders give them, in the order they are written.  The contents are
    fixed but for the times of the members of the archive, which are
    those of the run. *)
Definition plain_fixtures (rt : runtime) : list (string * content) :=
  [("readme.txt", Text readme_txt);
   ("notes.txt", Text notes_txt);
   ("test_document.pdf", Text pdf_content);
   ("report.rtf", Text rtf_content);
   ("test_archive.zip", ZipArchive (archive_members rt));
   ("backup.rar", Bytes rar_placeholder);
   ("sample_script.py", Text python_code);
   ("app.js", Text js_code);
   ("index.html", Text html_code);
   ("config.json", Text (Json.dumps json_data 2));
   ("data.xml", Text xml_content);
   ("organizer.log", Text log_content)].

(** The fourteen names in ascending order, the order of the listing. *)
Definition listed_names : list string :=
  ["app.js"; "backup.rar"; "config.json"; "data.xml"; "index.html";
   "notes.txt"; "organizer.log"; "readme.txt"; "report.rtf";
   "sample_image.png"; "sample_script.py"; "test_archive.zip";
   "test_document.pdf"; "test_photo.jpg"].

(** The paths of the fixtures in [folder], and the entries of [folder]
    that are none of them. *)
Definition fixture_paths (folder : path) : list path :=
  Pth.child folder <$> fixture_names.
Definition other_entries (m : filesystem) (folder : path) : list path :=
  filter (λ p, p ∉ fixture_paths folder) (Fs.children m folder).

(** ** Sample runs *)

Module Sample.

Definition home : path := ["home"; "user"].

(** A clock that reads ten in the morning of the first of January 2025
    all through a run, and one that reads a minute later. *)
Definition at_ten : nat → date_time := λ _, (2025, 1, 1, 10, 0, 0).
Definition a_minute_later : nat → date_time := λ _, (2025, 1, 1, 10, 1, 0).

(** A runtime without Pillow, and one with it. *)
Definition no_pillow : runtime :=
  Runtime false
    (Raises (Exn NameError "name 'ImageFont' is not defined"))
    (Raises (Exn NameError "name 'ImageDraw' is not defined"))
    home at_ten.
Definition pillow : runtime :=
  Runtime true (Returns default_font) (Returns default_font) home at_ten.

(** The same runtimes a minute later. *)
Definition no_pillow_later : runtime :=
  Runtime false
    (Raises (Exn NameError "name 'ImageFont' is not defined"))
    (Raises (Exn NameError "name 'ImageDraw' is not defined"))
    home a_minute_later.
Definition pillow_later : runtime :=
  Runtime true (Returns default_font) (Returns default_font) home
    a_minute_later.

(** The default font cannot be loaded by the script, yet texts can be
    drawn with no font given. *)
Definition pillow_no_font : runtime :=
  Runtime true (Raises (Exn OSError "cannot open resource"))
    (Returns default_font) home at_ten.

(** The default font cannot be loaded at all: the script fails to load
    it, and so does the drawing object. *)
Definition pillow_broken_font : runtime :=
  Runtime true (Raises (Exn OSError "cannot open resource"))
    (Raises (Exn OSError "cannot open resource")) home at_ten.

(** A home directory with a desktop. *)
Definition base_fs : filesystem :=
  <[home </> "Desktop" := Dir true]>
    (<[home := Dir true]> (<[["home"] := Dir true]> {[ [] := Dir true ]})).

(** A home directory with the Polish desktop only. *)
Definition pulpit_fs : filesystem :=
  <[home </> "Pulpit" := Dir true]>
    (<[home := Dir true]> (<[["home"] := Dir true]> {[ [] := Dir true ]})).

(** A home directory without a desktop. *)
Definition bare_fs : filesystem :=
  <[home := Dir true]> (<[["home"] := Dir true]> {[ [] := Dir true ]}).

Definition folder : path := home </> "Desktop" </> "test_files".

(** The fixture folder is there already and holds a subfolder, as the
    organizer leaves it. *)
Definition sorted_fs : filesystem :=
  <[folder </> "Images" := Dir true]> (<[folder := Dir true]> base_fs).

(** The name of the first image is taken by a directory. *)
Definition blocked_fs : filesystem :=
  <[folder </> "sample_image.png" := Dir true]>
    (<[folder := Dir true]> base_fs).

Definition start (m : filesystem) : world := World m [].

(** Pillow is there, and loading the default font raises an error that
    is no [IOError]; or it is interrupted from the keyboard. *)
Definition pillow_value_error : runtime :=
  Runtime true (Raises (Exn ValueError "unrecognized font data"))
    (Returns default_font) home at_ten.
Definition pillow_interrupted : runtime :=
  Runtime true (Raises (Exn KeyboardInterrupt EmptyString))
    (Returns default_font) home at_ten.

(** The name of the fixture folder is taken by a regular file. *)
Definition taken_fs : filesystem :=
  <[folder := File true (Text "not a folder")]> base_fs.

(** [Desktop] is a regular file, and [Pulpit] a directory. *)
Definition file_desktop_fs : filesystem :=
  <[home </> "Desktop" := File true (Text "not a folder")]> pulpit_fs.

(** The desktop is a directory the user may not write to. *)
Definition readonly_fs : filesystem :=
  <[home </> "Desktop" := Dir false]> bare_fs.

(** The fixture folder is there and holds a file of another name. *)
Definition kept_fs : filesystem :=
  <[folder </> "old.txt" := File true (Text "kept")]>
    (<[folder := Dir true]> base_fs).

End Sample.

(** ** Paths and stores *)

Lemma parent_child (p : path) (n : string) : Pth.parent (p </> n) = p.
Proof. apply removelast_last. Qed.

Lemma name_child (p : path) (n : string) : Pth.name (p </> n) = n.
Proof. apply last_last. Qed.

Lemma child_inj (p : path) (n1 n2 : string) : p </> n1 = p </> n2 → n1 = n2.
Proof. intros H. apply app_inv_head in H. congruence. Qed.

Lemma child_neq (p : path) (n : string) : p </> n ≠ p.
Proof.
  intros H. apply (f_equal length) in H.
  unfold Pth.child in H. rewrite length_app in H. simpl in H. lia.
Qed.

Lemma store_Returns (p : path) (c : content) (m m' : filesystem) :
  Fs.store p c m = Returns m' → m' = <[p := File true c]> m.
Proof.
  unfold Fs.store. intros H.
  destruct (m !! p) as [[w|[|] c0]|]; try congruence;
    destruct (m !! Pth.parent p) as [[[|]|w1 c1]|]; congruence.
Qed.

Lemma store_writable (p : path) (c : content) (m : filesystem) :
  writable_slot m p = true ↔ Fs.store p c m = Returns (<[p := File true c]> m).
Proof.
  unfold writable_slot, Fs.store.
  destruct (m !! p) as [[w|[|] c0]|]; try (split; congruence);
    destruct (m !! Pth.parent p) as [[[|]|w1 c1]|]; split; congruence.
Qed.

(** Whether a store succeeds, and the error when it does not, do not
    depend on the content stored. *)
Lemma store_Raises (p : path) (c c' : content) (m : filesystem) (e : exn) :
  Fs.store p c m = Raises e → Fs.store p c' m = Raises e.
Proof.
  unfold Fs.store.
  destruct (m !! p) as [[w|[|] c0]|]; try congruence;
    destruct (m !! Pth.parent p) as [[[|]|w1 c1]|]; congruence.
Qed.

Lemma store_Raises_IOError (p : path) (c : content) (m : filesystem)
    (e : exn) :
  Fs.store p c m = Raises e → is_IOError e = true.
Proof.
  unfold Fs.store.
  destruct (m !! p) as [[w|[|] c0]|]; try congruence;
    try (intros [= <-]; reflexivity);
    destruct (m !! Pth.parent p) as [[[|]|w1 c1]|]; try congruence;
    intros [= <-]; reflexivity.
Qed.

(** ** The builders run their plans *)

Lemma bind_run {A B : Type} (m : Py A) (f : A → Py B) (w : world) :
  (m ≫= f) w =
  match m w with
  | (Returns a, w') => f a w'
  | (Raises e, w') => (Raises e, w')
  end.
Proof. reflexivity. Qed.

(** One store of a builder: split on whether it succeeds; when it fails
    the builder and the plan stop in the same world. *)
Ltac store_step :=
  rewrite ?bind_run; cbn [fs out];
  lazymatch goal with
  | |- context [Fs.store ?p ?c ?m] =>
      let E := fresh "E" in
      destruct (Fs.store p c m) eqn:E;
      [ | rewrite ?app_nil_r; reflexivity ]
  end.

Lemma create_text_files_plan (folder : path) (w : world) :
  create_text_files folder w = run_plan folder text_plan w.
Proof.
  destruct w as [m o].
  unfold create_text_files, run_plan, Path_write_text, update_fs, print.
  cbn [actions text_plan perform before after fs out].
  do 2 store_step. reflexivity.
Qed.

Lemma create_document_files_plan (folder : path) (w : world) :
  create_document_files folder w = run_plan folder document_plan w.
Proof.
  destruct w as [m o].
  unfold create_document_files, run_plan, Path_write_text, update_fs, print.
  cbn [actions document_plan perform before after fs out].
  do 2 store_step. reflexivity.
Qed.

Lemma create_code_files_plan (folder : path) (w : world) :
  create_code_files folder w = run_plan folder code_plan w.
Proof.
  destruct w as [m o].
  unfold create_code_files, run_plan, Path_write_text, update_fs, print.
  cbn [actions code_plan perform before after fs out].
  do 3 store_step. reflexivity.
Qed.

Lemma create_other_files_plan (folder : path) (w : world) :
  create_other_files folder w = run_plan folder other_plan w.
Proof.
  destruct w as [m o].
  unfold create_other_files, run_plan, Path_write_text, update_fs, print.
  cbn [actions other_plan perform before after fs out].
  do 3 store_step. reflexivity.
Qed.

(** The [with] block of the archive builder leaves what one store of the
    closed archive leaves. *)
Lemma with_open_w_members (rt : runtime) (p : path) (w : world) :
  Zip.with_open_w p (λ zipf,
    Zip.writestr zipf zip_readme.1 zip_readme.2 (time_localtime rt 0) ;;
    Zip.writestr zipf zip_data.1 zip_data.2 (time_localtime rt 1) ;;
    Zip.writestr zipf zip_nested.1 zip_nested.2 (time_localtime rt 2)) w
  = update_fs (Fs.store p (ZipArchive (archive_members rt))) w.
Proof.
  destruct w as [m o].
  unfold Zip.with_open_w, Zip.open_w, update_fs.
  rewrite !bind_run. cbn [fs out].
  destruct (Fs.store p (ZipOpen []) m) as [m1|e] eqn:E.
  - pose proof (store_Returns _ _ _ _ E) as ->.
    assert (Hw : writable_slot m p = true) by (by eapply store_writable).
    rewrite (proj1 (store_writable p (ZipArchive (archive_members rt)) m) Hw).
    unfold mret, Py_ret, try_finally, Zip.writestr, Zip.close, update_fs,
      Zip.append_member, Zip.finish, mbind, Py_bind.
    cbn [fs out Zip.zip_path].
    repeat (rewrite lookup_insert_eq; cbn [fs out]).
    rewrite !insert_insert_eq. reflexivity.
  - rewrite (store_Raises _ _ (ZipArchive (archive_members rt)) _ _ E).
    reflexivity.
Qed.

Lemma create_archive_files_plan (rt : runtime) (folder : path) (w : world) :
  create_archive_files rt folder w = run_plan folder (archive_plan rt) w.
Proof.
  unfold create_archive_files. rewrite bind_run, with_open_w_members.
  destruct w as [m o].
  unfold run_plan, Path_write_bytes, update_fs, print.
  cbn [actions archive_plan perform before after fs out].
  do 2 store_step. reflexivity.
Qed.

Lemma save_inferred (im : image) (folder : path) (n : string)
    (f : image_format) :
  PIL.format_of_name n = Some f →
  PIL.save im (folder </> n) None
  = update_fs (Fs.store (folder </> n) (ImageFile f im)).
Proof. intros H. unfold PIL.save. rewrite name_child, H. reflexivity. Qed.

Lemma text_run (d : PIL.Draw) (xy : Z * Z) (t fill : string)
    (fnt : option font) (w : world) :
  (fnt = None → ∃ f, PIL.getfont d = Returns f) →
  PIL.text d xy t fill fnt w
  = (Returns (PIL.drawn d (DrawText xy t fill fnt)), w).
Proof.
  intros H. unfold PIL.text. destruct fnt as [f|]; [done|].
  destruct (H eq_refl) as [f Hf]. unfold call. by rewrite bind_run, Hf.
Qed.

Lemma text_raises (d : PIL.Draw) (xy : Z * Z) (t fill : string) (e : exn)
    (w : world) :
  PIL.getfont d = Raises e → PIL.text d xy t fill None w = (Raises e, w).
Proof. intros H. unfold PIL.text, call. by rewrite bind_run, H. Qed.

(** What the [try] block around the loading of the font leaves. *)
Lemma load_font_run (rt : runtime) (w : world) :
  try_except (f ← call (ImageFont_load_default rt); mret (Some f))
    is_IOError (λ _, mret None) w
  = (match ImageFont_load_default rt with
     | Returns f => Returns (Some f)
     | Raises e => if is_IOError e then Returns None else Raises e
     end, w).
Proof.
  unfold try_except, call. rewrite bind_run.
  destruct (ImageFont_load_default rt) as [f|e]; [done|].
  by destruct (is_IOError e).
Qed.

Lemma create_image_files_drawn (rt : runtime) (folder : path) (w : world)
    (fnt : option font) :
  PILLOW_AVAILABLE rt = true →
  try_except (f ← call (ImageFont_load_default rt); mret (Some f))
    is_IOError (λ _, mret None) w = (Returns fnt, w) →
  (fnt = None → ∃ f, ImageDraw_getfont rt = Returns f) →
  create_image_files rt folder w = run_plan folder (drawn_plan fnt) w.
Proof.
  intros Hp Hf Hg. unfold create_image_files. rewrite Hp. cbn [negb].
  cbv zeta. rewrite bind_run, Hf.
  rewrite bind_run, text_run by exact Hg.
  rewrite bind_run, text_run by exact Hg.
  rewrite bind_run, text_run by exact Hg.
  rewrite bind_run.
  rewrite (save_inferred _ folder "sample_image.png" PNG) by reflexivity.
  destruct w as [m o].
  unfold run_plan, update_fs.
  cbn [actions drawn_plan perform before after fs out].
  change (PIL.canvas (PIL.ellipse _ _ _ _)) with (png_canvas fnt).
  destruct (Fs.store (folder </> "sample_image.png") _ m) as [m1|e1];
    [|by rewrite app_nil_r].
  rewrite bind_run, text_run by exact Hg.
  rewrite bind_run, text_run by exact Hg.
  rewrite bind_run. unfold PIL.save, update_fs. cbn [from_option fs out].
  change (PIL.canvas (PIL.drawn _ _)) with (jpg_canvas fnt).
  destruct (Fs.store (folder </> "test_photo.jpg") _ m1) as [m2|e2];
    [|by rewrite app_nil_r].
  reflexivity.
Qed.

Lemma create_image_files_plan (rt : runtime) (folder : path) (w : world) :
  create_image_files rt folder w = run_plan folder (image_plan rt) w.
Proof.
  unfold image_plan, drawing_font.
  destruct (PILLOW_AVAILABLE rt) eqn:Hp.
  - destruct (ImageFont_load_default rt) as [f|e] eqn:Hld.
    { apply create_image_files_drawn; [done| |done].
      by rewrite load_font_run, Hld. }
    destruct (is_IOError e) eqn:He.
    + destruct (ImageDraw_getfont rt) as [f|e'] eqn:Hg.
      { apply create_image_files_drawn; [done| |eauto].
        by rewrite load_font_run, Hld, He. }
      unfold create_image_files. rewrite Hp. cbn [negb]. cbv zeta.
      rewrite bind_run, load_font_run, Hld, He.
      rewrite bind_run.
      rewrite (text_raises (PIL.ImageDraw_Draw (ImageDraw_getfont rt) _)
                 _ _ _ e' _ Hg).
      destruct w as [m o]. unfold run_plan.
      cbn [actions perform before fs out]. by rewrite app_nil_r.
    + unfold create_image_files. rewrite Hp. cbn [negb]. cbv zeta.
      rewrite bind_run, load_font_run, Hld, He.
      destruct w as [m o]. unfold run_plan.
      cbn [actions perform before fs out]. by rewrite app_nil_r.
  - unfold create_image_files. rewrite Hp. cbn [negb].
    destruct w as [m o].
    unfold run_plan, Path_write_bytes, update_fs, print.
    cbn [actions placeholder_plan perform before after fs out].
    rewrite !bind_run. cbn [fs out].
    destruct (Fs.store (folder </> "sample_image.png") _ m) as [m1|e1];
      cbn [fs out]; [|reflexivity].
    destruct (Fs.store (folder </> "test_photo.jpg") _ m1) as [m2|e2];
      [|reflexivity].
    by rewrite app_nil_r.
Qed.

(** ** Performing actions *)

Lemma perform_app (folder : path) (l1 l2 : list action) (m : filesystem) :
  perform folder (l1 ++ l2) m =
  match perform folder l1 m with
  | (Returns _, m1) => perform folder l2 m1
  | (Raises e, m1) => (Raises e, m1)
  end.
Proof.
  revert m. induction l1 as [|[n c|e] l1 IH]; intros m; simpl; [done| |done].
  destruct (Fs.store (folder </> n) c m); [apply IH|done].
Qed.

(** A path that no action stores to keeps its node. *)
Lemma perform_frame (folder : path) (l : list action) (m : filesystem)
    (p : path) :
  (∀ n, n ∈ (stores l).*1 → p ≠ folder </> n) →
  (perform folder l m).2 !! p = m !! p.
Proof.
  revert m. induction l as [|[n c|e] l IH]; intros m Hp; simpl; [done| |done].
  destruct (Fs.store (folder </> n) c m) as [m1|e1] eqn:E; [|done].
  simpl in Hp.
  rewrite IH by (intros n' Hn'; apply Hp, elem_of_cons; by right).
  apply store_Returns in E as ->.
  apply lookup_insert_ne. intros Heq.
  by apply (Hp n); [apply elem_of_cons; left|].
Qed.

(** What makes a plan fail: an error of the file system, or an abort. *)
Lemma perform_Raises (folder : path) (l : list action) (m m' : filesystem)
    (e : exn) :
  perform folder l m = (Raises e, m') → is_IOError e = true ∨ e ∈ aborts l.
Proof.
  revert m. induction l as [|[n c|e0] l IH]; intros m; simpl; [done| |].
  - destruct (Fs.store (folder </> n) c m) as [m1|e1] eqn:E.
    + apply IH.
    + intros [= <- <-]. left. by eapply store_Raises_IOError.
  - intros [= <- <-]. right. unfold aborts. simpl. set_solver.
Qed.

Lemma writable_slot_insert (m : filesystem) (p q : path) (c : content) :
  writable_slot m q = true → Pth.parent q ≠ p →
  writable_slot (<[p := File true c]> m) q = true.
Proof.
  unfold writable_slot. intros H Hpar.
  destruct (decide (p = q)) as [->|Hne].
  - by rewrite lookup_insert_eq.
  - by rewrite !lookup_insert_ne.
Qed.

(** With every slot writable and no abort, the plan stores all its files. *)
Lemma perform_ready (folder : path) (l : list action) (m : filesystem) :
  aborts l = [] →
  Forall (λ n, writable_slot m (folder </> n) = true) (stores l).*1 →
  perform folder l m = (Returns tt, stored folder (stores l) m).
Proof.
  revert m. induction l as [|[n c|e] l IH]; intros m Ha Hw; simpl;
    [done| |done].
  simpl in Hw. apply Forall_cons in Hw as [Hn Hl].
  rewrite (proj1 (store_writable _ c _) Hn).
  apply IH; [done|].
  eapply Forall_impl; [exact Hl|]. intros n' Hn'. cbn beta in *.
  apply writable_slot_insert; [done|].
  rewrite parent_child. apply not_eq_sym, child_neq.
Qed.

Lemma stored_lookup_ne (folder : path) (l : list (string * content))
    (m : filesystem) (p : path) :
  (∀ n, n ∈ l.*1 → p ≠ folder </> n) → stored folder l m !! p = m !! p.
Proof.
  revert m. induction l as [|[n c] l IH]; intros m Hp; [done|].
  unfold stored in *. simpl.
  rewrite IH by (intros n' Hn'; apply Hp, elem_of_cons; by right).
  apply lookup_insert_ne. intros Heq.
  by apply (Hp n); [apply elem_of_cons; left|].
Qed.

Lemma stored_lookup (folder : path) (l : list (string * content))
    (m : filesystem) (n : string) (c : content) :
  NoDup l.*1 → (n, c) ∈ l →
  stored folder l m !! (folder </> n) = Some (File true c).
Proof.
  revert m. induction l as [|[n0 c0] l IH]; intros m Hnd Hin; [set_solver|].
  simpl in Hnd. apply NoDup_cons in Hnd as [Hn0 Hnd].
  apply elem_of_cons in Hin as [[= -> ->]|Hin].
  - unfold stored. simpl. fold (stored folder l (<[folder </> n0:=File true c0]> m)).
    rewrite stored_lookup_ne; [apply lookup_insert_eq|].
    intros n' Hn' Heq. apply child_inj in Heq as ->. done.
  - unfold stored. simpl. by apply IH.
Qed.

(** Performing a plan again, in the file system it left, ends the same way
    and changes nothing. *)
Lemma perform_again (folder : path) (l : list action) (m : filesystem) :
  NoDup (stores l).*1 →
  perform folder l (perform folder l m).2 = perform folder l m.
Proof.
  revert m. induction l as [|[n c|e] l IH]; intros m Hnd; simpl;
    [done| |done].
  simpl in Hnd. apply NoDup_cons in Hnd as [Hn Hnd].
  destruct (Fs.store (folder </> n) c m) as [m1|e1] eqn:E.
  - pose proof (store_Returns _ _ _ _ E) as Hm1.
    assert (Hl : (perform folder l m1).2 !! (folder </> n)
                 = Some (File true c)).
    { rewrite perform_frame.
      - subst m1. apply lookup_insert_eq.
      - intros n' Hn' Heq. apply child_inj in Heq as ->. done. }
    assert (Hs : Fs.store (folder </> n) c (perform folder l m1).2
                 = Returns (perform folder l m1).2).
    { unfold Fs.store. rewrite Hl. f_equal. by apply insert_id. }
    rewrite Hs. by apply IH.
  - simpl. by rewrite E.
Qed.

(** ** Running plans *)

Lemma run_plans_perform (folder : path) (l : list plan) (w : world) :
  outcome (run_plans folder l) w
  = (perform folder (concat (actions <$> l)) (fs w)).1
  ∧ fs (exec (run_plans folder l) w)
    = (perform folder (concat (actions <$> l)) (fs w)).2.
Proof.
  unfold outcome, exec, run_plans.
  revert w. induction l as [|s l IH]; intros w; [done|].
  cbn [for_each fmap list_fmap concat]. rewrite bind_run, perform_app.
  unfold run_plan.
  destruct (perform folder (actions s) (fs w)) as [[[]|e] m1]; [|done].
  apply (IH (World m1 _)).
Qed.

Lemma run_plans_out (folder : path) (l : list plan) (w : world) :
  outcome (run_plans folder l) w = Returns tt →
  out (exec (run_plans folder l) w)
  = out w ++ concat ((λ s, before s ++ after s) <$> l).
Proof.
  unfold outcome, exec, run_plans.
  revert w. induction l as [|s l IH]; intros w.
  - intros _. simpl. by rewrite app_nil_r.
  - cbn [for_each fmap list_fmap concat]. rewrite bind_run.
    unfold run_plan at 1 3.
    destruct (perform folder (actions s) (fs w)) as [[[]|e] m1]; [|done].
    intros H. rewrite (IH (World m1 _) H). cbn [out].
    by rewrite <- !app_assoc.
Qed.

(** ** The orchestrator, step by step *)

Lemma desktop_folder_run (rt : runtime) (w : world) :
  desktop_folder rt w = (desktop_of rt (fs w), w).
Proof.
  unfold desktop_folder, desktop_of, Path_exists.
  rewrite bind_run.
  destruct (Fs.present (fs w) (Path_home rt </> "Desktop")); [done|].
  rewrite bind_run.
  by destruct (Fs.present (fs w) (Path_home rt </> "Pulpit")).
Qed.

Lemma for_each_bullets (m : filesystem) (l : list path) (o : list string) :
  for_each l (λ file,
    f ← Path_is_file file;
    if (f : bool) then print (bullet file) else mret tt) (World m o)
  = (Returns tt, World m (o ++ (bullet <$> List.filter (Fs.is_regular m) l))).
Proof.
  revert o. induction l as [|p l IH]; intros o.
  - simpl. by rewrite app_nil_r.
  - cbn [for_each List.filter]. rewrite !bind_run.
    unfold Path_is_file at 1. cbn [fs out].
    destruct (Fs.is_regular m p).
    + unfold print at 1. cbn [fs out]. rewrite IH.
      cbn [fmap list_fmap]. by rewrite <- app_assoc.
    + unfold mret at 1, Py_ret. apply IH.
Qed.

Lemma list_created_run (folder : path) (w : world) :
  list_created folder w
  = (Returns tt, World (fs w) (out w ++ listing (fs w) folder)).
Proof.
  destruct w as [m o].
  unfold list_created, Path_glob_star. rewrite !bind_run.
  unfold print at 1. cbn [fs out].
  change (for_each ?l _) with
    (for_each l (λ file,
       f ← Path_is_file file;
       if (f : bool) then print (bullet file) else mret tt)).
  rewrite for_each_bullets. unfold listing, listed, listing_header.
  by rewrite <- app_assoc.
Qed.

(** The six builders in a row run the six plans. *)
Lemma builders_run (rt : runtime) (folder : path) (k : Py unit) (w : world) :
  (create_text_files folder ;;
   create_image_files rt folder ;;
   create_document_files folder ;;
   create_archive_files rt folder ;;
   create_code_files folder ;;
   create_other_files folder ;; k) w
  = (run_plans folder (all_plans rt) ;; k) w.
Proof.
  unfold run_plans, all_plans. cbn [for_each].
  rewrite !bind_run, create_text_files_plan.
  destruct (run_plan folder text_plan w) as [[[]|e] w1]; [|done].
  rewrite !bind_run, create_image_files_plan.
  destruct (run_plan folder (image_plan rt) w1) as [[[]|e] w2]; [|done].
  rewrite !bind_run, create_document_files_plan.
  destruct (run_plan folder document_plan w2) as [[[]|e] w3]; [|done].
  rewrite !bind_run, create_archive_files_plan.
  destruct (run_plan folder (archive_plan rt) w3) as [[[]|e] w4]; [|done].
  rewrite !bind_run, create_code_files_plan.
  destruct (run_plan folder code_plan w4) as [[[]|e] w5]; [|done].
  rewrite !bind_run, create_other_files_plan.
  destruct (run_plan folder other_plan w5) as [[[]|e] w6]; [|done].
  reflexivity.
Qed.

(** The whole of [create_test_files]. *)
Lemma create_test_files_run (rt : runtime) (w : world) :
  create_test_files rt w =
  match desktop_of rt (fs w) with
  | Raises e => (Raises e, w)
  | Returns desktop =>
      let test_folder := desktop </> "test_files" in
      match Fs.make_dir test_folder true (fs w) with
      | Raises e => (Raises e, w)
      | Returns m1 =>
          match run_plans test_folder (all_plans rt)
                  (World m1 (out w ++ [creating_line test_folder])) with
          | (Raises e, w') => (Raises e, w')
          | (Returns _, w') =>
              (Returns tt,
               World (fs w')
                 (out w' ++ [done_line; location_line test_folder]
                  ++ listing (fs w') test_folder))
          end
      end
  end.
Proof.
  unfold create_test_files. rewrite bind_run, desktop_folder_run.
  destruct (desktop_of rt (fs w)) as [desktop|e]; [|done].
  cbv zeta. rewrite bind_run. unfold Path_mkdir, update_fs at 1.
  destruct (Fs.make_dir (desktop </> "test_files") true (fs w))
    as [m1|e]; [|done].
  rewrite bind_run. unfold print at 1. cbn [fs out].
  rewrite builders_run, bind_run.
  fold (creating_line (desktop </> "test_files")).
  destruct (run_plans _ _ _) as [[[]|e] w']; [|done].
  rewrite bind_run. unfold print at 1. cbn [fs out].
  rewrite bind_run. unfold print at 1. cbn [fs out].
  rewrite list_created_run. cbn [fs out].
  by rewrite <- !app_assoc.
Qed.

(** ** Facts about the six plans *)

Lemma all_actions_names (rt : runtime) :
  font_loads rt = true → (stores (all_actions rt)).*1 = fixture_names.
Proof.
  unfold font_loads, all_actions, all_plans, image_plan.
  destruct (PILLOW_AVAILABLE rt); [|done].
  by destruct (drawing_font rt) as [fnt|e].
Qed.

Lemma all_actions_aborts (rt : runtime) :
  font_loads rt = true → aborts (all_actions rt) = [].
Proof.
  unfold font_loads, all_actions, all_plans, image_plan.
  destruct (PILLOW_AVAILABLE rt); [|done].
  by destruct (drawing_font rt) as [fnt|e].
Qed.

Lemma all_actions_aborts_font (rt : runtime) (e : exn) :
  e ∈ aborts (all_actions rt) →
  PILLOW_AVAILABLE rt = true ∧ drawing_font rt = Raises e.
Proof.
  unfold all_actions, all_plans, image_plan.
  destruct (PILLOW_AVAILABLE rt); [|by intros ?%elem_of_nil].
  destruct (drawing_font rt) as [fnt|e0]; [by intros ?%elem_of_nil|].
  by intros ->%list_elem_of_singleton.
Qed.

Lemma fixture_names_NoDup : NoDup fixture_names.
Proof. by apply (bool_decide_unpack _). Qed.

Lemma image_plan_NoDup (rt : runtime) :
  NoDup (stores (actions (image_plan rt))).*1.
Proof.
  unfold image_plan.
  destruct (PILLOW_AVAILABLE rt); [destruct (drawing_font rt) as [fnt|e]|];
    by apply (bool_decide_unpack _).
Qed.

Lemma all_actions_NoDup (rt : runtime) : NoDup (stores (all_actions rt)).*1.
Proof.
  unfold all_actions, all_plans, image_plan.
  destruct (PILLOW_AVAILABLE rt); [destruct (drawing_font rt) as [fnt|e]|];
    by apply (bool_decide_unpack _).
Qed.

Lemma all_plans_lines (rt : runtime) :
  concat ((λ s, before s ++ after s) <$> all_plans rt) = builder_lines rt.
Proof.
  unfold all_plans, image_plan, builder_lines.
  by destruct (PILLOW_AVAILABLE rt);
    [destruct (drawing_font rt) as [fnt|e]|].
Qed.

Lemma perform_Returns (folder : path) (l : list action) (m m' : filesystem)
    (u : unit) :
  perform folder l m = (Returns u, m') →
  aborts l = [] ∧ m' = stored folder (stores l) m.
Proof.
  revert m. induction l as [|[n c|e] l IH]; intros m; simpl.
  - by intros [= <-].
  - destruct (Fs.store (folder </> n) c m) as [m1|e1] eqn:E; [|done].
    intros H. apply IH in H as [Ha ->].
    apply store_Returns in E as ->. done.
  - done.
Qed.

(** ** Making the fixture folder *)

Lemma make_dir_Returns (p : path) (m m1 : filesystem) :
  Fs.make_dir p true m = Returns m1 →
  (∃ wr, m1 !! p = Some (Dir wr)) ∧ (∀ q, q ≠ p → m1 !! q = m !! q).
Proof.
  unfold Fs.make_dir.
  destruct (m !! p) as [[wr|wr c]|] eqn:E; [| done |].
  - intros [= <-]. eauto.
  - destruct (m !! Pth.parent p) as [[[|]|wr c]|]; try done.
    intros [= <-]. split.
    + exists true. apply lookup_insert_eq.
    + intros q Hq. by apply lookup_insert_ne.
Qed.

Lemma make_dir_Raises_IOError (p : path) (b : bool) (m : filesystem)
    (e : exn) :
  Fs.make_dir p b m = Raises e → is_IOError e = true.
Proof.
  unfold Fs.make_dir.
  destruct (m !! p) as [[wr|wr c]|]; [destruct b| |].
  - done.
  - by intros [= <-].
  - by intros [= <-].
  - destruct (m !! Pth.parent p) as [[[|]|wr c]|]; try done;
      by intros [= <-].
Qed.

(** Making a directory that is there changes nothing. *)
Lemma make_dir_again (p : path) (m : filesystem) (wr : bool) :
  m !! p = Some (Dir wr) → Fs.make_dir p true m = Returns m.
Proof. unfold Fs.make_dir. by intros ->. Qed.

Lemma folder_ready_make_dir (m : filesystem) (folder : path)
    (names : list string) :
  folder_ready m folder names = true →
  ∃ m1, Fs.make_dir folder true m = Returns m1
        ∧ m1 !! folder = Some (Dir true)
        ∧ Forall (λ n, writable_slot m1 (folder </> n) = true) names.
Proof.
  unfold folder_ready. intros [Hd Hn]%andb_prop.
  rewrite forallb_forall in Hn.
  assert (∃ m1, Fs.make_dir folder true m = Returns m1
                ∧ m1 !! folder = Some (Dir true)
                ∧ ∀ q, q ≠ folder → m1 !! q = m !! q) as (m1 & Hm & Hf & Ho).
  { unfold Fs.make_dir.
    destruct (m !! folder) as [[[|]|wr c]|] eqn:E; try done.
    - by exists m.
    - destruct (m !! Pth.parent folder) as [[[|]|wr c]|]; try done.
      exists (<[folder := Dir true]> m). split; [done|]. split.
      + apply lookup_insert_eq.
      + intros q Hq. by apply lookup_insert_ne. }
  exists m1. split; [done|]. split; [done|].
  apply Forall_forall. intros n Hin.
  specialize (Hn n (proj1 (list_elem_of_In _ _) Hin)).
  unfold writable_slot.
  rewrite (Ho (folder </> n)) by apply child_neq.
  rewrite parent_child, Hf.
  by destruct (m !! (folder </> n)) as [[wr|[|] c]|].
Qed.

(** ** Listing a folder *)

Lemma elem_of_children (m : filesystem) (d p : path) :
  p ∈ Fs.children m d ↔ is_Some (m !! p) ∧ Pth.parent p = d ∧ p ≠ d.
Proof.
  unfold Fs.children. rewrite list_elem_of_fmap. split.
  - intros [[q x] [-> H]]. apply elem_of_map_to_list in H.
    apply map_lookup_filter_Some in H as [H1 [H2 H3]]. simpl in *. eauto.
  - intros [[x Hx] [H2 H3]]. exists (p, x). split; [done|].
    apply elem_of_map_to_list, map_lookup_filter_Some. done.
Qed.

Lemma children_NoDup (m : filesystem) (d : path) : NoDup (Fs.children m d).
Proof. apply NoDup_fst_map_to_list. Qed.

Lemma child_Inj (folder : path) : Inj (=) (=) (Pth.child folder).
Proof. intros n1 n2. apply child_inj. Qed.

(** ** A run in a folder that is ready *)

Lemma create_test_files_ready (rt : runtime) (w : world) (desktop : path) :
  desktop_of rt (fs w) = Returns desktop →
  folder_ready (fs w) (desktop </> "test_files") fixture_names = true →
  font_loads rt = true →
  ∃ m1,
    Fs.make_dir (desktop </> "test_files") true (fs w) = Returns m1
    ∧ m1 !! (desktop </> "test_files") = Some (Dir true)
    ∧ create_test_files rt w =
      (Returns tt,
       World
         (stored (desktop </> "test_files") (stores (all_actions rt)) m1)
         (out w ++ [creating_line (desktop </> "test_files")]
          ++ builder_lines rt
          ++ [done_line; location_line (desktop </> "test_files")]
          ++ listing
               (stored (desktop </> "test_files") (stores (all_actions rt)) m1)
               (desktop </> "test_files"))).
Proof.
  intros Hd Hr Hf. set (tf := desktop </> "test_files") in *.
  destruct (folder_ready_make_dir _ _ _ Hr) as (m1 & Hm & Hdir & Hw).
  exists m1. split; [done|]. split; [done|].
  rewrite create_test_files_run, Hd. cbv zeta. fold tf. rewrite Hm.
  set (W := World m1 (out w ++ [creating_line tf])).
  pose proof (run_plans_perform tf (all_plans rt) W) as [Ho Hfs].
  pose proof (run_plans_out tf (all_plans rt) W) as Hout.
  fold (all_actions rt) in Ho, Hfs.
  rewrite perform_ready in Ho, Hfs;
    [|by apply all_actions_aborts|by rewrite all_actions_names
     |by apply all_actions_aborts|by rewrite all_actions_names].
  unfold outcome, exec in *. cbn [fst snd fs out W] in *.
  destruct (run_plans tf (all_plans rt) W) as [[[]|e] w']; [|done].
  cbn [fst snd] in *. specialize (Hout eq_refl).
  rewrite Hfs, Hout, all_plans_lines. cbn [out W].
  by rewrite <- !app_assoc.
Qed.

(** ** The files a run creates *)

(** C1, as amended: in every run in which the desktop folder is found, the
    fixture folder can be written to, and nothing but the file system can
    stop the image builder, [create_test_files] returns having stored
    exactly fourteen regular files in the fixture folder, under the fixed
    names of [fixture_names]; no other path changes but the folder itself,
    and a folder that held nothing ends up holding these fourteen files. *)
Theorem fourteen_files_created (rt : runtime) (w : world) (desktop : path) :
  desktop_of rt (fs w) = Returns desktop →
  folder_ready (fs w) (desktop </> "test_files") fixture_names = true →
  font_loads rt = true →
  let folder := desktop </> "test_files" in
  let w' := exec (create_test_files rt) w in
  outcome (create_test_files rt) w = Returns tt
  ∧ length fixture_names = 14
  ∧ NoDup fixture_names
  ∧ (∀ n, n ∈ fixture_names → Fs.is_regular (fs w') (folder </> n) = true)
  ∧ (∀ p, p ≠ folder → (∀ n, n ∈ fixture_names → p ≠ folder </> n) →
       fs w' !! p = fs w !! p)
  ∧ fs w' !! folder = Some (Dir true)
  ∧ (Fs.children (fs w) folder = [] →
       regular_entries (fs w') folder ≡ₚ Pth.child folder <$> fixture_names
       ∧ length (regular_entries (fs w') folder) = 14).
Proof.
  intros Hd Hr Hf folder w'.
  destruct (create_test_files_ready rt w desktop Hd Hr Hf)
    as (m1 & Hm & Hdir & Hrun).
  fold folder in Hm, Hdir, Hrun.
  pose proof (all_actions_names rt Hf) as Hnames.
  pose proof (all_actions_NoDup rt) as Hnd.
  apply make_dir_Returns in Hm as [_ Hother].
  unfold outcome, w', exec. rewrite Hrun. cbn [fst snd fs].
  set (mf := stored folder (stores (all_actions rt)) m1).
  assert (Hreg : ∀ n, n ∈ fixture_names →
                   Fs.is_regular mf (folder </> n) = true).
  { intros n Hn. rewrite <- Hnames in Hn.
    apply list_elem_of_fmap in Hn as [[n' c] [-> Hin]].
    unfold Fs.is_regular, mf. by rewrite (stored_lookup _ _ _ _ c). }
  assert (Hframe : ∀ p, (∀ n, n ∈ fixture_names → p ≠ folder </> n) →
                     mf !! p = m1 !! p).
  { intros p Hp. apply stored_lookup_ne. by rewrite Hnames. }
  assert (Hfolder : mf !! folder = Some (Dir true)).
  { rewrite Hframe; [done|]. intros n _. apply not_eq_sym, child_neq. }
  split; [done|]. split; [done|]. split; [apply fixture_names_NoDup|].
  split; [done|]. split.
  { intros p Hp Hn. rewrite Hframe by done. by apply Hother. }
  split; [done|]. intros Hempty.
  assert (Hperm : regular_entries mf folder
                  ≡ₚ Pth.child folder <$> fixture_names).
  { apply NoDup_Permutation.
    - unfold regular_entries, Fs.entries. rewrite Hfolder.
      apply NoDup_ListNoDup, List.NoDup_filter, NoDup_ListNoDup,
        children_NoDup.
    - apply (NoDup_fmap_2 _), fixture_names_NoDup.
    - intros p. unfold regular_entries, Fs.entries. rewrite Hfolder.
      rewrite list_elem_of_In, filter_In, <- list_elem_of_In.
      rewrite elem_of_children, list_elem_of_fmap. split.
      + intros [(Hsome & Hpar & Hne) _].
        destruct (decide (p ∈ Pth.child folder <$> fixture_names))
          as [Hin|Hout].
        { by apply list_elem_of_fmap in Hin. }
        assert (p ∈ Fs.children (fs w) folder) as Hc; [|by rewrite Hempty in Hc;
                                                       apply elem_of_nil in Hc].
        apply elem_of_children. split; [|done].
        rewrite <- Hother by done. rewrite <- Hframe; [done|].
        intros n Hn ->. apply Hout, list_elem_of_fmap. eauto.
      + intros (n & -> & Hn). split; [|by apply Hreg].
        split; [|split; [apply parent_child|apply child_neq]].
        specialize (Hreg n Hn). unfold Fs.is_regular in Hreg.
        by destruct (mf !! (folder </> n)). }
  split; [done|]. by rewrite Hperm, length_fmap.
Qed.

(** In a home directory with an empty desktop the premises of C1 hold, and
    the run leaves fourteen regular files in the fixture folder. *)
Lemma fourteen_files_created_witness :
  outcome (create_test_files Sample.pillow) (Sample.start Sample.base_fs)
  = Returns tt
  ∧ length
      (regular_entries
         (fs (exec (create_test_files Sample.pillow)
                (Sample.start Sample.base_fs)))
         Sample.folder) = 14.
Proof.
  destruct (fourteen_files_created Sample.pillow (Sample.start Sample.base_fs)
              (Sample.home </> "Desktop"))
    as (H1 & _ & _ & _ & _ & _ & H7); [reflexivity..|].
  split; [exact H1|]. apply H7. reflexivity.
Defined.

(** C1 as the specification states it, at a home directory with an empty
    desktop and without Pillow: the premises hold, the run returns, and
    it leaves fourteen regular files in the fixture folder, not sixteen. *)
Lemma sixteen_files_refuted :
  desktop_of Sample.no_pillow Sample.base_fs
  = Returns (Sample.home </> "Desktop")
  ∧ folder_ready Sample.base_fs Sample.folder fixture_names = true
  ∧ outcome (create_test_files Sample.no_pillow) (Sample.start Sample.base_fs)
    = Returns tt
  ∧ length
      (regular_entries
         (fs (exec (create_test_files Sample.no_pillow)
                (Sample.start Sample.base_fs)))
         Sample.folder) = 14
  ∧ length
      (regular_entries
         (fs (exec (create_test_files Sample.no_pillow)
                (Sample.start Sample.base_fs)))
         Sample.folder) ≠ 16.
Proof.
  assert (H : length
      (regular_entries
         (fs (exec (create_test_files Sample.no_pillow)
                (Sample.start Sample.base_fs)))
         Sample.folder) = 14) by (vm_compute; reflexivity).
  split; [by vm_compute|]. split; [by vm_compute|].
  split; [by vm_compute|]. split; [exact H|].
  rewrite H. discriminate.
Qed.

(** ** Finding the desktop folder *)

(** C2: when the home directory holds neither [Desktop] nor [Pulpit],
    [create_test_files] raises the [FileNotFoundError] of the resolution
    and leaves the world as it was: no folder made, no file written,
    nothing printed.  When [Desktop] is there it is the desktop folder;
    when it is not and [Pulpit] is there, [Pulpit] is.  The fixture folder
    of a run that returns is [test_files] in that folder. *)
Theorem desktop_resolution (rt : runtime) (w : world) :
  let desktop := Path_home rt </> "Desktop" in
  let pulpit := Path_home rt </> "Pulpit" in
  (Fs.present (fs w) desktop = false → Fs.present (fs w) pulpit = false →
     create_test_files rt w = (Raises no_desktop_error, w))
  ∧ (Fs.present (fs w) desktop = true →
       desktop_folder rt w = (Returns desktop, w))
  ∧ (Fs.present (fs w) desktop = false → Fs.present (fs w) pulpit = true →
       desktop_folder rt w = (Returns pulpit, w))
  ∧ (∀ d, desktop_folder rt w = (Returns d, w) →
       outcome (create_test_files rt) w = Returns tt →
       ∃ wr, fs (exec (create_test_files rt) w) !! (d </> "test_files")
             = Some (Dir wr)).
Proof.
  intros desktop pulpit. repeat split.
  - intros H1 H2. rewrite create_test_files_run. unfold desktop_of.
    fold desktop pulpit. by rewrite H1, H2.
  - intros H1. rewrite desktop_folder_run. unfold desktop_of.
    fold desktop. by rewrite H1.
  - intros H1 H2. rewrite desktop_folder_run. unfold desktop_of.
    fold desktop pulpit. by rewrite H1, H2.
  - intros d Hd. rewrite desktop_folder_run in Hd.
    injection Hd as Hd. unfold outcome, exec.
    rewrite create_test_files_run, Hd. cbv zeta.
    destruct (Fs.make_dir (d </> "test_files") true (fs w)) as [m1|e] eqn:Hm;
      [|done].
    apply make_dir_Returns in Hm as [[wr Hdir] _].
    set (W := World m1 _).
    pose proof (run_plans_perform (d </> "test_files") (all_plans rt) W)
      as [_ Hfs].
    unfold exec in Hfs.
    destruct (run_plans (d </> "test_files") (all_plans rt) W)
      as [[[]|e] w1]; [|done].
    intros _. exists wr. cbn [fst snd fs] in *. rewrite Hfs.
    rewrite perform_frame; [done|].
    intros n _. apply not_eq_sym, child_neq.
Qed.

(** The three cases of C2 at sample home directories. *)
Lemma desktop_resolution_witness :
  create_test_files Sample.no_pillow (Sample.start Sample.bare_fs)
  = (Raises no_desktop_error, Sample.start Sample.bare_fs)
  ∧ desktop_folder Sample.no_pillow (Sample.start Sample.base_fs)
    = (Returns (Sample.home </> "Desktop"), Sample.start Sample.base_fs)
  ∧ desktop_folder Sample.no_pillow (Sample.start Sample.pulpit_fs)
    = (Returns (Sample.home </> "Pulpit"), Sample.start Sample.pulpit_fs).
Proof.
  split; [|split].
  - apply (desktop_resolution Sample.no_pillow (Sample.start Sample.bare_fs));
      reflexivity.
  - apply (desktop_resolution Sample.no_pillow (Sample.start Sample.base_fs));
      reflexivity.
  - apply (desktop_resolution Sample.no_pillow
             (Sample.start Sample.pulpit_fs)); reflexivity.
Defined.

(** ** Errors and the entry point *)

Lemma IOError_is_Exception (e : exn) :
  is_IOError e = true → is_Exception e = true.
Proof. unfold is_IOError, is_Exception. by destruct (exn_cls e). Qed.

(** What [create_test_files] can raise: an error of the file system
    (the resolution, the folder, a file), or what stopped the image
    builder before it drew. *)
Lemma create_test_files_Raises (rt : runtime) (w w' : world) (e : exn) :
  create_test_files rt w = (Raises e, w') →
  is_IOError e = true
  ∨ (PILLOW_AVAILABLE rt = true ∧ drawing_font rt = Raises e).
Proof.
  rewrite create_test_files_run. unfold desktop_of.
  destruct (Fs.present (fs w) (Path_home rt </> "Desktop")).
  2: destruct (Fs.present (fs w) (Path_home rt </> "Pulpit"));
       [|intros [= <- <-]; by left].
  all: cbv zeta.
  all: match goal with
       | |- context [Fs.make_dir ?p true ?m] =>
           destruct (Fs.make_dir p true m) as [m1|e1] eqn:Hm;
           [|intros [= <- <-]; left; by eapply make_dir_Raises_IOError]
       end.
  all: match goal with
       | |- context [run_plans ?f ?l ?W] =>
           pose proof (run_plans_perform f l W) as [Ho _];
           unfold outcome in Ho;
           destruct (run_plans f l W) as [[[]|e2] w2]; [done|];
           intros [= <- <-]; cbn [fst] in Ho; symmetry in Ho;
           destruct (perform f (concat (actions <$> l)) (fs W))
             as [r mf] eqn:Hp; cbn [fst] in Ho; subst r;
           apply perform_Raises in Hp as [Hio|Hab]; [by left|right];
           by apply all_actions_aborts_font
       end.
Qed.

(** The handler of [main]. *)
Lemma main_handles (rt : runtime) (w w' : world) (e : exn) :
  create_test_files rt (World (fs w) (out w ++ banner)) = (Raises e, w') →
  is_Exception e = true →
  main rt w = (Returns tt, World (fs w') (out w' ++ failure_lines e)).
Proof.
  intros Hc He.
  unfold main. rewrite bind_run. unfold print at 1. cbn [fs out].
  rewrite bind_run. unfold print at 1. cbn [fs out].
  unfold try_except. rewrite bind_run.
  rewrite <- app_assoc. change ([?a] ++ [?b]) with [a; b].
  fold banner. rewrite Hc, He.
  rewrite bind_run. unfold print. cbn [fs out].
  unfold failure_lines. by rewrite <- app_assoc.
Qed.

(** C5: whatever [create_test_files] raises, if it is an [Exception], the
    entry point catches it: [main] returns, having printed after what was
    printed so far the error line, which holds the text of the error, and
    the hint; the exit status is 0.  The errors of the resolution and of
    the file system are [IOError]s, hence [Exception]s. *)
Theorem main_catches (rt : runtime) (w w' : world) (e : exn) :
  create_test_files rt (World (fs w) (out w ++ banner)) = (Raises e, w') →
  is_Exception e = true →
  main rt w = (Returns tt, World (fs w') (out w' ++ failure_lines e))
  ∧ exit_status (outcome (main rt) w) = 0
  ∧ failure_lines e
    = ["❌ Error creating test files: " +:+ exn_msg e;
       "💡 Try running as administrator if you get permission errors"]
  ∧ (is_IOError e = true → is_Exception e = true).
Proof.
  intros Hc He. pose proof (main_handles rt w w' e Hc He) as Hm.
  split; [done|]. split; [unfold outcome; by rewrite Hm|].
  split; [done|]. apply IOError_is_Exception.
Qed.

(** C5 at a home directory without a desktop: the resolution error is
    caught and reported. *)
Lemma main_catches_witness :
  main Sample.no_pillow (Sample.start Sample.bare_fs)
  = (Returns tt,
     World Sample.bare_fs (banner ++ failure_lines no_desktop_error)).
Proof.
  apply (main_catches Sample.no_pillow (Sample.start Sample.bare_fs)
           (World Sample.bare_fs banner) no_desktop_error);
    reflexivity.
Defined.

(** ** The archive *)

(** C3: when [test_archive.zip] can be written in the folder, the archive
    builder leaves there a closed archive of exactly three members, in the
    order they were written, with the fixed names and data, each stamped
    with the time the clock gave when it was written; reading it back
    returns these names and data and raises nothing.  This holds whether
    or not the builder then manages to write [backup.rar]. *)
Theorem archive_three_members (rt : runtime) (folder : path) (w : world) :
  writable_slot (fs w) (folder </> "test_archive.zip") = true →
  let w' := exec (create_archive_files rt folder) w in
  let members :=
    [("readme.txt", "This is content inside the ZIP file");
     ("data.json",
      "{" +:+ Txt.q "test" +:+ ": " +:+ Txt.q "data" +:+ ", "
      +:+ Txt.q "file" +:+ ": " +:+ Txt.q "organizer" +:+ "}");
     ("folder/nested_file.txt", "Nested file content")] in
  fs w' !! (folder </> "test_archive.zip")
  = Some (File true
            (ZipArchive
               [Member "readme.txt" (time_localtime rt 0)
                  "This is content inside the ZIP file";
                Member "data.json" (time_localtime rt 1)
                  ("{" +:+ Txt.q "test" +:+ ": " +:+ Txt.q "data" +:+ ", "
                   +:+ Txt.q "file" +:+ ": " +:+ Txt.q "organizer" +:+ "}");
                Member "folder/nested_file.txt" (time_localtime rt 2)
                  "Nested file content"]))
  ∧ Zip.read_members (folder </> "test_archive.zip") w'
    = (Returns members, w')
  ∧ length members = 3.
Proof.
  intros Hw w' members.
  assert (Hl : fs w' !! (folder </> "test_archive.zip")
               = Some (File true (ZipArchive (archive_members rt)))).
  { unfold w', exec. rewrite create_archive_files_plan.
    destruct w as [m o]. unfold run_plan.
    cbn [actions archive_plan perform fs] in *.
    rewrite (proj1 (store_writable _ (ZipArchive (archive_members rt)) _) Hw).
    destruct (Fs.store (folder </> "backup.rar") _ _) as [m2|e] eqn:E;
      cbn [snd fs].
    - apply store_Returns in E as ->.
      rewrite lookup_insert_ne; [apply lookup_insert_eq|].
      by intros ?%child_inj.
    - apply lookup_insert_eq. }
  split; [done|]. split; [|done].
  unfold Zip.read_members. by rewrite Hl.
Qed.

(** C3 in a fresh fixture folder. *)
Lemma archive_three_members_witness :
  Zip.read_members (Sample.folder </> "test_archive.zip")
    (exec (create_archive_files Sample.pillow Sample.folder)
       (Sample.start (<[Sample.folder := Dir true]> Sample.base_fs)))
  = (Returns
       [("readme.txt", "This is content inside the ZIP file");
        ("data.json",
         "{" +:+ Txt.q "test" +:+ ": " +:+ Txt.q "data" +:+ ", "
         +:+ Txt.q "file" +:+ ": " +:+ Txt.q "organizer" +:+ "}");
        ("folder/nested_file.txt", "Nested file content")],
     exec (create_archive_files Sample.pillow Sample.folder)
       (Sample.start (<[Sample.folder := Dir true]> Sample.base_fs))).
Proof.
  apply (archive_three_members Sample.pillow Sample.folder
           (Sample.start (<[Sample.folder := Dir true]> Sample.base_fs))).
  reflexivity.
Defined.

(** The placeholder next to it is no archive: reading it is refused. *)
Lemma backup_rar_not_an_archive :
  outcome
    (create_archive_files Sample.pillow Sample.folder ;;
     Zip.read_members (Sample.folder </> "backup.rar"))
    (Sample.start (<[Sample.folder := Dir true]> Sample.base_fs))
  = Raises (Exn BadZipFile "File is not a zip file").
Proof. by vm_compute. Qed.

(** ** The structured-data file *)

(** C7: when [create_other_files] returns, [config.json] holds a text that
    decodes as JSON to an object with exactly the keys [app_name],
    [version], [author], [test_files] and [features], in this order;
    [test_files] is a list of three fixed strings and [features] one of
    four. *)
Theorem config_json_decodes (folder : path) (w : world) :
  outcome (create_other_files folder) w = Returns tt →
  ∃ (s : string) (v : Json.value),
    fs (exec (create_other_files folder) w) !! (folder </> "config.json")
    = Some (File true (Text s))
    ∧ Json.loads s = Some v
    ∧ Json.keys v = ["app_name"; "version"; "author"; "test_files"; "features"]
    ∧ Json.get v "app_name" = Some (Json.Str "File Organizer Pro")
    ∧ Json.get v "version" = Some (Json.Str "1.0")
    ∧ Json.get v "author" = Some (Json.Str "Darius04-ux")
    ∧ Json.get v "test_files"
      = Some (Json.Arr [Json.Str "readme.txt"; Json.Str "sample_image.png";
                        Json.Str "test_document.pdf"])
    ∧ Json.get v "features"
      = Some (Json.Arr [Json.Str "File organization"; Json.Str "GUI interface";
                        Json.Str "Undo functionality";
                        Json.Str "Logging system"]).
Proof.
  unfold outcome, exec. rewrite create_other_files_plan. unfold run_plan.
  destruct (perform folder (actions other_plan) (fs w)) as [[[]|e] mf] eqn:Hp;
    [|done].
  intros _. apply perform_Returns in Hp as [_ ->].
  exists (Json.dumps json_data 2), json_data. cbn [snd fs]. split.
  { apply stored_lookup; [by apply (bool_decide_unpack _)|].
    cbn [actions other_plan stores]. apply elem_of_cons. by left. }
  split; [by vm_compute|]. repeat split.
Qed.

(** C7 in a fresh fixture folder. *)
Lemma config_json_decodes_witness :
  ∃ (s : string) (v : Json.value),
    fs (exec (create_other_files Sample.folder)
          (Sample.start (<[Sample.folder := Dir true]> Sample.base_fs)))
      !! (Sample.folder </> "config.json")
    = Some (File true (Text s))
    ∧ Json.loads s = Some v
    ∧ Json.keys v = ["app_name"; "version"; "author"; "test_files"; "features"].
Proof.
  destruct (config_json_decodes Sample.folder
              (Sample.start (<[Sample.folder := Dir true]> Sample.base_fs)))
    as (s & v & H1 & H2 & H3 & _); [reflexivity|].
  exists s, v. auto.
Defined.

(** ** The image builder *)

Lemma main_returns (rt : runtime) (w w1 : world) :
  create_test_files rt (World (fs w) (out w ++ banner)) = (Returns tt, w1) →
  main rt w = (Returns tt, World (fs w1) (out w1 ++ success_lines)).
Proof.
  intros Hc. unfold main. rewrite bind_run. unfold print at 1. cbn [fs out].
  rewrite bind_run. unfold print at 1. cbn [fs out].
  unfold try_except. rewrite bind_run.
  rewrite <- app_assoc. change ([?a] ++ [?b]) with [a; b].
  fold banner. rewrite Hc.
  rewrite bind_run. unfold print. cbn [fs out].
  unfold success_lines. by rewrite <- app_assoc.
Qed.

(** When nothing but the file system can stop the image builder, [main]
    returns whatever the file system holds: a run that fails is reported
    on the output only. *)
Lemma main_always_returns (rt : runtime) (w : world) :
  font_loads rt = true →
  outcome (main rt) w = Returns tt ∧ exit_status (outcome (main rt) w) = 0.
Proof.
  intros Hf.
  assert (H : outcome (main rt) w = Returns tt); [|by rewrite H].
  unfold outcome.
  destruct (create_test_files rt (World (fs w) (out w ++ banner)))
    as [[[]|e] w'] eqn:Hc.
  - by rewrite (main_returns _ _ _ Hc).
  - rewrite (main_handles _ _ _ _ Hc); [done|].
    apply create_test_files_Raises in Hc as [Hio|(Hp & Hl)].
    + by apply IOError_is_Exception.
    + unfold font_loads in Hf. by rewrite Hp, Hl in Hf.
Qed.

Lemma perform_two (folder : path) (n1 n2 : string) (c1 c2 : content)
    (m : filesystem) :
  writable_slot m (folder </> n1) = true →
  writable_slot m (folder </> n2) = true →
  perform folder [Store n1 c1; Store n2 c2] m
  = (Returns tt,
     <[folder </> n2 := File true c2]> (<[folder </> n1 := File true c1]> m)).
Proof.
  intros H1 H2. rewrite perform_ready; [done|done|].
  cbn [stores fmap list_fmap fst]. by repeat constructor.
Qed.

(** C4: without Pillow, the image builder prints the warning and, where
    the two files can be written, stores [sample_image.png] and
    [test_photo.jpg] with the bytes of [PNG placeholder] and of
    [JPEG placeholder], which are not empty, and returns.  A run of the
    script from a home directory with a desktop folder and a fixture
    folder that is ready then returns from [main] with exit status 0: both
    files hold their placeholders, the warning is among the printed lines,
    and the last lines printed are those of success. *)
Theorem placeholder_images (rt : runtime) :
  PILLOW_AVAILABLE rt = false →
  (∀ folder w,
     writable_slot (fs w) (folder </> "sample_image.png") = true →
     writable_slot (fs w) (folder </> "test_photo.jpg") = true →
     create_image_files rt folder w
     = (Returns tt,
        World
          (<[folder </> "test_photo.jpg" := File true (Bytes jpeg_placeholder)]>
             (<[folder </> "sample_image.png"
                  := File true (Bytes png_placeholder)]> (fs w)))
          (out w ++ [image_warning])))
  ∧ string_of_list_byte png_placeholder = "PNG placeholder"
  ∧ string_of_list_byte jpeg_placeholder = "JPEG placeholder"
  ∧ length png_placeholder = 15 ∧ length jpeg_placeholder = 16
  ∧ (∀ w desktop,
       desktop_of rt (fs w) = Returns desktop →
       folder_ready (fs w) (desktop </> "test_files") fixture_names = true →
       ∃ w', main rt w = (Returns tt, w')
             ∧ exit_status (outcome (main rt) w) = 0
             ∧ fs w' !! (desktop </> "test_files" </> "sample_image.png")
               = Some (File true (Bytes png_placeholder))
             ∧ fs w' !! (desktop </> "test_files" </> "test_photo.jpg")
               = Some (File true (Bytes jpeg_placeholder))
             ∧ image_warning ∈ out w'
             ∧ ∃ o, out w' = o ++ success_lines).
Proof.
  intros Hp. split; [|split; [done|split; [done|split; [done|split;
                                                         [done|]]]]].
  - intros folder w H1 H2. rewrite create_image_files_plan.
    unfold image_plan. rewrite Hp. destruct w as [m o]. unfold run_plan.
    cbn [actions placeholder_plan before after fs out] in *.
    rewrite perform_two by done. by rewrite app_nil_r.
  - intros w desktop Hd Hr.
    assert (Hf : font_loads rt = true) by (unfold font_loads; by rewrite Hp).
    destruct (create_test_files_ready rt (World (fs w) (out w ++ banner))
                desktop Hd Hr Hf) as (m1 & _ & _ & Hrun).
    apply main_returns in Hrun.
    eexists. split; [exact Hrun|]. cbn [fs out].
    assert (Hall : take 4 (stores (all_actions rt))
                   = take 4 (stores (all_actions Sample.no_pillow))).
    { unfold all_actions, all_plans, image_plan. by rewrite Hp. }
    split; [unfold outcome; by rewrite Hrun|].
    split.
    { apply stored_lookup; [apply all_actions_NoDup|].
      apply (subseteq_take 4). rewrite Hall.
      apply list_elem_of_lookup. by exists 2. }
    split.
    { apply stored_lookup; [apply all_actions_NoDup|].
      apply (subseteq_take 4). rewrite Hall.
      apply list_elem_of_lookup. by exists 3. }
    split; [|eauto].
    unfold builder_lines. rewrite Hp.
    rewrite !elem_of_app. left. right. right. left.
    apply elem_of_cons. right. apply elem_of_cons. by left.
Qed.

(** C4 at a home directory with an empty desktop. *)
Lemma placeholder_images_witness :
  ∃ w', main Sample.no_pillow (Sample.start Sample.base_fs) = (Returns tt, w')
        ∧ fs w' !! (Sample.folder </> "sample_image.png")
          = Some (File true (Bytes png_placeholder))
        ∧ fs w' !! (Sample.folder </> "test_photo.jpg")
          = Some (File true (Bytes jpeg_placeholder))
        ∧ image_warning ∈ out w'.
Proof.
  destruct (placeholder_images Sample.no_pillow eq_refl)
    as (_ & _ & _ & _ & _ & H).
  destruct (H (Sample.start Sample.base_fs) (Sample.home </> "Desktop")
              eq_refl eq_refl) as (w' & H1 & _ & H3 & H4 & H5 & _).
  exists w'. auto.
Defined.

(** X15: with Pillow, when the call of [ImageFont.load_default] in the
    builder raises an [IOError] and the drawing object can still get a
    default font when a text is drawn with no font given, the image
    builder does what it does with a font, drawing every text with no
    font: it raises only if a file cannot be written, and where both can
    it returns, having stored the PNG canvas in [sample_image.png] and
    the JPEG canvas in [test_photo.jpg] and printed its marker. *)
Theorem font_failure_tolerated (rt : runtime) (e : exn) (f : font) :
  PILLOW_AVAILABLE rt = true →
  ImageFont_load_default rt = Raises e →
  is_IOError e = true →
  ImageDraw_getfont rt = Returns f →
  (∀ folder w,
     create_image_files rt folder w = run_plan folder (drawn_plan None) w)
  ∧ (∀ folder w,
       writable_slot (fs w) (folder </> "sample_image.png") = true →
       writable_slot (fs w) (folder </> "test_photo.jpg") = true →
       create_image_files rt folder w
       = (Returns tt,
          World
            (<[folder </> "test_photo.jpg"
                 := File true (ImageFile JPEG (jpg_canvas None))]>
               (<[folder </> "sample_image.png"
                    := File true (ImageFile PNG (png_canvas None))]> (fs w)))
            (out w ++ [image_marker])))
  ∧ Forall (λ op, match op with
                  | DrawText _ _ _ fnt => fnt = None
                  | _ => True
                  end)
      (im_ops (png_canvas None) ++ im_ops (jpg_canvas None)).
Proof.
  intros Hp Hl He Hg.
  assert (Hplan : ∀ folder w,
            create_image_files rt folder w
            = run_plan folder (drawn_plan None) w).
  { intros folder w. rewrite create_image_files_plan.
    unfold image_plan, drawing_font. by rewrite Hp, Hl, He, Hg. }
  split; [done|]. split; [|by repeat constructor].
  intros folder w H1 H2. rewrite Hplan. destruct w as [m o].
  unfold run_plan. cbn [actions drawn_plan before after fs out] in *.
  by rewrite perform_two.
Qed.

(** X15 in a fresh fixture folder, the font not loaded by the script. *)
Lemma font_failure_tolerated_witness :
  create_image_files Sample.pillow_no_font Sample.folder
    (Sample.start (<[Sample.folder := Dir true]> Sample.base_fs))
  = (Returns tt,
     World
       (<[Sample.folder </> "test_photo.jpg"
            := File true (ImageFile JPEG (jpg_canvas None))]>
          (<[Sample.folder </> "sample_image.png"
               := File true (ImageFile PNG (png_canvas None))]>
             (<[Sample.folder := Dir true]> Sample.base_fs)))
       [image_marker]).
Proof.
  apply (font_failure_tolerated Sample.pillow_no_font
           (Exn OSError "cannot open resource") default_font
           eq_refl eq_refl eq_refl eq_refl);
    reflexivity.
Defined.

(** Where the drawing object cannot load the default font either, the
    first text drawn with no font raises, and the builder writes nothing. *)
Lemma font_failure_again (rt : runtime) (e e' : exn) (folder : path)
    (w : world) :
  PILLOW_AVAILABLE rt = true →
  ImageFont_load_default rt = Raises e →
  is_IOError e = true →
  ImageDraw_getfont rt = Raises e' →
  create_image_files rt folder w = (Raises e', w).
Proof.
  intros Hp Hl He Hg. rewrite create_image_files_plan.
  unfold image_plan, drawing_font. rewrite Hp, Hl, He, Hg.
  destruct w as [m o]. unfold run_plan.
  cbn [actions perform before fs out]. by rewrite app_nil_r.
Qed.

(** C10 fails where the default font cannot be loaded at all, the case
    the handler of the builder is written for.  With Pillow there and
    every load of the default font raising the same [IOError], in a fresh
    fixture folder where both image files could be written: the builder
    catches the error of its own call and sets the font to [None]; the
    first text drawn with no font makes the drawing object load the
    default font again, and that error leaves the builder.  Neither image
    file is written and the marker is not printed.  The run of the script
    stops there, after the two text files, and [main] reports the
    error. *)
Theorem font_failure_stops_the_builder :
  PILLOW_AVAILABLE Sample.pillow_broken_font = true
  ∧ ImageFont_load_default Sample.pillow_broken_font
    = Raises (Exn OSError "cannot open resource")
  ∧ is_IOError (Exn OSError "cannot open resource") = true
  ∧ writable_slot (<[Sample.folder := Dir true]> Sample.base_fs)
      (Sample.folder </> "sample_image.png") = true
  ∧ writable_slot (<[Sample.folder := Dir true]> Sample.base_fs)
      (Sample.folder </> "test_photo.jpg") = true
  ∧ create_image_files Sample.pillow_broken_font Sample.folder
      (Sample.start (<[Sample.folder := Dir true]> Sample.base_fs))
    = (Raises (Exn OSError "cannot open resource"),
       Sample.start (<[Sample.folder := Dir true]> Sample.base_fs))
  ∧ outcome (create_test_files Sample.pillow_broken_font)
      (Sample.start Sample.base_fs)
    = Raises (Exn OSError "cannot open resource")
  ∧ regular_entries
      (fs (exec (create_test_files Sample.pillow_broken_font)
             (Sample.start Sample.base_fs)))
      Sample.folder
    ≡ₚ [Sample.folder </> "readme.txt"; Sample.folder </> "notes.txt"]
  ∧ out (exec (main Sample.pillow_broken_font) (Sample.start Sample.base_fs))
    = banner
      ++ [creating_line Sample.folder; text_marker;
          "❌ Error creating test files: cannot open resource";
          "💡 Try running as administrator if you get permission errors"].
Proof.
  split; [done|]. split; [done|]. split; [done|].
  split; [by vm_compute|]. split; [by vm_compute|].
  split.
  { by apply (font_failure_again _ (Exn OSError "cannot open resource")). }
  split; [by vm_compute|].
  split; [|by vm_compute].
  assert (H : regular_entries
                (fs (exec (create_test_files Sample.pillow_broken_font)
                       (Sample.start Sample.base_fs)))
                Sample.folder
              = [Sample.folder </> "notes.txt";
                 Sample.folder </> "readme.txt"]
              ∨ regular_entries
                  (fs (exec (create_test_files Sample.pillow_broken_font)
                         (Sample.start Sample.base_fs)))
                  Sample.folder
                = [Sample.folder </> "readme.txt";
                   Sample.folder </> "notes.txt"]).
  { vm_compute. auto. }
  destruct H as [-> | ->]; [apply Permutation_swap|done].
Qed.

(** ** The lines the builders print *)

Lemma run_plan_perform (folder : path) (s : plan) (w : world) :
  outcome (run_plan folder s) w = (perform folder (actions s) (fs w)).1
  ∧ fs (exec (run_plan folder s) w) = (perform folder (actions s) (fs w)).2.
Proof.
  unfold outcome, exec, run_plan.
  by destruct (perform folder (actions s) (fs w)) as [[[]|e] m1].
Qed.

Lemma run_plan_prints_when_done (folder : path) (s : plan) (marker : string) :
  before s = [] → after s = [marker] →
  prints_when_done (run_plan folder s) marker.
Proof.
  intros Hb Ha w. unfold outcome, exec, run_plan. rewrite Hb, Ha.
  by destruct (perform folder (actions s) (fs w)) as [[[]|e] m1].
Qed.

Lemma prints_when_done_ext (b b' : Py unit) (marker : string) :
  (∀ w, b w = b' w) → prints_when_done b' marker → prints_when_done b marker.
Proof. intros H Hb w. unfold outcome, exec. rewrite H. apply Hb. Qed.

(** C9, as amended: in a run of [create_test_files] that returns, the lines
    printed between the line that names the folder and the line of
    success are six, one for each builder in the order text, image,
    document, archive, code, other.  Each is the completion marker of its
    builder, printed once the builder has written its files and not when
    it fails, but for the image builder without Pillow: it prints the
    warning instead, and prints it before it writes, whether or not it
    then fails. *)
Theorem builder_lines_in_order (rt : runtime) (w : world) :
  outcome (create_test_files rt) w = Returns tt →
  (∃ folder tail,
     out (exec (create_test_files rt) w)
     = out w ++ [creating_line folder] ++ builder_lines rt
       ++ [done_line; location_line folder] ++ tail)
  ∧ builder_lines rt
    = [text_marker;
       if PILLOW_AVAILABLE rt then image_marker else image_warning;
       document_marker; archive_marker; code_marker; other_marker]
  ∧ (∀ folder,
       prints_when_done (create_text_files folder) text_marker
       ∧ prints_when_done (create_document_files folder) document_marker
       ∧ prints_when_done (create_archive_files rt folder) archive_marker
       ∧ prints_when_done (create_code_files folder) code_marker
       ∧ prints_when_done (create_other_files folder) other_marker
       ∧ (PILLOW_AVAILABLE rt = true →
            prints_when_done (create_image_files rt folder) image_marker)
       ∧ (PILLOW_AVAILABLE rt = false →
            ∀ w0, out (exec (create_image_files rt folder) w0)
                  = out w0 ++ [image_warning])).
Proof.
  intros Hret. split; [|split; [done|]].
  - unfold outcome, exec in *. rewrite create_test_files_run in *.
    destruct (desktop_of rt (fs w)) as [desktop|e]; [|done].
    cbv zeta in *.
    destruct (Fs.make_dir (desktop </> "test_files") true (fs w))
      as [m1|e]; [|done].
    set (W := World m1 _) in *.
    pose proof (run_plans_out (desktop </> "test_files") (all_plans rt) W)
      as Hout.
    unfold outcome, exec in Hout.
    destruct (run_plans (desktop </> "test_files") (all_plans rt) W)
      as [[[]|e] w1]; [|done].
    exists (desktop </> "test_files"), (listing (fs w1) (desktop </> "test_files")).
    cbn [fst snd out] in *. rewrite (Hout eq_refl), all_plans_lines.
    unfold W. cbn [out]. by rewrite <- !app_assoc.
  - intros folder. repeat split.
    + eapply prints_when_done_ext; [apply create_text_files_plan|].
      by apply run_plan_prints_when_done.
    + eapply prints_when_done_ext; [apply create_document_files_plan|].
      by apply run_plan_prints_when_done.
    + eapply prints_when_done_ext; [apply create_archive_files_plan|].
      by apply run_plan_prints_when_done.
    + eapply prints_when_done_ext; [apply create_code_files_plan|].
      by apply run_plan_prints_when_done.
    + eapply prints_when_done_ext; [apply create_other_files_plan|].
      by apply run_plan_prints_when_done.
    + intros Hp.
      eapply prints_when_done_ext; [apply create_image_files_plan|].
      unfold image_plan. rewrite Hp.
      destruct (drawing_font rt) as [fnt|e];
        by apply run_plan_prints_when_done.
    + intros Hp w0. unfold exec. rewrite create_image_files_plan.
      unfold image_plan, run_plan. rewrite Hp.
      cbn [actions placeholder_plan before after].
      destruct (perform folder _ (fs w0)) as [[[]|e] m1]; cbn [snd out];
        by rewrite ?app_nil_r.
Qed.

(** C9 as amended, at a home directory with an empty desktop and without
    Pillow. *)
Lemma builder_lines_in_order_witness :
  ∃ folder tail,
    out (exec (create_test_files Sample.no_pillow)
           (Sample.start Sample.base_fs))
    = [] ++ [creating_line folder]
      ++ [text_marker; image_warning; document_marker; archive_marker;
          code_marker; other_marker]
      ++ [done_line; location_line folder] ++ tail.
Proof.
  destruct (builder_lines_in_order Sample.no_pillow
              (Sample.start Sample.base_fs)) as [H _]; [reflexivity|].
  exact H.
Defined.

(** C9 as the specification states it, in the run without Pillow from a
    home directory with an empty desktop: the run returns and prints five
    completion markers, not six; the marker of the image builder is not
    printed.  And where [sample_image.png] is taken by a directory, the
    image builder fails, yet it has printed its one line, the warning. *)
Lemma six_markers_refuted :
  outcome (create_test_files Sample.no_pillow) (Sample.start Sample.base_fs)
  = Returns tt
  ∧ filter (λ s, s ∈ completion_markers)
      (out (exec (create_test_files Sample.no_pillow)
              (Sample.start Sample.base_fs)))
    = [text_marker; document_marker; archive_marker; code_marker;
       other_marker]
  ∧ (image_marker
     ∉ out (exec (create_test_files Sample.no_pillow)
              (Sample.start Sample.base_fs)))
  ∧ outcome (create_image_files Sample.no_pillow Sample.folder)
      (Sample.start Sample.blocked_fs)
    = Raises (EISDIR (Sample.folder </> "sample_image.png"))
  ∧ out (exec (create_image_files Sample.no_pillow Sample.folder)
           (Sample.start Sample.blocked_fs))
    = [image_warning].
Proof.
  split; [by vm_compute|]. split; [by vm_compute|].
  split; [|split; by vm_compute].
  apply (bool_decide_unpack _). by vm_compute.
Qed.

(** ** Running again *)

Lemma idempotent_ext (b b' : Py unit) :
  (∀ w, b w = b' w) → idempotent b' → idempotent b.
Proof.
  intros H Hb w. destruct (Hb w) as (H1 & H2 & H3).
  unfold outcome, exec in *. rewrite bind_run in *. rewrite !H.
  split; [done|]. split; [done|].
  destruct (b' w) as [[u|e] w1]; [by rewrite H|done].
Qed.

(** Two runs in a row: from the two facts on running again. *)
Lemma idempotent_intro (m : Py unit) :
  (∀ w, fs (exec m (exec m w)) = fs (exec m w)
        ∧ outcome m (exec m w) = outcome m w) →
  idempotent m.
Proof.
  intros H w. destruct (H w) as [H1 H2]. split; [done|]. split; [done|].
  unfold exec in *. rewrite bind_run.
  by destruct (m w) as [[u|e] w1].
Qed.

Lemma run_plan_idempotent (folder : path) (s : plan) :
  NoDup (stores (actions s)).*1 → idempotent (run_plan folder s).
Proof.
  intros Hnd. apply idempotent_intro. intros w.
  destruct (run_plan_perform folder s (exec (run_plan folder s) w))
    as [Ho Hf].
  destruct (run_plan_perform folder s w) as [Ho' Hf'].
  rewrite Ho, Hf, Ho', Hf'. by rewrite perform_again.
Qed.

Lemma create_test_files_generated (rt : runtime) (w : world) :
  outcome (create_test_files rt) w = (generated rt (fs w)).1
  ∧ fs (exec (create_test_files rt) w) = (generated rt (fs w)).2.
Proof.
  unfold outcome, exec, generated. rewrite create_test_files_run.
  destruct (desktop_of rt (fs w)) as [desktop|e]; [|done]. cbv zeta.
  destruct (Fs.make_dir (desktop </> "test_files") true (fs w))
    as [m1|e]; [|done].
  set (W := World m1 _).
  destruct (run_plans_perform (desktop </> "test_files") (all_plans rt) W)
    as [Ho Hf].
  unfold outcome, exec in *. fold (all_actions rt) in *.
  cbn [fs W] in *.
  destruct (run_plans (desktop </> "test_files") (all_plans rt) W)
    as [[[]|e] w1]; cbn [fst snd fs] in *; by rewrite <- ?Ho, <- ?Hf.
Qed.

(** The desktop folder lies directly in the home directory. *)
Lemma desktop_of_Returns (rt : runtime) (m : filesystem) (d : path) :
  desktop_of rt m = Returns d → ∃ n, d = Path_home rt </> n.
Proof.
  unfold desktop_of.
  destruct (Fs.present m (Path_home rt </> "Desktop")); [intros [= <-]; eauto|].
  destruct (Fs.present m (Path_home rt </> "Pulpit")); [intros [= <-]; eauto|].
  done.
Qed.

(** It is found again when nothing directly in the home directory has
    changed. *)
Lemma desktop_of_frame (rt : runtime) (m m' : filesystem) :
  (∀ n, m' !! (Path_home rt </> n) = m !! (Path_home rt </> n)) →
  desktop_of rt m' = desktop_of rt m.
Proof. intros H. unfold desktop_of, Fs.present. by rewrite !H. Qed.

Lemma generated_again (rt : runtime) (m : filesystem) :
  generated rt (generated rt m).2 = generated rt m.
Proof.
  unfold generated at 2 3.
  destruct (desktop_of rt m) as [desktop|e] eqn:Hd.
  2:{ unfold generated. cbn [snd]. by rewrite Hd. }
  destruct (Fs.make_dir (desktop </> "test_files") true m) as [m1|e] eqn:Hm.
  2:{ unfold generated. cbn [snd]. by rewrite Hd, Hm. }
  set (tf := desktop </> "test_files") in *.
  set (mf := (perform tf (all_actions rt) m1).2).
  destruct (desktop_of_Returns _ _ _ Hd) as [dn ->].
  destruct (make_dir_Returns _ _ _ Hm) as [[wr Hdir] Hother].
  assert (Hlen : ∀ (p : path) n, length (p </> n) = S (length p)).
  { intros p n. unfold Pth.child. rewrite length_app. simpl. lia. }
  assert (Hhome : ∀ n, mf !! (Path_home rt </> n) = m !! (Path_home rt </> n)).
  { intros n. unfold mf. rewrite perform_frame.
    - apply Hother. intros Heq. apply (f_equal length) in Heq.
      unfold tf in Heq. rewrite !Hlen in Heq. lia.
    - intros n' _ Heq. apply (f_equal length) in Heq.
      unfold tf in Heq. rewrite !Hlen in Heq. lia. }
  assert (Htf : mf !! tf = Some (Dir wr)).
  { unfold mf. rewrite perform_frame; [done|].
    intros n _. apply not_eq_sym, child_neq. }
  unfold generated. rewrite (desktop_of_frame rt m mf Hhome), Hd.
  fold tf. rewrite (make_dir_again _ _ _ Htf).
  apply perform_again, all_actions_NoDup.
Qed.

(** ** Running again at another time *)

(** A node put at a place that the actions do not store to, and that is
    not the folder: before or after them, it is the same. *)
Lemma perform_insert (folder : path) (l : list action) (m : filesystem)
    (p : path) (nd : node) :
  (∀ n, n ∈ (stores l).*1 → p ≠ folder </> n) →
  p ≠ folder →
  perform folder l (<[p := nd]> m)
  = ((perform folder l m).1, <[p := nd]> (perform folder l m).2).
Proof.
  revert m. induction l as [|[n c|e] l IH]; intros m Hp Hf; simpl;
    [done| |done].
  assert (Hn : folder </> n ≠ p).
  { apply not_eq_sym, Hp. simpl. apply elem_of_cons. by left. }
  assert (Hs : Fs.store (folder </> n) c (<[p := nd]> m)
               = match Fs.store (folder </> n) c m with
                 | Returns m1 => Returns (<[p := nd]> m1)
                 | Raises e => Raises e
                 end).
  { unfold Fs.store. rewrite parent_child.
    rewrite !lookup_insert_ne by done.
    destruct (m !! (folder </> n)) as [[wr|[|] c0]|]; try done.
    - by rewrite insert_insert_ne.
    - destruct (m !! folder) as [[[|]|wr c1]|]; try done.
      by rewrite insert_insert_ne. }
  rewrite Hs. destruct (Fs.store (folder </> n) c m) as [m1|e1]; [|done].
  apply IH; [|done]. intros n' Hn'. apply Hp. simpl.
  apply elem_of_cons. by right.
Qed.

Lemma alike_names (l l' : list action) :
  Forall2 alike l l' → (stores l').*1 = (stores l).*1.
Proof.
  induction 1 as [|a a' l l' Ha _ IH]; [done|].
  destruct a as [n c|e], a' as [n' c'|e']; simpl in Ha; try done.
  subst. cbn [stores]. rewrite !fmap_cons. by rewrite IH.
Qed.

(** Actions that are alike end the same way, and after the ones the
    others leave what they leave alone. *)
Lemma perform_rerun (folder : path) (l l' : list action) (m : filesystem) :
  Forall2 alike l l' →
  NoDup (stores l).*1 →
  (perform folder l' m).1 = (perform folder l m).1
  ∧ perform folder l' (perform folder l m).2 = perform folder l' m.
Proof.
  intros Hal. revert m.
  induction Hal as [|a a' l l' Ha Hal IH]; intros m Hnd; [done|].
  destruct a as [n c|e], a' as [n' c'|e']; simpl in Ha; try done; subst;
    [|done].
  simpl in Hnd. apply NoDup_cons in Hnd as [Hn Hnd].
  set (p := folder </> n').
  assert (Hl : ∀ n0, n0 ∈ (stores l).*1 → p ≠ folder </> n0).
  { intros n0 Hn0 Heq. apply child_inj in Heq as ->. done. }
  assert (Hl' : ∀ n0, n0 ∈ (stores l').*1 → p ≠ folder </> n0).
  { rewrite (alike_names _ _ Hal). exact Hl. }
  assert (Hf : p ≠ folder) by apply child_neq.
  cbn [perform]. fold p.
  destruct (Fs.store p c m) as [m1|e1] eqn:E.
  - pose proof (store_Returns _ _ _ _ E) as ->.
    assert (Hw : writable_slot m p = true) by (by eapply store_writable).
    rewrite (proj1 (store_writable p c' m) Hw).
    rewrite !perform_insert by done. cbn [fst snd].
    destruct (IH m Hnd) as [IH1 IH2]. split; [done|].
    cbn [perform]. fold p.
    assert (Hs : Fs.store p c' (<[p := File true c]> (perform folder l m).2)
                 = Returns (<[p := File true c']> (perform folder l m).2)).
    { unfold Fs.store. rewrite lookup_insert_eq.
      by rewrite insert_insert_eq. }
    rewrite Hs, perform_insert by done. by rewrite IH2.
  - rewrite (store_Raises _ _ c' _ _ E). split; [done|].
    cbn [snd perform]. fold p. by rewrite (store_Raises _ _ c' _ _ E).
Qed.

Lemma run_plan_rerun (folder : path) (s s' : plan) :
  Forall2 alike (actions s) (actions s') →
  NoDup (stores (actions s)).*1 →
  rerun (run_plan folder s) (run_plan folder s').
Proof.
  intros Hal Hnd w.
  destruct (run_plan_perform folder s w) as [Ho Hf].
  destruct (run_plan_perform folder s' w) as [Ho' Hf'].
  destruct (run_plan_perform folder s' (exec (run_plan folder s) w))
    as [Ho2 Hf2].
  destruct (perform_rerun folder _ _ (fs w) Hal Hnd) as [H1 H2].
  rewrite Ho', Ho2, Hf2, Hf', Ho, Hf, H2. done.
Qed.

Lemma rerun_ext (b1 b1' b2 b2' : Py unit) :
  (∀ w, b1 w = b2 w) → (∀ w, b1' w = b2' w) → rerun b2 b2' → rerun b1 b1'.
Proof.
  intros H H' Hr w. unfold outcome, exec. rewrite !H, !H'. apply Hr.
Qed.

Lemma image_plan_same (rt rt' : runtime) :
  same_machine rt rt' → image_plan rt' = image_plan rt.
Proof.
  intros (Hp & Hl & Hg & _). unfold image_plan, drawing_font.
  by rewrite Hp, Hl, Hg.
Qed.

Lemma alike_refl (l : list action) : Forall2 alike l l.
Proof. induction l as [|[n c|e] l IH]; by constructor. Qed.

Lemma all_actions_alike (rt rt' : runtime) :
  same_machine rt rt' → Forall2 alike (all_actions rt) (all_actions rt').
Proof.
  intros Hs. unfold all_actions, all_plans.
  rewrite (image_plan_same _ _ Hs). cbn [fmap list_fmap concat].
  repeat (apply Forall2_app; [apply alike_refl|]).
  constructor; [done|]. apply alike_refl.
Qed.

Lemma generated_rerun (rt rt' : runtime) (m : filesystem) :
  same_machine rt rt' →
  (generated rt' m).1 = (generated rt m).1
  ∧ generated rt' (generated rt m).2 = generated rt' m.
Proof.
  intros Hs.
  assert (Hd' : ∀ m0, desktop_of rt' m0 = desktop_of rt m0).
  { intros m0. destruct Hs as (_ & _ & _ & Hh). unfold desktop_of.
    by rewrite Hh. }
  destruct (desktop_of rt m) as [desktop|e] eqn:Hd.
  2:{ assert (E : ∀ r, desktop_of r m = Raises e →
                       generated r m = (Raises e, m)).
      { intros r Hr. unfold generated. by rewrite Hr. }
      rewrite (E rt Hd), (E rt') by (by rewrite Hd').
      split; [done|]. cbn [snd]. apply E. by rewrite Hd'. }
  destruct (Fs.make_dir (desktop </> "test_files") true m) as [m1|e] eqn:Hm.
  2:{ assert (E : ∀ r, desktop_of r m = Returns desktop →
                       generated r m = (Raises e, m)).
      { intros r Hr. unfold generated. by rewrite Hr, Hm. }
      rewrite (E rt Hd), (E rt') by (by rewrite Hd').
      split; [done|]. cbn [snd]. apply E. by rewrite Hd'. }
  set (tf := desktop </> "test_files") in *.
  assert (E : ∀ r, desktop_of r m = Returns desktop →
                   generated r m = perform tf (all_actions r) m1).
  { intros r Hr. unfold generated. rewrite Hr. fold tf. by rewrite Hm. }
  rewrite (E rt Hd), (E rt') by (by rewrite Hd').
  destruct (perform_rerun tf _ _ m1 (all_actions_alike _ _ Hs)
              (all_actions_NoDup rt)) as [H1 H2].
  split; [done|].
  set (mf := (perform tf (all_actions rt) m1).2) in *.
  destruct (desktop_of_Returns _ _ _ Hd) as [dn ->].
  destruct (make_dir_Returns _ _ _ Hm) as [[wr Hdir] Hother].
  assert (Hlen : ∀ (p : path) n, length (p </> n) = S (length p)).
  { intros p n. unfold Pth.child. rewrite length_app. simpl. lia. }
  assert (Hhome : ∀ n, mf !! (Path_home rt </> n) = m !! (Path_home rt </> n)).
  { intros n. unfold mf. rewrite perform_frame.
    - apply Hother. intros Heq. apply (f_equal length) in Heq.
      unfold tf in Heq. rewrite !Hlen in Heq. lia.
    - intros n' _ Heq. apply (f_equal length) in Heq.
      unfold tf in Heq. rewrite !Hlen in Heq. lia. }
  assert (Htf : mf !! tf = Some (Dir wr)).
  { unfold mf. rewrite perform_frame; [done|].
    intros n _. apply not_eq_sym, child_neq. }
  unfold generated. rewrite Hd', (desktop_of_frame rt m mf Hhome), Hd.
  fold tf. by rewrite (make_dir_again _ _ _ Htf).
Qed.

Lemma create_test_files_rerun (rt rt' : runtime) :
  same_machine rt rt' → rerun (create_test_files rt) (create_test_files rt').
Proof.
  intros Hs w.
  destruct (create_test_files_generated rt' (exec (create_test_files rt) w))
    as [Ho2 Hf2].
  destruct (create_test_files_generated rt w) as [Ho Hf].
  destruct (create_test_files_generated rt' w) as [Ho' Hf'].
  destruct (generated_rerun rt rt' (fs w) Hs) as [H1 H2].
  rewrite Ho', Ho2, Hf2, Hf', Ho, Hf, H2. done.
Qed.

Lemma create_test_files_idempotent (rt : runtime) :
  idempotent (create_test_files rt).
Proof.
  apply idempotent_intro. intros w.
  destruct (create_test_files_generated rt (exec (create_test_files rt) w))
    as [Ho Hf].
  destruct (create_test_files_generated rt w) as [Ho' Hf'].
  rewrite Ho, Hf, Ho', Hf'. by rewrite generated_again.
Qed.

(** ** What a builder writes *)

(** Actions without an abort fail only where a file cannot be written. *)
Lemma perform_Raises_slot (folder : path) (l : list action)
    (m m' : filesystem) (e : exn) :
  aborts l = [] →
  perform folder l m = (Raises e, m') →
  ∃ n, n ∈ (stores l).*1 ∧ writable_slot m (folder </> n) = false.
Proof.
  revert m. induction l as [|[n c|e0] l IH]; intros m Ha; simpl;
    [done| |done].
  destruct (writable_slot m (folder </> n)) eqn:Hw.
  - rewrite (proj1 (store_writable _ c _) Hw). intros Hp.
    destruct (IH _ Ha Hp) as (n' & Hin & Hn').
    exists n'. split; [apply elem_of_cons; by right|].
    destruct (decide (n' = n)) as [->|Hne].
    { unfold writable_slot in Hn'. by rewrite lookup_insert_eq in Hn'. }
    unfold writable_slot in *. rewrite parent_child in *.
    rewrite !lookup_insert_ne in Hn'; [done| |].
    + apply child_neq.
    + by intros ?%child_inj.
  - intros _. exists n. split; [apply elem_of_cons; by left|done].
Qed.

Lemma run_plan_writes (folder : path) (s : plan) :
  aborts (actions s) = [] →
  NoDup (stores (actions s)).*1 →
  writes (run_plan folder s) folder (stores (actions s)).
Proof.
  intros Ha Hnd w. destruct (run_plan_perform folder s w) as [Ho Hf].
  rewrite Ho, Hf.
  destruct (perform folder (actions s) (fs w)) as [[[]|e] m'] eqn:Hp;
    cbn [fst snd].
  - apply perform_Returns in Hp as [_ ->]. intros n c Hin.
    by apply stored_lookup.
  - by eapply perform_Raises_slot.
Qed.

Lemma writes_ext (b b' : Py unit) (folder : path)
    (files : list (string * content)) :
  (∀ w, b w = b' w) → writes b' folder files → writes b folder files.
Proof. intros H Hb w. unfold outcome, exec. rewrite H. apply Hb. Qed.

(** ** What another time changes *)

(** The content stored under one name changes the outcome in nothing,
    and the files under this name only. *)
Lemma perform_restamp (folder : path) (l1 l2 : list action) (n : string)
    (c c' : content) (m : filesystem) (p : path) :
  n ∉ (stores l2).*1 →
  p ≠ folder </> n →
  (perform folder (l1 ++ Store n c' :: l2) m).2 !! p
  = (perform folder (l1 ++ Store n c :: l2) m).2 !! p.
Proof.
  intros Hn Hp. rewrite !perform_app.
  destruct (perform folder l1 m) as [[[]|e] m1]; [|done].
  cbn [perform].
  assert (Hl : ∀ n0, n0 ∈ (stores l2).*1 → folder </> n ≠ folder </> n0).
  { intros n0 Hn0 Heq. apply child_inj in Heq as ->. done. }
  destruct (Fs.store (folder </> n) c m1) as [m2|e] eqn:E.
  - pose proof (store_Returns _ _ _ _ E) as ->.
    assert (Hw : writable_slot m1 (folder </> n) = true)
      by (by eapply store_writable).
    rewrite (proj1 (store_writable _ c' _) Hw).
    rewrite !perform_insert by (done || apply child_neq). cbn [snd].
    by rewrite !lookup_insert_ne.
  - by rewrite (store_Raises _ _ c' _ _ E).
Qed.

Lemma all_actions_archive (rt : runtime) :
  all_actions rt
  = (actions text_plan ++ actions (image_plan rt) ++ actions document_plan)
    ++ Store "test_archive.zip" (ZipArchive (archive_members rt))
    :: Store "backup.rar" (Bytes rar_placeholder)
    :: actions code_plan ++ actions other_plan.
Proof.
  unfold all_actions, all_plans. cbn [fmap list_fmap concat].
  rewrite <- !app_assoc. reflexivity.
Qed.

Lemma generated_restamp (rt rt' : runtime) (m : filesystem) (p : path) :
  same_machine rt rt' →
  Pth.name p ≠ "test_archive.zip" →
  (generated rt' m).2 !! p = (generated rt m).2 !! p.
Proof.
  intros Hs Hp. unfold generated.
  assert (Hd' : desktop_of rt' m = desktop_of rt m).
  { destruct Hs as (_ & _ & _ & Hh). unfold desktop_of. by rewrite Hh. }
  rewrite Hd'. destruct (desktop_of rt m) as [desktop|e]; [|done].
  destruct (Fs.make_dir (desktop </> "test_files") true m) as [m1|e];
    [|done].
  rewrite !all_actions_archive, (image_plan_same _ _ Hs).
  apply perform_restamp.
  - apply (bool_decide_unpack _). by vm_compute.
  - intros ->. by rewrite name_child in Hp.
Qed.

(** C8, as amended: each of the six builders, in any folder and any world,
    and the whole of [create_test_files], overwrites and does not
    accumulate.  Run again while the clock reads the same, or twice in a
    row, it leaves every file as one run leaves it and ends the way the
    first run ended.  Run again at another time, it ends the same way and
    leaves what it leaves when it runs alone at that time: when it
    returns, each of its files holds its fixed content, whatever the
    earlier run or anyone else had put there, and it raises only where a
    file cannot be written; the whole generation returns where the
    folder is ready and the font does not stop the image builder, and
    then each of the fourteen files holds its content.  What the other
    time changes is the archive only, whose three members, once each,
    carry the times of the run that wrote them; every other path holds
    what the first run left. *)
Theorem builders_idempotent (rt rt' : runtime) (folder : path) :
  same_machine rt rt' →
  (idempotent (create_text_files folder)
   ∧ idempotent (create_image_files rt folder)
   ∧ idempotent (create_document_files folder)
   ∧ idempotent (create_archive_files rt folder)
   ∧ idempotent (create_code_files folder)
   ∧ idempotent (create_other_files folder)
   ∧ idempotent (create_test_files rt))
  ∧ (rerun (create_image_files rt folder) (create_image_files rt' folder)
     ∧ rerun (create_archive_files rt folder)
         (create_archive_files rt' folder)
     ∧ rerun (create_test_files rt) (create_test_files rt'))
  ∧ (writes (create_text_files folder) folder
       [("readme.txt", Text readme_txt); ("notes.txt", Text notes_txt)]
     ∧ (font_loads rt = true →
        writes (create_image_files rt folder) folder
          (stores (actions (image_plan rt))))
     ∧ writes (create_document_files folder) folder
         [("test_document.pdf", Text pdf_content);
          ("report.rtf", Text rtf_content)]
     ∧ writes (create_archive_files rt folder) folder
         [("test_archive.zip", ZipArchive (archive_members rt));
          ("backup.rar", Bytes rar_placeholder)]
     ∧ writes (create_code_files folder) folder
         [("sample_script.py", Text python_code); ("app.js", Text js_code);
          ("index.html", Text html_code)]
     ∧ writes (create_other_files folder) folder
         [("config.json", Text (Json.dumps json_data 2));
          ("data.xml", Text xml_content);
          ("organizer.log", Text log_content)]
     ∧ (∀ w desktop,
          desktop_of rt (fs w) = Returns desktop →
          (folder_ready (fs w) (desktop </> "test_files") fixture_names
           = true →
           font_loads rt = true →
           outcome (create_test_files rt) w = Returns tt)
          ∧ (outcome (create_test_files rt) w = Returns tt →
             ∀ n c, (n, c) ∈ stores (all_actions rt) →
               fs (exec (create_test_files rt) w)
                 !! (desktop </> "test_files" </> n)
               = Some (File true c))))
  ∧ (∀ w p, Pth.name p ≠ "test_archive.zip" →
       fs (exec (create_archive_files rt' folder)
             (exec (create_archive_files rt folder) w)) !! p
       = fs (exec (create_archive_files rt folder) w) !! p)
  ∧ (∀ w p, Pth.name p ≠ "test_archive.zip" →
       fs (exec (create_test_files rt')
             (exec (create_test_files rt) w)) !! p
       = fs (exec (create_test_files rt) w) !! p)
  ∧ (∀ w, outcome (create_archive_files rt folder) w = Returns tt →
       fs (exec (create_archive_files rt folder ;;
                 create_archive_files rt' folder) w)
         !! (folder </> "test_archive.zip")
       = Some (File true
                 (ZipArchive
                    [Member zip_readme.1 (time_localtime rt' 0) zip_readme.2;
                     Member zip_data.1 (time_localtime rt' 1) zip_data.2;
                     Member zip_nested.1 (time_localtime rt' 2)
                       zip_nested.2]))).
Proof.
  intros Hs.
  assert (Hplan : ∀ s, NoDup (stores (actions s)).*1 →
                       ∀ b, (∀ w, b w = run_plan folder s w) → idempotent b).
  { intros s Hnd b Hb. eapply idempotent_ext; [exact Hb|].
    by apply run_plan_idempotent. }
  assert (Hwr : ∀ s, aborts (actions s) = [] →
                     NoDup (stores (actions s)).*1 →
                     ∀ b, (∀ w, b w = run_plan folder s w) →
                          writes b folder (stores (actions s))).
  { intros s Ha Hnd b Hb. eapply writes_ext; [exact Hb|].
    by apply run_plan_writes. }
  assert (Hnd : ∀ r, NoDup (stores (actions (archive_plan r))).*1).
  { intros r. by apply (bool_decide_unpack _). }
  assert (Hra : rerun (create_archive_files rt folder)
                  (create_archive_files rt' folder)).
  { eapply rerun_ext; [apply create_archive_files_plan..|].
    apply run_plan_rerun; [|apply Hnd]. by repeat constructor. }
  assert (Hwa : ∀ r, writes (create_archive_files r folder) folder
                       (stores (actions (archive_plan r)))).
  { intros r. apply Hwr; [done|apply Hnd|].
    apply create_archive_files_plan. }
  split.
  { split.
    { apply (Hplan text_plan); [by apply (bool_decide_unpack _)|].
      apply create_text_files_plan. }
    split.
    { apply (Hplan (image_plan rt)); [apply image_plan_NoDup|].
      apply create_image_files_plan. }
    split.
    { apply (Hplan document_plan); [by apply (bool_decide_unpack _)|].
      apply create_document_files_plan. }
    split.
    { apply (Hplan (archive_plan rt)); [apply Hnd|].
      apply create_archive_files_plan. }
    split.
    { apply (Hplan code_plan); [by apply (bool_decide_unpack _)|].
      apply create_code_files_plan. }
    split.
    { apply (Hplan other_plan); [by apply (bool_decide_unpack _)|].
      apply create_other_files_plan. }
    apply create_test_files_idempotent. }
  split.
  { split; [|split; [exact Hra|by apply create_test_files_rerun]].
    eapply rerun_ext; [apply create_image_files_plan..|].
    rewrite (image_plan_same _ _ Hs).
    apply run_plan_rerun; [apply alike_refl|apply image_plan_NoDup]. }
  split.
  { split.
    { apply (Hwr text_plan); [done|by apply (bool_decide_unpack _)|].
      apply create_text_files_plan. }
    split.
    { intros Hf. apply Hwr; [|apply image_plan_NoDup|].
      - unfold font_loads, image_plan in *.
        destruct (PILLOW_AVAILABLE rt); [|done].
        by destruct (drawing_font rt).
      - apply create_image_files_plan. }
    split.
    { apply (Hwr document_plan); [done|by apply (bool_decide_unpack _)|].
      apply create_document_files_plan. }
    split; [apply Hwa|].
    split.
    { apply (Hwr code_plan); [done|by apply (bool_decide_unpack _)|].
      apply create_code_files_plan. }
    split.
    { apply (Hwr other_plan); [done|by apply (bool_decide_unpack _)|].
      apply create_other_files_plan. }
    intros w desktop Hd. split.
    - intros Hr Hf.
      destruct (create_test_files_ready rt w desktop Hd Hr Hf)
        as (m1 & _ & _ & Hrun).
      unfold outcome. by rewrite Hrun.
    - intros Hret n c Hin.
      destruct (create_test_files_generated rt w) as [Ho ->].
      rewrite Ho in Hret. unfold generated in *. rewrite Hd in *.
      destruct (Fs.make_dir (desktop </> "test_files") true (fs w))
        as [m1|e1]; [|done].
      destruct (perform (desktop </> "test_files") (all_actions rt) m1)
        as [[[]|e] mf] eqn:Hp; [|done].
      apply perform_Returns in Hp as [_ ->]. cbn [snd].
      by apply stored_lookup; [apply all_actions_NoDup|]. }
  split.
  { intros w p Hp. destruct (Hra w) as (_ & _ & ->).
    unfold exec. rewrite !create_archive_files_plan.
    destruct (run_plan_perform folder (archive_plan rt) w) as [_ Hf].
    destruct (run_plan_perform folder (archive_plan rt') w) as [_ Hf'].
    unfold exec in Hf, Hf'. rewrite Hf, Hf'.
    apply (perform_restamp folder [] _ "test_archive.zip").
    - apply (bool_decide_unpack _). by vm_compute.
    - intros ->. by rewrite name_child in Hp. }
  split.
  { intros w p Hp.
    destruct (create_test_files_rerun rt rt' Hs w) as (_ & _ & ->).
    destruct (create_test_files_generated rt w) as [_ ->].
    destruct (create_test_files_generated rt' w) as [_ ->].
    by apply generated_restamp. }
  intros w Hret. destruct (Hra w) as (Ho & _ & Hfs).
  assert (Hex : exec (create_archive_files rt folder ;;
                      create_archive_files rt' folder) w
                = exec (create_archive_files rt' folder)
                    (exec (create_archive_files rt folder) w)).
  { unfold outcome, exec in *. rewrite bind_run.
    by destruct (create_archive_files rt folder w) as [[u|e] w1]. }
  rewrite Hex, Hfs. specialize (Hwa rt' w). rewrite Ho, Hret in Hwa.
  apply Hwa. apply elem_of_cons. by left.
Qed.

(** C8 at a fresh fixture folder, the second run a minute after the first:
    the archive written twice in a row holds three members, with the
    times of the second run. *)
Lemma builders_idempotent_witness :
  fs (exec (create_archive_files Sample.pillow Sample.folder ;;
            create_archive_files Sample.pillow_later Sample.folder)
        (Sample.start (<[Sample.folder := Dir true]> Sample.base_fs)))
    !! (Sample.folder </> "test_archive.zip")
  = Some (File true
            (ZipArchive
               [Member zip_readme.1 (2025, 1, 1, 10, 1, 0) zip_readme.2;
                Member zip_data.1 (2025, 1, 1, 10, 1, 0) zip_data.2;
                Member zip_nested.1 (2025, 1, 1, 10, 1, 0) zip_nested.2])).
Proof.
  assert (Hs : same_machine Sample.pillow Sample.pillow_later)
    by (by repeat split).
  destruct (builders_idempotent Sample.pillow Sample.pillow_later
              Sample.folder Hs)
    as (_ & _ & _ & _ & _ & H).
  apply H. reflexivity.
Defined.

(** C8 as the specification states it fails where the second run is at
    another time: in a fresh fixture folder, the archive builder run a
    minute after its first run leaves in [test_archive.zip] members with
    other times than the first run left, so the file has not the content
    it had after one run; and so for the whole of [create_test_files]
    from a home directory with an empty desktop. *)
Lemma identical_content_refuted :
  same_machine Sample.pillow Sample.pillow_later
  ∧ outcome (create_archive_files Sample.pillow Sample.folder)
      (Sample.start (<[Sample.folder := Dir true]> Sample.base_fs))
    = Returns tt
  ∧ fs (exec (create_archive_files Sample.pillow_later Sample.folder)
          (exec (create_archive_files Sample.pillow Sample.folder)
             (Sample.start (<[Sample.folder := Dir true]> Sample.base_fs))))
      !! (Sample.folder </> "test_archive.zip")
    ≠ fs (exec (create_archive_files Sample.pillow Sample.folder)
            (Sample.start (<[Sample.folder := Dir true]> Sample.base_fs)))
        !! (Sample.folder </> "test_archive.zip")
  ∧ fs (exec (create_test_files Sample.pillow_later)
          (exec (create_test_files Sample.pillow)
             (Sample.start Sample.base_fs)))
      !! (Sample.folder </> "test_archive.zip")
    ≠ fs (exec (create_test_files Sample.pillow)
            (Sample.start Sample.base_fs))
        !! (Sample.folder </> "test_archive.zip").
Proof.
  split; [by repeat split|]. split; [by vm_compute|].
  split; intros H; vm_compute in H; discriminate H.
Qed.

(** ** The final listing *)

(** The order of paths is total. *)
Lemma path_le_total : Total Pth.le.
Proof.
  intros p. unfold Pth.le. induction p as [|a p IH]; intros [|b q]; simpl;
    auto.
  rewrite (String.compare_antisym b a).
  destruct (String.compare a b); simpl; auto.
Qed.

(** What [list_created] prints: a header with the number of all entries
    of the folder, then the names of those that are regular files, taken
    from the sorted entries. *)
Lemma list_created_prints (folder : path) (w : world) :
  list_created folder w
  = (Returns tt,
     World (fs w)
       (out w ++ listing_header (length (Fs.entries (fs w) folder))
                 :: (bullet <$> List.filter (Fs.is_regular (fs w))
                                  (sorted (Fs.entries (fs w) folder)))))
  ∧ Sorted Pth.le (sorted (Fs.entries (fs w) folder))
  ∧ sorted (Fs.entries (fs w) folder) ≡ₚ Fs.entries (fs w) folder.
Proof.
  split; [apply list_created_run|]. split.
  - apply Sorted_merge_sort, path_le_total.
  - apply merge_sort_Permutation.
Qed.

(** The count of the header exceeds the number of names listed by the
    number of entries that are not regular files. *)
Lemma listing_count_excess (m : filesystem) (folder : path) :
  length (Fs.entries m folder)
  = length (listed m folder)
    + length (List.filter (λ p, negb (Fs.is_regular m p))
                (sorted (Fs.entries m folder))).
Proof.
  unfold listed. rewrite List.filter_length.
  unfold sorted. by rewrite merge_sort_Permutation.
Qed.

(** C6 fails where the fixture folder holds a subfolder, as it does once
    the organizer has sorted it: the run returns, the header of the
    listing says 15 files, and 14 names follow, those of the regular
    files.  The count is taken over all entries, before the test that
    keeps the regular files. *)
Theorem listing_count_includes_folders :
  outcome (create_test_files Sample.no_pillow) (Sample.start Sample.sorted_fs)
  = Returns tt
  ∧ drop 9 (out (exec (create_test_files Sample.no_pillow)
                   (Sample.start Sample.sorted_fs)))
    = listing_header 15
      :: ((λ n, "   • " +:+ n) <$>
          ["app.js"; "backup.rar"; "config.json"; "data.xml"; "index.html";
           "notes.txt"; "organizer.log"; "readme.txt"; "report.rtf";
           "sample_image.png"; "sample_script.py"; "test_archive.zip";
           "test_document.pdf"; "test_photo.jpg"])
  ∧ Fs.is_regular
      (fs (exec (create_test_files Sample.no_pillow)
             (Sample.start Sample.sorted_fs)))
      (Sample.folder </> "Images") = false
  ∧ length
      (regular_entries
         (fs (exec (create_test_files Sample.no_pillow)
                (Sample.start Sample.sorted_fs)))
         Sample.folder) = 14.
Proof. repeat split; by vm_compute. Qed.

(** * Further properties of the script *)

(** ** The order of strings and of paths *)

Lemma ascii_compare_refl (a : ascii) : Ascii.compare a a = Eq.
Proof. unfold Ascii.compare. apply N.compare_refl. Qed.

Lemma ascii_compare_Lt_trans (a b c : ascii) :
  Ascii.compare a b = Lt → Ascii.compare b c = Lt → Ascii.compare a c = Lt.
Proof. unfold Ascii.compare. rewrite !N.compare_lt_iff. lia. Qed.

Lemma string_compare_refl (s : string) : String.compare s s = Eq.
Proof.
  induction s as [|a s IH]; simpl; [done|]. by rewrite ascii_compare_refl.
Qed.

Lemma string_compare_Lt_trans (s1 s2 s3 : string) :
  String.compare s1 s2 = Lt → String.compare s2 s3 = Lt →
  String.compare s1 s3 = Lt.
Proof.
  revert s2 s3. induction s1 as [|a s1 IH]; intros [|b s2] [|c s3]; simpl;
    try done.
  destruct (Ascii.compare a b) eqn:Hab; [|intros _|done].
  - apply Ascii.compare_eq_iff in Hab as ->.
    destruct (Ascii.compare b c); [apply IH|done|done].
  - destruct (Ascii.compare b c) eqn:Hbc; [|intros _|done].
    + apply Ascii.compare_eq_iff in Hbc as <-. by rewrite Hab.
    + by rewrite (ascii_compare_Lt_trans a b c).
Qed.

Lemma path_le_trans : Transitive Pth.le.
Proof.
  unfold Pth.le. intros p.
  induction p as [|a p IH]; intros [|b q] [|c r]; simpl; try done.
  destruct (String.compare a b) eqn:Hab; [|intros _|done].
  - apply String.compare_eq_iff in Hab as ->.
    destruct (String.compare b c); [apply IH|done|done].
  - destruct (String.compare b c) eqn:Hbc; [|intros _|done].
    + apply String.compare_eq_iff in Hbc as <-. by rewrite Hab.
    + by rewrite (string_compare_Lt_trans a b c).
Qed.

Lemma path_le_antisym : AntiSymm eq Pth.le.
Proof.
  unfold Pth.le. intros p.
  induction p as [|a p IH]; intros [|b q]; simpl; try done.
  rewrite (String.compare_antisym b a).
  destruct (String.compare a b) eqn:Hab; simpl; try done.
  apply String.compare_eq_iff in Hab as ->.
  intros H1 H2. f_equal. by apply IH.
Qed.

(** Two paths of one folder compare as their names do. *)
Lemma path_leb_child (folder : path) (a b : string) :
  Pth.leb (folder </> a) (folder </> b) = Pth.leb [a] [b].
Proof.
  unfold Pth.child. induction folder as [|x folder IH]; [done|].
  simpl. by rewrite string_compare_refl.
Qed.

Lemma sorted_unique (l1 l2 : list path) : l1 ≡ₚ l2 → sorted l1 = sorted l2.
Proof.
  intros H. unfold sorted.
  apply (@Sorted_unique _ Pth.le path_le_trans path_le_antisym).
  - apply Sorted_merge_sort, path_le_total.
  - apply Sorted_merge_sort, path_le_total.
  - by rewrite !merge_sort_Permutation.
Qed.

Lemma StronglySorted_List_filter {A : Type} (R : relation A) (f : A → bool)
    (l : list A) :
  StronglySorted R l → StronglySorted R (List.filter f l).
Proof.
  induction 1 as [|x l Hl IH Hx]; simpl; [constructor|].
  destruct (f x); [|done]. constructor; [done|].
  apply Forall_forall. intros y Hy.
  apply list_elem_of_In, filter_In in Hy as [Hy _].
  rewrite List.Forall_forall in Hx. by apply Hx.
Qed.

Lemma entries_NoDup (m : filesystem) (d : path) : NoDup (Fs.entries m d).
Proof.
  unfold Fs.entries.
  destruct (m !! d) as [[wr|wr c]|]; [apply children_NoDup|..];
    apply NoDup_nil_2.
Qed.

(** ** The listing *)

(** X10: in any folder and any world, [list_created] prints a header with
    the number of entries of the folder and then the names of all the
    regular files directly inside it: every one of them, each once, in
    ascending order.  The names printed do not depend on the order in
    which the entries of the folder are enumerated. *)
Theorem listing_sorted_complete (folder : path) (w : world) :
  ∃ names : list path,
    list_created folder w
    = (Returns tt,
       World (fs w)
         (out w ++ listing_header (length (Fs.entries (fs w) folder))
                   :: (bullet <$> names)))
    ∧ names ≡ₚ regular_entries (fs w) folder
    ∧ StronglySorted Pth.le names
    ∧ NoDup names
    ∧ (∀ files, files ≡ₚ Fs.entries (fs w) folder →
         List.filter (Fs.is_regular (fs w)) (sorted files) = names).
Proof.
  exists (listed (fs w) folder).
  assert (Hnd : NoDup (listed (fs w) folder)).
  { unfold listed. apply NoDup_ListNoDup, List.NoDup_filter, NoDup_ListNoDup.
    unfold sorted. rewrite merge_sort_Permutation. apply entries_NoDup. }
  split; [apply list_created_run|]. split; [|split; [|split; [done|]]].
  - apply NoDup_Permutation; [done| |].
    + apply NoDup_ListNoDup, List.NoDup_filter, NoDup_ListNoDup,
        entries_NoDup.
    + intros p. unfold listed, regular_entries, sorted.
      rewrite !list_elem_of_In, !filter_In, <- !list_elem_of_In.
      by rewrite merge_sort_Permutation.
  - apply StronglySorted_List_filter.
    apply (@StronglySorted_merge_sort _ Pth.le _ path_le_trans path_le_total).
  - intros files Hfiles. unfold listed. by rewrite (sorted_unique _ _ Hfiles).
Qed.

(** ** Runs that fail part of the way *)

Lemma store_Returns_not_Dir (p : path) (c : content) (m m' : filesystem)
    (wr : bool) :
  Fs.store p c m = Returns m' → m !! p ≠ Some (Dir wr).
Proof. unfold Fs.store. intros H Hd. by rewrite Hd in H. Qed.

(** A plan stores a prefix of its files: all of them when it returns, and
    when a store fails, those before it. *)
Lemma perform_prefix (folder : path) (l : list action) (m : filesystem) :
  ∃ k, k ≤ length (stores l)
       ∧ (perform folder l m).2 = stored folder (take k (stores l)) m
       ∧ (∀ u, (perform folder l m).1 = Returns u → k = length (stores l))
       ∧ (∀ e, (perform folder l m).1 = Raises e → aborts l = [] →
            k < length (stores l)).
Proof.
  revert m. induction l as [|[n c|e0] l IH]; intros m; simpl.
  - exists 0. by repeat split.
  - destruct (Fs.store (folder </> n) c m) as [m1|e1] eqn:E.
    + destruct (IH m1) as (k & Hk & Hfs & Hret & Hraise).
      exists (S k). split; [lia|]. split.
      { rewrite Hfs. by apply store_Returns in E as ->. }
      split.
      * intros u Hu. by rewrite (Hret u Hu).
      * intros e He Ha. specialize (Hraise e He Ha). lia.
    + exists 0. split; [lia|]. split; [done|]. split; [done|].
      intros e _ _. lia.
  - exists 0. split; [lia|]. by repeat split.
Qed.

(** An abort hides what follows it. *)
Lemma perform_abort (folder : path) (l1 l2 : list action) (e : exn)
    (m : filesystem) :
  (perform folder (l1 ++ Abort e :: l2) m).2 = (perform folder l1 m).2.
Proof.
  rewrite perform_app.
  by destruct (perform folder l1 m) as [[[]|e1] m1].
Qed.

Lemma stores_app (l1 l2 : list action) :
  stores (l1 ++ l2) = stores l1 ++ stores l2.
Proof.
  induction l1 as [|[n c|e] l1 IH]; simpl; [done| |done]. by rewrite IH.
Qed.

(** The files of the six plans: those that do not depend on Pillow, and
    the two images after the two texts. *)
Lemma stores_all_actions (rt : runtime) :
  stores (all_actions rt)
  = take 2 (plain_fixtures rt) ++ stores (actions (image_plan rt))
    ++ drop 2 (plain_fixtures rt).
Proof.
  unfold all_actions, all_plans. cbn [fmap list_fmap concat].
  rewrite !stores_app. reflexivity.
Qed.

Lemma image_plan_cases (rt : runtime) :
  (aborts (actions (image_plan rt)) = []
   ∧ (stores (actions (image_plan rt))).*1
     = ["sample_image.png"; "test_photo.jpg"])
  ∨ (∃ e, actions (image_plan rt) = [Abort e]).
Proof.
  unfold image_plan.
  destruct (PILLOW_AVAILABLE rt); [destruct (drawing_font rt) as [fnt|e]|];
    eauto.
Qed.

(** X1: once the fixture folder is there, [create_test_files] writes the
    files in the fixed order and stops at the first that cannot be
    written: in every run the first [k] files of the order hold their new
    contents and nothing else has changed, with [k] = 14 when the run
    returns and [k] < 14 when it raises.  What was written before a
    failure stays: nothing is rolled back. *)
Theorem files_written_in_order (rt : runtime) (w : world) (desktop : path)
    (m1 : filesystem) :
  desktop_of rt (fs w) = Returns desktop →
  Fs.make_dir (desktop </> "test_files") true (fs w) = Returns m1 →
  ∃ k, k ≤ 14
       ∧ fs (exec (create_test_files rt) w)
         = stored (desktop </> "test_files")
             (take k (stores (all_actions rt))) m1
       ∧ (take k (stores (all_actions rt))).*1 = take k fixture_names
       ∧ (outcome (create_test_files rt) w = Returns tt → k = 14)
       ∧ (∀ e, outcome (create_test_files rt) w = Raises e → k < 14).
Proof.
  intros Hd Hm. set (folder := desktop </> "test_files") in *.
  destruct (create_test_files_generated rt w) as [Ho Hf].
  unfold generated in Ho, Hf. rewrite Hd in Ho, Hf. fold folder in Ho, Hf.
  rewrite Hm in Ho, Hf. rewrite Ho, Hf. clear Ho Hf.
  destruct (image_plan_cases rt) as [[Hab Hnames]|[e0 Hab]].
  - assert (Hall : (stores (all_actions rt)).*1 = fixture_names).
    { rewrite stores_all_actions, !fmap_app, Hnames. reflexivity. }
    assert (Ha : aborts (all_actions rt) = []).
    { unfold all_actions, all_plans. cbn [fmap list_fmap concat].
      unfold aborts in *. rewrite !omap_app, Hab. reflexivity. }
    assert (Hlen : length (stores (all_actions rt)) = 14).
    { by rewrite <- (length_fmap fst), Hall. }
    destruct (perform_prefix folder (all_actions rt) m1)
      as (k & Hk & Hfs & Hret & Hraise).
    exists k. rewrite Hlen in *. split; [done|]. split; [done|].
    split; [by rewrite fmap_take, Hall|]. split.
    + intros Hu. by apply (Hret tt).
    + intros e He. by apply (Hraise e).
  - assert (Hsplit : all_actions rt
                     = actions text_plan ++ Abort e0
                       :: concat (actions <$>
                            [document_plan; archive_plan rt; code_plan;
                             other_plan])).
    { unfold all_actions, all_plans. cbn [fmap list_fmap concat].
      by rewrite Hab. }
    destruct (perform_prefix folder (actions text_plan) m1)
      as (k & Hk & Hfs & _ & _).
    cbn [actions text_plan stores length] in Hk.
    exists k. split; [lia|]. rewrite Hsplit, perform_abort, Hfs.
    rewrite stores_app. cbn [actions text_plan stores].
    assert (Hk' : k = 0 ∨ k = 1 ∨ k = 2) by lia.
    split; [by destruct Hk' as [->|[->| ->]]|].
    split; [by destruct Hk' as [->|[->| ->]]|].
    split; [|intros; lia].
    rewrite perform_app.
    by destruct (perform folder _ m1) as [[[]|e1] m2].
Qed.

(** X1 at a fixture folder where [sample_image.png] is taken by a
    directory: the two text files are written, and nothing after them. *)
Lemma files_written_in_order_witness :
  ∃ k, k ≤ 14
       ∧ fs (exec (create_test_files Sample.no_pillow)
               (Sample.start Sample.blocked_fs))
         = stored Sample.folder
             (take k (stores (all_actions Sample.no_pillow)))
             Sample.blocked_fs
       ∧ (take k (stores (all_actions Sample.no_pillow))).*1
         = take k fixture_names.
Proof.
  destruct (files_written_in_order Sample.no_pillow
              (Sample.start Sample.blocked_fs) (Sample.home </> "Desktop")
              Sample.blocked_fs eq_refl eq_refl)
    as (k & H1 & H2 & H3 & _).
  exists k. auto.
Defined.

(** ** What a run leaves alone *)

Lemma perform_keeps (folder : path) (l : list action) (m : filesystem)
    (p : path) :
  (is_Some (m !! p) → is_Some ((perform folder l m).2 !! p))
  ∧ (∀ wr, m !! p = Some (Dir wr) →
       (perform folder l m).2 !! p = Some (Dir wr)).
Proof.
  revert m. induction l as [|[n c|e] l IH]; intros m; simpl; [done| |done].
  destruct (Fs.store (folder </> n) c m) as [m1|e1] eqn:E; [|done].
  destruct (IH m1) as [IH1 IH2].
  pose proof (store_Returns _ _ _ _ E) as Hm1.
  split.
  - intros Hp. apply IH1. subst m1.
    destruct (decide (folder </> n = p)) as [<-|Hne].
    + rewrite lookup_insert_eq. eauto.
    + by rewrite lookup_insert_ne.
  - intros wr Hp. apply IH2. subst m1.
    rewrite lookup_insert_ne; [done|].
    intros <-. by eapply store_Returns_not_Dir.
Qed.

Lemma make_dir_keeps (p q : path) (b : bool) (m m1 : filesystem) :
  Fs.make_dir p b m = Returns m1 →
  (is_Some (m !! q) → is_Some (m1 !! q))
  ∧ (∀ wr, m !! q = Some (Dir wr) → m1 !! q = Some (Dir wr))
  ∧ (q ≠ p → m1 !! q = m !! q).
Proof.
  unfold Fs.make_dir.
  destruct (m !! p) as [[wr|wr c]|] eqn:E; [destruct b| |]; try done.
  { by intros [= <-]. }
  destruct (m !! Pth.parent p) as [[[|]|wr c]|]; try done.
  intros [= <-].
  destruct (decide (p = q)) as [->|Hne].
  - rewrite E. split; [by intros [? ?]|]. split; [done|]. done.
  - rewrite lookup_insert_ne by done. done.
Qed.

Lemma all_actions_within (rt : runtime) :
  Forall (λ n, n ∈ fixture_names) (stores (all_actions rt)).*1.
Proof.
  unfold all_actions, all_plans, image_plan.
  destruct (PILLOW_AVAILABLE rt); [destruct (drawing_font rt) as [fnt|e]|];
    by apply (bool_decide_unpack _).
Qed.

(** X2: whatever happens in a run of [create_test_files], nothing is
    removed and nothing outside the fixture folder is touched: a path that
    was there is still there, a directory is still the same directory,
    and every path other than the fixture folder of the desktop found and
    the fourteen names in it has the node it had. *)
Theorem run_leaves_the_rest (rt : runtime) (w : world) :
  let w' := exec (create_test_files rt) w in
  (∀ p, is_Some (fs w !! p) → is_Some (fs w' !! p))
  ∧ (∀ p wr, fs w !! p = Some (Dir wr) → fs w' !! p = Some (Dir wr))
  ∧ (∀ p,
       (∀ desktop, desktop_of rt (fs w) = Returns desktop →
          p ≠ desktop </> "test_files"
          ∧ ∀ n, n ∈ fixture_names → p ≠ desktop </> "test_files" </> n) →
       fs w' !! p = fs w !! p).
Proof.
  intros w'. unfold w'.
  destruct (create_test_files_generated rt w) as [_ ->].
  unfold generated.
  destruct (desktop_of rt (fs w)) as [desktop|e]; [|done].
  destruct (Fs.make_dir (desktop </> "test_files") true (fs w))
    as [m1|e] eqn:Hm; [|done].
  split; [|split].
  - intros p Hp. apply perform_keeps.
    by apply (make_dir_keeps _ p _ _ _ Hm).
  - intros p wr Hp. apply perform_keeps.
    by apply (make_dir_keeps _ p _ _ _ Hm).
  - intros p Hp. destruct (Hp desktop eq_refl) as [Hne Hnames].
    rewrite perform_frame.
    + by apply (make_dir_keeps _ p _ _ _ Hm).
    + intros n Hn. apply Hnames.
      pose proof (all_actions_within rt) as Hall.
      rewrite Forall_forall in Hall. by apply Hall.
Qed.

(** X3: when [create_test_files] returns, each of the twelve files that do
    not depend on Pillow is writable and holds exactly its fixed content,
    whatever was under its name before; the archive holds its three
    members with the times of the run. *)
Theorem plain_files_hold_their_contents (rt : runtime) (w : world) :
  outcome (create_test_files rt) w = Returns tt →
  ∃ desktop,
    desktop_of rt (fs w) = Returns desktop
    ∧ ∀ n c, (n, c) ∈ plain_fixtures rt →
        fs (exec (create_test_files rt) w) !! (desktop </> "test_files" </> n)
        = Some (File true c).
Proof.
  destruct (create_test_files_generated rt w) as [-> ->].
  unfold generated.
  destruct (desktop_of rt (fs w)) as [desktop|e]; [|done].
  destruct (Fs.make_dir (desktop </> "test_files") true (fs w))
    as [m1|e]; [|done].
  intros Hret. exists desktop. split; [done|]. intros n c Hin.
  destruct (perform (desktop </> "test_files") (all_actions rt) m1)
    as [[[]|e] mf] eqn:Hp; [|done].
  apply perform_Returns in Hp as [_ ->]. cbn [snd].
  apply stored_lookup; [apply all_actions_NoDup|].
  rewrite stores_all_actions, !elem_of_app.
  rewrite <- (take_drop 2 (plain_fixtures rt)), elem_of_app in Hin.
  tauto.
Qed.

(** X3 at a home directory with an empty desktop. *)
Lemma plain_files_hold_their_contents_witness :
  ∃ desktop,
    desktop_of Sample.pillow Sample.base_fs = Returns desktop
    ∧ fs (exec (create_test_files Sample.pillow)
            (Sample.start Sample.base_fs))
        !! (desktop </> "test_files" </> "notes.txt")
      = Some (File true (Text notes_txt)).
Proof.
  destruct (plain_files_hold_their_contents Sample.pillow
              (Sample.start Sample.base_fs) eq_refl) as (d & Hd & H).
  exists d. split; [exact Hd|]. apply H.
  apply elem_of_cons. right. apply elem_of_cons. by left.
Defined.

(** ** The image builder with Pillow *)

(** X4: with Pillow and a default font that loads, the image builder,
    where both files can be written, stores in [sample_image.png] a PNG
    (the format taken from the extension) of a 400 by 300 light blue
    canvas with three texts, a rectangle and an ellipse drawn in this
    order, and in [test_photo.jpg] a JPEG of a 300 by 200 light green
    canvas with two texts, every text in the loaded font; then it prints
    its marker. *)
Theorem images_drawn (rt : runtime) (f : font) (folder : path) (w : world) :
  PILLOW_AVAILABLE rt = true →
  ImageFont_load_default rt = Returns f →
  writable_slot (fs w) (folder </> "sample_image.png") = true →
  writable_slot (fs w) (folder </> "test_photo.jpg") = true →
  create_image_files rt folder w
  = (Returns tt,
     World
       (<[folder </> "test_photo.jpg"
            := File true
                 (ImageFile JPEG
                    (Image "RGB" (300, 200)%Z "lightgreen"
                       [DrawText (50, 80)%Z "JPEG Test File" "darkgreen"
                          (Some f);
                        DrawText (50, 110)%Z "For File Organizer" "darkgreen"
                          (Some f)]))]>
          (<[folder </> "sample_image.png"
               := File true
                    (ImageFile PNG
                       (Image "RGB" (400, 300)%Z "lightblue"
                          [DrawText (50, 100)%Z "Test Image" "darkblue"
                             (Some f);
                           DrawText (50, 130)%Z "File Organizer Pro"
                             "darkblue" (Some f);
                           DrawText (50, 160)%Z "Sample PNG File" "darkblue"
                             (Some f);
                           DrawRectangle [50; 200; 150; 250]%Z "red" 3;
                           DrawEllipse [200; 200; 300; 250]%Z "green" 3]))]>
             (fs w)))
       (out w ++ [image_marker])).
Proof.
  intros Hp Hl H1 H2. rewrite create_image_files_plan.
  unfold image_plan, drawing_font. rewrite Hp, Hl. destruct w as [m o].
  unfold run_plan. cbn [actions drawn_plan before after fs out] in *.
  by rewrite perform_two.
Qed.

(** X4 in a fresh fixture folder. *)
Lemma images_drawn_witness :
  outcome (create_image_files Sample.pillow Sample.folder)
    (Sample.start (<[Sample.folder := Dir true]> Sample.base_fs))
  = Returns tt.
Proof.
  unfold outcome.
  rewrite (images_drawn Sample.pillow default_font Sample.folder
             (Sample.start (<[Sample.folder := Dir true]> Sample.base_fs)));
    reflexivity.
Defined.

(** X5: only an [IOError] is tolerated when the default font is loaded.
    With Pillow, when loading the font raises an error of another class,
    the image builder raises it at once: it writes no file and prints
    nothing. *)
Theorem font_error_propagates (rt : runtime) (e : exn) (folder : path)
    (w : world) :
  PILLOW_AVAILABLE rt = true →
  ImageFont_load_default rt = Raises e →
  is_IOError e = false →
  create_image_files rt folder w = (Raises e, w).
Proof.
  intros Hp Hl He. rewrite create_image_files_plan.
  unfold image_plan, drawing_font. rewrite Hp, Hl, He.
  destruct w as [m o]. unfold run_plan.
  cbn [actions perform before fs out]. by rewrite app_nil_r.
Qed.

(** X5 where loading the font raises a [ValueError]. *)
Lemma font_error_propagates_witness :
  create_image_files Sample.pillow_value_error Sample.folder
    (Sample.start Sample.base_fs)
  = (Raises (Exn ValueError "unrecognized font data"),
     Sample.start Sample.base_fs).
Proof.
  apply (font_error_propagates Sample.pillow_value_error
           (Exn ValueError "unrecognized font data")); reflexivity.
Defined.

(** ** What [main] lets through and what it leaves *)

Lemma main_propagates (rt : runtime) (w w' : world) (e : exn) :
  create_test_files rt (World (fs w) (out w ++ banner)) = (Raises e, w') →
  is_Exception e = false →
  main rt w = (Raises e, w').
Proof.
  intros Hc He.
  unfold main. rewrite bind_run. unfold print at 1. cbn [fs out].
  rewrite bind_run. unfold print at 1. cbn [fs out].
  unfold try_except. rewrite bind_run.
  rewrite <- app_assoc. change ([?a] ++ [?b]) with [a; b].
  fold banner. by rewrite Hc, He.
Qed.

(** X6: the handler of [main] is for [Exception]s only.  When
    [create_test_files] raises something else, which among the classes
    the script can meet is a [KeyboardInterrupt], [main] raises it too:
    no error line and no hint are printed, and the interpreter ends by
    the signal of the interrupt, with exit status 130 and not 0 or 1. *)
Theorem main_lets_interrupts_through (rt : runtime) (w w' : world)
    (e : exn) :
  create_test_files rt (World (fs w) (out w ++ banner)) = (Raises e, w') →
  is_Exception e = false →
  main rt w = (Raises e, w')
  ∧ exn_cls e = KeyboardInterrupt
  ∧ exit_status (outcome (main rt) w) = 130.
Proof.
  intros Hc He. pose proof (main_propagates rt w w' e Hc He) as Hm.
  split; [done|].
  assert (Hk : exn_cls e = KeyboardInterrupt).
  { unfold is_Exception in He. by destruct (exn_cls e). }
  split; [done|]. unfold outcome. rewrite Hm. cbn [fst exit_status].
  by rewrite Hk.
Qed.

(** X6 where the loading of the font is interrupted: the run stops after
    the text files, and the interrupt leaves [main]. *)
Lemma main_lets_interrupts_through_witness :
  outcome (main Sample.pillow_interrupted) (Sample.start Sample.base_fs)
  = Raises (Exn KeyboardInterrupt EmptyString)
  ∧ exit_status
      (outcome (main Sample.pillow_interrupted) (Sample.start Sample.base_fs))
    = 130.
Proof.
  destruct (create_test_files Sample.pillow_interrupted
              (World (fs (Sample.start Sample.base_fs))
                 (out (Sample.start Sample.base_fs) ++ banner)))
    as [r w'] eqn:Hc.
  assert (Hr : r = Raises (Exn KeyboardInterrupt EmptyString)).
  { change r with (r, w').1. rewrite <- Hc. by vm_compute. }
  subst r.
  destruct (main_lets_interrupts_through Sample.pillow_interrupted
              (Sample.start Sample.base_fs) w'
              (Exn KeyboardInterrupt EmptyString) Hc eq_refl)
    as (H1 & _ & H2).
  split; [|exact H2]. unfold outcome. by rewrite H1.
Defined.

(** X7: [main] does nothing to the files but call [create_test_files]:
    whether the run returns, is reported by the handler or leaves [main],
    the file system is the one [create_test_files] leaves, with what was
    written before a failure still there; the handler cleans nothing up. *)
Theorem main_leaves_the_files (rt : runtime) (w : world) :
  fs (exec (main rt) w) = fs (exec (create_test_files rt) w).
Proof.
  destruct (create_test_files_generated rt w) as [_ ->].
  pose proof (create_test_files_generated rt (World (fs w) (out w ++ banner)))
    as [_ Hf].
  cbn [fs] in Hf. rewrite <- Hf. unfold exec.
  destruct (create_test_files rt (World (fs w) (out w ++ banner)))
    as [[[]|e] w1] eqn:Hc.
  - by rewrite (main_returns _ _ _ Hc).
  - destruct (is_Exception e) eqn:He.
    + by rewrite (main_handles _ _ _ _ Hc He).
    + by rewrite (main_propagates _ _ _ _ Hc He).
Qed.

(** ** When the fixture folder cannot be made *)

(** X8: with the desktop folder found, the run stops before anything is
    written or printed when the fixture folder cannot be made.  A regular
    file under the name [test_files] gives a [FileExistsError]
    ([exist_ok] tolerates a directory only); a desktop entry that is a
    regular file gives a [NotADirectoryError], the run does not turn to
    the other desktop name; a desktop directory that may not be written to
    gives a [PermissionError]. *)
Theorem folder_errors (rt : runtime) (w : world) (desktop : path) :
  desktop_of rt (fs w) = Returns desktop →
  let folder := desktop </> "test_files" in
  (∀ wr c, fs w !! folder = Some (File wr c) →
     create_test_files rt w = (Raises (EEXIST folder), w))
  ∧ (∀ wr c, fs w !! folder = None → fs w !! desktop = Some (File wr c) →
       create_test_files rt w = (Raises (ENOTDIR folder), w))
  ∧ (fs w !! folder = None → fs w !! desktop = Some (Dir false) →
       create_test_files rt w = (Raises (EACCES folder), w)).
Proof.
  intros Hd folder. split; [|split].
  - intros wr c Hf. rewrite create_test_files_run, Hd. cbv zeta.
    fold folder. unfold Fs.make_dir. by rewrite Hf.
  - intros wr c Hf Hdesk. rewrite create_test_files_run, Hd. cbv zeta.
    fold folder. unfold Fs.make_dir, folder.
    rewrite parent_child. fold folder. by rewrite Hf, Hdesk.
  - intros Hf Hdesk. rewrite create_test_files_run, Hd. cbv zeta.
    fold folder. unfold Fs.make_dir, folder.
    rewrite parent_child. fold folder. by rewrite Hf, Hdesk.
Qed.

(** X8 at three home directories: the name of the fixture folder taken by
    a file; [Desktop] a file next to a directory [Pulpit]; a desktop that
    may not be written to. *)
Lemma folder_errors_witness :
  create_test_files Sample.pillow (Sample.start Sample.taken_fs)
  = (Raises (EEXIST Sample.folder), Sample.start Sample.taken_fs)
  ∧ create_test_files Sample.pillow (Sample.start Sample.file_desktop_fs)
    = (Raises (ENOTDIR Sample.folder), Sample.start Sample.file_desktop_fs)
  ∧ create_test_files Sample.pillow (Sample.start Sample.readonly_fs)
    = (Raises (EACCES Sample.folder), Sample.start Sample.readonly_fs).
Proof.
  split; [|split].
  - eapply (folder_errors Sample.pillow (Sample.start Sample.taken_fs)
              (Sample.home </> "Desktop")); reflexivity.
  - eapply (folder_errors Sample.pillow (Sample.start Sample.file_desktop_fs)
              (Sample.home </> "Desktop")); reflexivity.
  - apply (folder_errors Sample.pillow (Sample.start Sample.readonly_fs)
             (Sample.home </> "Desktop")); reflexivity.
Defined.

(** ** The lines of a run that fails *)

Lemma run_plans_Raises_out (folder : path) (l : list plan) (w w' : world)
    (e : exn) :
  run_plans folder l w = (Raises e, w') →
  ∃ l1 s l2,
    l = l1 ++ s :: l2
    ∧ out w'
      = out w ++ concat ((λ s, before s ++ after s) <$> l1) ++ before s.
Proof.
  unfold run_plans. revert w. induction l as [|s l IH]; intros w; [done|].
  cbn [for_each]. rewrite bind_run. unfold run_plan at 1.
  destruct (perform folder (actions s) (fs w)) as [[[]|e1] m1].
  - intros H. apply IH in H as (l1 & s' & l2 & -> & Hout).
    exists (s :: l1), s', l2. split; [done|].
    rewrite Hout. cbn [out fmap list_fmap concat]. by rewrite <- !app_assoc.
  - intros [= <- <-]. exists [], s, l. by split.
Qed.

(** X9: a run of [create_test_files] that raises has printed a beginning
    of the lines of a run that returns, and not all of them.  Where no
    desktop folder is found it has printed nothing.  Where one is found,
    the lines are a beginning of these: the line that names the fixture
    folder of this desktop, then in order the lines of the builders; the
    line of the builder that failed is missing unless it is the warning,
    printed before the placeholders are written.  Nothing is printed
    exactly when the fixture folder could not be made; otherwise the
    first line names the folder. *)
Theorem failing_run_prints_a_beginning (rt : runtime) (w : world) (e : exn) :
  outcome (create_test_files rt) w = Raises e →
  (∀ e0, desktop_of rt (fs w) = Raises e0 →
     out (exec (create_test_files rt) w) = out w)
  ∧ (∀ desktop, desktop_of rt (fs w) = Returns desktop →
       ∃ lines rest,
         out (exec (create_test_files rt) w) = out w ++ lines
         ∧ creating_line (desktop </> "test_files") :: builder_lines rt
           = lines ++ rest
         ∧ rest ≠ []
         ∧ (lines = []
            ↔ ∃ e1, Fs.make_dir (desktop </> "test_files") true (fs w)
                    = Raises e1)).
Proof.
  unfold outcome, exec. rewrite create_test_files_run.
  destruct (desktop_of rt (fs w)) as [desktop0|e0].
  2:{ intros _. split; [done|]. intros desktop [=]. }
  intros Hr. split; [intros e0 [=]|]. intros desktop [= <-].
  revert Hr. cbv zeta.
  destruct (Fs.make_dir (desktop0 </> "test_files") true (fs w)) as [m1|e0].
  2:{ intros _.
      exists [], (creating_line (desktop0 </> "test_files")
                  :: builder_lines rt).
      cbn [snd]. rewrite app_nil_r. repeat split; eauto. }
  set (folder := desktop0 </> "test_files").
  destruct (run_plans folder (all_plans rt) _) as [[[]|e1] w1] eqn:Hrun;
    [done|].
  intros _. cbn [snd].
  apply run_plans_Raises_out in Hrun as (l1 & s & l2 & Hl & Hout).
  cbn [out] in Hout.
  exists ([creating_line folder]
          ++ concat ((λ s, before s ++ after s) <$> l1) ++ before s),
    (after s ++ concat ((λ s, before s ++ after s) <$> l2)).
  split; [by rewrite Hout, <- !app_assoc|]. split.
  { rewrite <- all_plans_lines, Hl, fmap_app, concat_app.
    cbn [fmap list_fmap concat]. by rewrite <- !app_assoc. }
  split.
  - clear Hout. unfold all_plans, image_plan in Hl.
    destruct l1 as [|p1 [|p2 [|p3 [|p4 [|p5 [|p6 l1]]]]]];
      simplify_eq/=; try done;
      try (by destruct l1).
    by destruct (PILLOW_AVAILABLE rt);
      [destruct (drawing_font rt)|].
  - split; [done|]. by intros [e2 [=]].
Qed.

(** X9 where [sample_image.png] is taken by a directory, without Pillow:
    the lines printed are the line of the folder, the marker of the text
    files and the warning. *)
Lemma failing_run_prints_a_beginning_witness :
  ∃ lines rest,
    out (exec (create_test_files Sample.no_pillow)
           (Sample.start Sample.blocked_fs))
    = [] ++ lines
    ∧ creating_line Sample.folder :: builder_lines Sample.no_pillow
      = lines ++ rest
    ∧ rest ≠ []
    ∧ lines ≠ [].
Proof.
  destruct (failing_run_prints_a_beginning Sample.no_pillow
              (Sample.start Sample.blocked_fs)
              (EISDIR (Sample.folder </> "sample_image.png")))
    as [_ H]; [by vm_compute|].
  destruct (H (Sample.home </> "Desktop"))
    as (lines & rest & H1 & H2 & H3 & _); [reflexivity|].
  exists lines, rest. repeat split; [exact H1|exact H2|exact H3|].
  intros Hl. rewrite Hl in H1. vm_compute in H1. discriminate H1.
Defined.

(** ** The listing of a run that returns *)

Lemma fixture_paths_NoDup (folder : path) : NoDup (fixture_paths folder).
Proof.
  unfold fixture_paths.
  pose proof (child_Inj folder).
  apply (NoDup_fmap_2 (Pth.child folder)), fixture_names_NoDup.
Qed.

(** After a run in a folder that is ready, the folder holds the fourteen
    fixtures and the entries of other names that it held. *)
Lemma ready_entries (rt : runtime) (m m1 : filesystem) (folder : path) :
  font_loads rt = true →
  Fs.make_dir folder true m = Returns m1 →
  m1 !! folder = Some (Dir true) →
  aborts (all_actions rt) = [] →
  let mf := stored folder (stores (all_actions rt)) m1 in
  Fs.entries mf folder ≡ₚ fixture_paths folder ++ other_entries m folder
  ∧ ∀ p, p ∈ fixture_paths folder → Fs.is_regular mf p = true.
Proof.
  intros Hf Hm Hdir Ha mf.
  pose proof (all_actions_names rt Hf) as Hnames.
  destruct (make_dir_Returns _ _ _ Hm) as [_ Hother].
  assert (Hframe : ∀ p, p ∉ fixture_paths folder → mf !! p = m1 !! p).
  { intros p Hp. apply stored_lookup_ne. rewrite Hnames.
    intros n Hn ->. apply Hp, list_elem_of_fmap. eauto. }
  assert (Hfolder : mf !! folder = Some (Dir true)).
  { rewrite Hframe; [done|].
    intros (n & Heq & _)%list_elem_of_fmap. by apply (child_neq folder n). }
  assert (Hreg : ∀ p, p ∈ fixture_paths folder → Fs.is_regular mf p = true).
  { intros p (n & -> & Hn)%list_elem_of_fmap. rewrite <- Hnames in Hn.
    apply list_elem_of_fmap in Hn as [[n' c] [-> Hin]].
    unfold Fs.is_regular, mf.
    by rewrite (stored_lookup _ _ _ _ c); [|apply all_actions_NoDup|]. }
  split; [|done].
  apply NoDup_Permutation.
  - apply entries_NoDup.
  - apply NoDup_app. split; [apply fixture_paths_NoDup|]. split.
    + intros p Hp [Hnot _]%list_elem_of_filter. done.
    + apply NoDup_filter, children_NoDup.
  - intros p. unfold Fs.entries. rewrite Hfolder.
    rewrite elem_of_app, elem_of_children. unfold other_entries.
    rewrite list_elem_of_filter, elem_of_children. split.
    + intros (Hsome & Hpar & Hne).
      destruct (decide (p ∈ fixture_paths folder)) as [Hin|Hout];
        [by left|right].
      split; [done|]. split; [|done].
      rewrite <- Hother by done. by rewrite <- Hframe.
    + intros [Hin|(Hout & Hsome & Hpar & Hne)].
      * specialize (Hreg p Hin). unfold Fs.is_regular in Hreg.
        apply list_elem_of_fmap in Hin as (n & -> & _).
        split; [by destruct (mf !! (folder </> n))|].
        split; [apply parent_child|apply child_neq].
      * split; [|done]. rewrite Hframe by done. by rewrite Hother.
Qed.

(** X12: [Created N files] counts what was in the folder before.  After a
    run in a folder that is ready, the count printed in the header of the
    listing is 14 plus the number of entries of other names, files or
    folders, that the fixture folder held when the run began. *)
Theorem header_counts_what_was_there (rt : runtime) (w : world)
    (desktop : path) :
  desktop_of rt (fs w) = Returns desktop →
  folder_ready (fs w) (desktop </> "test_files") fixture_names = true →
  font_loads rt = true →
  let folder := desktop </> "test_files" in
  ∃ names,
    out (exec (create_test_files rt) w)
    = out w ++ [creating_line folder] ++ builder_lines rt
      ++ [done_line; location_line folder]
      ++ listing_header (14 + length (other_entries (fs w) folder))
         :: (bullet <$> names).
Proof.
  intros Hd Hr Hf folder.
  destruct (create_test_files_ready rt w desktop Hd Hr Hf)
    as (m1 & Hm & Hdir & Hrun).
  fold folder in Hm, Hdir, Hrun.
  destruct (ready_entries rt (fs w) m1 folder Hf Hm Hdir
              (all_actions_aborts rt Hf)) as [Hperm _].
  unfold exec. rewrite Hrun. cbn [snd out].
  exists (listed (stored folder (stores (all_actions rt)) m1) folder).
  unfold listing. rewrite Hperm, length_app.
  unfold fixture_paths. by rewrite length_fmap.
Qed.

(** X12 where the fixture folder holds one file of another name: the
    header says 15. *)
Lemma header_counts_what_was_there_witness :
  ∃ names,
    out (exec (create_test_files Sample.pillow) (Sample.start Sample.kept_fs))
    = [] ++ [creating_line Sample.folder] ++ builder_lines Sample.pillow
      ++ [done_line; location_line Sample.folder]
      ++ listing_header
           (14 + length (other_entries Sample.kept_fs Sample.folder))
         :: (bullet <$> names).
Proof.
  apply (header_counts_what_was_there Sample.pillow
           (Sample.start Sample.kept_fs) (Sample.home </> "Desktop"));
    reflexivity.
Defined.

Lemma listed_names_Permutation : listed_names ≡ₚ fixture_names.
Proof.
  apply NoDup_Permutation.
  - by apply (bool_decide_unpack _).
  - apply fixture_names_NoDup.
  - intros n. split; intros Hn.
    + assert (H : Forall (λ x, x ∈ fixture_names) listed_names)
        by (by apply (bool_decide_unpack _)).
      rewrite Forall_forall in H. by apply H.
    + assert (H : Forall (λ x, x ∈ listed_names) fixture_names)
        by (by apply (bool_decide_unpack _)).
      rewrite Forall_forall in H. by apply H.
Qed.

(** The fixtures of a folder in the order of the listing. *)
Lemma sorted_fixture_paths (folder : path) :
  sorted (fixture_paths folder) = Pth.child folder <$> listed_names.
Proof.
  unfold sorted.
  apply (@Sorted_unique _ Pth.le path_le_trans path_le_antisym).
  - apply Sorted_merge_sort, path_le_total.
  - apply (Sorted_fmap _ (λ a b, Pth.le [a] [b])).
    + intros a b Hab. unfold Pth.le in *. by rewrite path_leb_child.
    + by apply (bool_decide_unpack _).
  - rewrite merge_sort_Permutation. unfold fixture_paths.
    by rewrite listed_names_Permutation.
Qed.

(** X11: the output of the whole script in a fresh folder.  From a home
    directory where the desktop folder is found, the fixture folder can
    be written to and holds nothing, [main] returns having printed, after
    the two lines of the banner: the line of the folder, the six lines of
    the builders, the two lines of success of [create_test_files], the
    header [Created 14 files], the fourteen names in ascending order, and
    its own two lines of success. *)
Theorem fresh_run_output (rt : runtime) (w : world) (desktop : path) :
  desktop_of rt (fs w) = Returns desktop →
  folder_ready (fs w) (desktop </> "test_files") fixture_names = true →
  font_loads rt = true →
  Fs.children (fs w) (desktop </> "test_files") = [] →
  let folder := desktop </> "test_files" in
  outcome (main rt) w = Returns tt
  ∧ out (exec (main rt) w)
    = out w ++ banner ++ [creating_line folder] ++ builder_lines rt
      ++ [done_line; location_line folder]
      ++ listing_header 14 :: ((λ n, "   • " +:+ n) <$> listed_names)
      ++ success_lines.
Proof.
  intros Hd Hr Hf Hempty folder.
  destruct (create_test_files_ready rt (World (fs w) (out w ++ banner))
              desktop Hd Hr Hf) as (m1 & Hm & Hdir & Hrun).
  fold folder in Hm, Hdir, Hrun. cbn [fs out] in *.
  destruct (ready_entries rt (fs w) m1 folder Hf Hm Hdir
              (all_actions_aborts rt Hf)) as [Hperm Hreg].
  set (mf := stored folder (stores (all_actions rt)) m1) in *.
  assert (Hent : Fs.entries mf folder ≡ₚ fixture_paths folder).
  { rewrite Hperm. unfold other_entries. fold folder in Hempty.
    rewrite Hempty. by rewrite app_nil_r. }
  assert (Hlisting : listing mf folder
            = listing_header 14 :: ((λ n, "   • " +:+ n) <$> listed_names)).
  { unfold listing, listed.
    rewrite (Permutation_length Hent), (sorted_unique _ _ Hent),
      sorted_fixture_paths.
    unfold fixture_paths. rewrite length_fmap. f_equal.
    rewrite forallb_filter_id.
    - rewrite <- list_fmap_compose. apply list_fmap_ext.
      intros i n _. unfold bullet. cbn. by rewrite name_child.
    - apply forallb_forall. intros p Hp. apply Hreg.
      apply list_elem_of_In in Hp.
      apply list_elem_of_fmap in Hp as (n & -> & Hn).
      apply list_elem_of_fmap. exists n. split; [done|].
      by rewrite <- listed_names_Permutation. }
  apply main_returns in Hrun. unfold outcome, exec. rewrite Hrun.
  split; [done|]. cbn [snd out]. rewrite Hlisting.
  by rewrite <- !app_assoc.
Qed.

(** X11 at a home directory with an empty desktop, with Pillow. *)
Lemma fresh_run_output_witness :
  out (exec (main Sample.pillow) (Sample.start Sample.base_fs))
  = [] ++ banner ++ [creating_line Sample.folder]
    ++ builder_lines Sample.pillow
    ++ [done_line; location_line Sample.folder]
    ++ listing_header 14 :: ((λ n, "   • " +:+ n) <$> listed_names)
    ++ success_lines.
Proof.
  apply (fresh_run_output Sample.pillow (Sample.start Sample.base_fs)
           (Sample.home </> "Desktop")); reflexivity.
Defined.

(** ** Without Pillow *)

(** X13: without Pillow the script never turns to it.  What
    [ImageFont.load_default] and the drawing object would do is of no
    account: any two runtimes without Pillow, with the same home
    directory and the same readings of the clock, give the same run of
    [main], and that run returns, so the names the failed import left
    undefined are never used. *)
Theorem no_pillow_no_PIL (rt rt' : runtime) (w : world) :
  PILLOW_AVAILABLE rt = false →
  PILLOW_AVAILABLE rt' = false →
  Path_home rt' = Path_home rt →
  (∀ k, k < 3 → time_localtime rt' k = time_localtime rt k) →
  main rt' w = main rt w
  ∧ outcome (main rt) w = Returns tt.
Proof.
  intros H1 H2 H3 H4. split.
  - destruct rt as [p lf gf h t], rt' as [p' lf' gf' h' t'].
    cbn [PILLOW_AVAILABLE Path_home time_localtime] in *. subst p p' h'.
    unfold main, create_test_files, create_archive_files.
    cbn [time_localtime]. rewrite !H4 by lia. reflexivity.
  - apply main_always_returns. unfold font_loads. by rewrite H1.
Qed.

(** X13 for the runtime where the names of Pillow are undefined and one
    where they would give a font. *)
Lemma no_pillow_no_PIL_witness :
  main (Runtime false (Returns default_font) (Returns default_font)
          Sample.home Sample.at_ten)
    (Sample.start Sample.base_fs)
  = main Sample.no_pillow (Sample.start Sample.base_fs)
  ∧ outcome (main Sample.no_pillow) (Sample.start Sample.base_fs)
    = Returns tt.
Proof.
  apply (no_pillow_no_PIL Sample.no_pillow
           (Runtime false (Returns default_font) (Returns default_font)
              Sample.home Sample.at_ten)
           (Sample.start Sample.base_fs)); reflexivity.
Defined.

(** ** The error that stops a run *)

(** The error of a store in a place that is no writable slot of a
    directory. *)
Lemma store_blocked (p : path) (c : content) (m : filesystem) (fw : bool) :
  writable_slot m p = false →
  m !! Pth.parent p = Some (Dir fw) →
  Fs.store p c m
  = Raises (match m !! p with
            | Some (Dir _) => EISDIR p
            | _ => EACCES p
            end).
Proof.
  unfold writable_slot, Fs.store. intros Hw Hp. rewrite Hp in *.
  destruct (m !! p) as [[wr|[|] c0]|]; try done. by destruct fw.
Qed.

(** A list of actions without an abort splits where its names do. *)
Lemma actions_split (l : list action) (pre post : list string)
    (n : string) :
  aborts l = [] →
  (stores l).*1 = pre ++ n :: post →
  ∃ l1 c l2,
    l = l1 ++ Store n c :: l2
    ∧ (stores l1).*1 = pre
    ∧ aborts l1 = []
    ∧ stores l1 = take (length pre) (stores l).
Proof.
  revert pre. induction l as [|[n0 c0|e0] l IH]; intros pre Ha Hn.
  - by destruct pre.
  - destruct pre as [|n1 pre]; simpl in Hn.
    + injection Hn as -> Hn. by exists [], c0, l.
    + injection Hn as -> Hn.
      destruct (IH pre Ha Hn) as (l1 & c & l2 & -> & H1 & H2 & H3).
      exists (Store n1 c0 :: l1), c, l2.
      split; [done|]. split; [by rewrite <- H1|]. split; [done|].
      cbn [stores length take]. by f_equal.
  - done.
Qed.

(** X14: the error that stops a run is the one of the first file, in the
    order of writing, that cannot be written.  With the fixture folder
    there and nothing but the file system to stop the image builder, when
    the files before [n] can be written and [n] cannot, the run raises
    the error of [n]: an [IsADirectoryError] where a directory has this
    name, a [PermissionError] otherwise; the files before [n] are
    written, and [n] and the files after it are not tried. *)
Theorem first_blocked_file (rt : runtime) (w : world) (desktop : path)
    (fw : bool) (pre post : list string) (n : string) :
  let folder := desktop </> "test_files" in
  desktop_of rt (fs w) = Returns desktop →
  fs w !! folder = Some (Dir fw) →
  font_loads rt = true →
  fixture_names = pre ++ n :: post →
  forallb (λ n', writable_slot (fs w) (folder </> n')) pre = true →
  writable_slot (fs w) (folder </> n) = false →
  outcome (create_test_files rt) w
  = Raises (match fs w !! (folder </> n) with
            | Some (Dir _) => EISDIR (folder </> n)
            | _ => EACCES (folder </> n)
            end)
  ∧ fs (exec (create_test_files rt) w)
    = stored folder (take (length pre) (stores (all_actions rt))) (fs w).
Proof.
  intros folder Hd Hdir Hf Hnames Hpre Hn.
  destruct (create_test_files_generated rt w) as [Ho Hfs].
  unfold generated in Ho, Hfs. rewrite Hd in Ho, Hfs. fold folder in Ho, Hfs.
  rewrite (make_dir_again _ _ _ Hdir) in Ho, Hfs. rewrite Ho, Hfs.
  clear Ho Hfs.
  pose proof (all_actions_names rt Hf) as Hall.
  pose proof (all_actions_aborts rt Hf) as Hab.
  rewrite Hnames in Hall.
  destruct (actions_split _ _ _ _ Hab Hall)
    as (l1 & c & l2 & Hl & Hl1 & Hab1 & Htake).
  rewrite <- Htake. rewrite Hl.
  pose proof fixture_names_NoDup as Hnd. rewrite Hnames in Hnd.
  apply NoDup_app in Hnd as (_ & Hnotin & _).
  rewrite perform_app, perform_ready; [|done|].
  2:{ rewrite Hl1. apply Forall_forall. intros n' Hn'.
      rewrite forallb_forall in Hpre. apply Hpre.
      by apply list_elem_of_In. }
  cbn [perform].
  assert (Hp : stored folder (stores l1) (fs w) !! (folder </> n)
               = fs w !! (folder </> n)).
  { apply stored_lookup_ne. rewrite Hl1. intros n' Hn' Heq.
    apply child_inj in Heq as ->.
    apply (Hnotin n' Hn'). apply elem_of_cons. by left. }
  assert (Hpar : stored folder (stores l1) (fs w)
                   !! Pth.parent (folder </> n) = Some (Dir fw)).
  { rewrite parent_child, stored_lookup_ne; [done|].
    intros n' _. apply not_eq_sym, child_neq. }
  rewrite (store_blocked _ _ _ fw); [by rewrite Hp| |done].
  unfold writable_slot in *. by rewrite Hp, Hpar, parent_child, Hdir in *.
Qed.

(** X14 where [sample_image.png] is taken by a directory: the run raises
    an [IsADirectoryError] for it, after the two text files. *)
Lemma first_blocked_file_witness :
  outcome (create_test_files Sample.no_pillow)
    (Sample.start Sample.blocked_fs)
  = Raises (EISDIR (Sample.folder </> "sample_image.png")).
Proof.
  destruct (first_blocked_file Sample.no_pillow
              (Sample.start Sample.blocked_fs) (Sample.home </> "Desktop")
              true ["readme.txt"; "notes.txt"]
              (drop 3 fixture_names) "sample_image.png")
    as [H _]; [reflexivity..|].
  rewrite H. reflexivity.
Defined.
